(** * Plataforma Educativa Chaski: the HTTP gateway, embedded in Rocq

    The repository holds three versions of one Express server
    ([src/server.js], [src/unnamed/part_000], [src/unnamed/part_001]).
    Every route validates its input, awaits one or more calls of the
    Supabase client and shapes a JSON response.

    The embedding follows that structure:
    - JavaScript values and the few operators the handlers use ([JS]);
    - the Supabase client as an interface of awaited operations ([Supabase]);
    - a handler as a program over that interface ([Prog]), run against an
      arbitrary service, with the sequence of calls it made as a trace;
    - a reference reading of the read-only queries over tables of rows
      ([Store]), used where a statement speaks of the rows upstream;
    - the three servers ([Server], [Part000], [Part001]), route by route.

    What is left out: [console.log] and [console.error], which only
    write to the log; the middleware ahead of the routes (helmet, cors,
    the body parsers, the request logger), of which the handlers see the
    parsed request only; the start of the process. Numbers are integers.
    An awaited call may resolve with any [data] and [error], or reject:
    what the service does is a parameter of every statement. *)

From Stdlib Require Import String Ascii List ZArith NArith Bool Lia.
From Stdlib Require Import Sorting.Sorted DecimalString.
From ExtLib Require Import Structures.Monad.
Import ListNotations.
Import MonadNotation.
Open Scope string_scope.
Open Scope monad_scope.
Open Scope bool_scope.

(* ===================================================================== *)
(** ** JavaScript values *)
(* ===================================================================== *)

Module JS.

Set Warnings "-register-all".

(** JSON-shaped values. Numbers are integers here: the handlers only pass
    numbers through or take the length of an array. *)
Inductive value : Type :=
| VUndefined
| VNull
| VBool (b : bool)
| VNum (n : Z)
| VStr (s : string)
| VArr (items : list value)
| VObj (fields : list (string * value)).

(** [!!v] *)
Definition truthy (v : value) : bool :=
  match v with
  | VUndefined | VNull => false
  | VBool b => b
  | VNum n => negb (n =? 0)%Z
  | VStr EmptyString => false
  | VStr _ => true
  | VArr _ | VObj _ => true
  end.

(** [v === undefined || v === null] *)
Definition nullish (v : value) : bool :=
  match v with
  | VUndefined | VNull => true
  | _ => false
  end.

(** [a || b] *)
Definition or_else (a b : value) : value := if truthy a then a else b.

(** [a ? b : c] *)
Definition cond (a b c : value) : value := if truthy a then b else c.

(** [v === 'literal'] *)
Definition strict_eq_str (v : value) (s : string) : bool :=
  match v with
  | VStr t => String.eqb t s
  | _ => false
  end.

(** Own property of an object literal or of a parsed JSON object. *)
Fixpoint lookup (k : string) (fs : list (string * value)) : value :=
  match fs with
  | [] => VUndefined
  | (k', v) :: rest => if String.eqb k k' then v else lookup k rest
  end.

(** The length of a string as JavaScript counts it, in UTF-16 units, read
    off the UTF-8 bytes that hold it here: a byte that starts a character
    counts for one unit, for two when the character takes four bytes (a
    surrogate pair), and a continuation byte for none. *)
Fixpoint utf16_length (s : string) : nat :=
  match s with
  | EmptyString => 0
  | String c rest =>
      (let n := nat_of_ascii c in
       if (n <? 128)%nat then 1
       else if (n <? 192)%nat then 0
       else if (n <? 240)%nat then 1
       else 2) + utf16_length rest
  end.

(** [v.k] for a [v] that is neither [undefined] nor [null]: a field of an
    object, the length of an array or of a string. *)
Definition member (k : string) (v : value) : value :=
  match v with
  | VObj fs => lookup k fs
  | VArr items =>
      if String.eqb k "length" then VNum (Z.of_nat (List.length items))
      else VUndefined
  | VStr s =>
      if String.eqb k "length" then VNum (Z.of_nat (utf16_length s))
      else VUndefined
  | _ => VUndefined
  end.

(** [v?.k] *)
Definition opt_member (k : string) (v : value) : value :=
  if nullish v then VUndefined else member k v.

Definition string_of_Z (n : Z) : string :=
  NilZero.string_of_int (Z.to_int n).

(** [String(v)], as a template literal or [+] with a string applies it.
    A number is printed with all its digits. This is the text of
    JavaScript for the safe integers, below 2^53; beyond them a number
    of JavaScript is rounded, and from 10^21 on it is printed with an
    exponent, so that the text here is not the one of the code (see
    [prints_exactly]). *)
Fixpoint to_string (v : value) : string :=
  match v with
  | VUndefined => "undefined"
  | VNull => "null"
  | VBool true => "true"
  | VBool false => "false"
  | VNum n => string_of_Z n
  | VStr s => s
  | VArr items =>
      (fix join (l : list value) : string :=
         match l with
         | [] => EmptyString
         | x :: rest =>
             let sx := if nullish x then EmptyString else to_string x in
             match rest with
             | [] => sx
             | _ :: _ => sx ++ "," ++ join rest
             end
         end) items
  | VObj _ => "[object Object]"
  end.

(** ['literal' + v] *)
Definition str_plus (s : string) (v : value) : value :=
  VStr (s ++ to_string v).

(** [s.replace(pat, rep)] with a string pattern: the first occurrence. *)
Fixpoint replace_first (pat rep s : string) : string :=
  if String.prefix pat s then
    rep ++ String.substring (String.length pat)
                            (String.length s - String.length pat) s
  else
    match s with
    | EmptyString => EmptyString
    | String c rest => String c (replace_first pat rep rest)
    end.

(** A [TypeError] as the engine throws it on [undefined.k] or [null.k]. *)
Definition type_error (v : value) (k : string) : value :=
  VObj [("name", VStr "TypeError");
        ("message", VStr ("Cannot read properties of " ++ to_string v
                          ++ " (reading '" ++ k ++ "')"))].

End JS.
Export JS.

Arguments type_error : simpl never.
Arguments str_plus : simpl never.

(* ===================================================================== *)
(** ** The Supabase client, as the handlers use it *)
(* ===================================================================== *)

Module Supabase.

(** The argument of [.select(...)]: the columns, and the related tables
    embedded in each row, as in ['*, niveles(nombre, descripcion)']. *)
Inductive columns : Type :=
| AllColumns
| Columns (names : list string).

Record embed : Type := Embed { rel : string; rel_columns : list string }.

(** A query under construction: [supabase.from(t).select(..).eq(..)...].
    Nothing is sent before the builder is awaited. *)
Record query : Type := {
  q_from : string;
  q_columns : columns;
  q_embeds : list embed;
  q_filters : list (string * value);
  q_order : option string;
  q_limit : option nat;
  q_single : bool
}.

Definition from (t : string) : query :=
  {| q_from := t; q_columns := AllColumns; q_embeds := [];
     q_filters := []; q_order := None; q_limit := None; q_single := false |}.

Definition select (c : columns) (e : list embed) (q : query) : query :=
  {| q_from := q_from q; q_columns := c; q_embeds := e;
     q_filters := q_filters q; q_order := q_order q;
     q_limit := q_limit q; q_single := q_single q |}.

Definition eq_ (col : string) (v : value) (q : query) : query :=
  {| q_from := q_from q; q_columns := q_columns q; q_embeds := q_embeds q;
     q_filters := q_filters q ++ [(col, v)]; q_order := q_order q;
     q_limit := q_limit q; q_single := q_single q |}.

Definition order (col : string) (q : query) : query :=
  {| q_from := q_from q; q_columns := q_columns q; q_embeds := q_embeds q;
     q_filters := q_filters q; q_order := Some col;
     q_limit := q_limit q; q_single := q_single q |}.

Definition limit (n : nat) (q : query) : query :=
  {| q_from := q_from q; q_columns := q_columns q; q_embeds := q_embeds q;
     q_filters := q_filters q; q_order := q_order q;
     q_limit := Some n; q_single := q_single q |}.

Definition single (q : query) : query :=
  {| q_from := q_from q; q_columns := q_columns q; q_embeds := q_embeds q;
     q_filters := q_filters q; q_order := q_order q;
     q_limit := q_limit q; q_single := true |}.

(** The awaited operations of the three servers. *)
Inductive op : Type :=
| Select (q : query)
    (** [await supabase.from(..).select(..)...] *)
| InsertSelectSingle (table : string) (rows : value)
    (** [await supabase.from(table).insert(rows).select().single()] *)
| auth_signUp (credentials : value)
| auth_signInWithPassword (credentials : value)
| auth_getUser (token : value)
| auth_signOut (token : value).

(** What an awaited call resolves to: the client answers with an object
    carrying [data] and [error]. *)
Record reply : Type := Reply { data : value; error : value }.

(** An awaited call resolves, or the promise rejects and [await] throws. *)
Inductive outcome : Type :=
| Resolved (r : reply)
| Rejected (e : value).

Definition event : Type := op * outcome.

Definition is_select (o : op) : bool :=
  match o with Select _ => true | _ => false end.

Definition is_signUp (o : op) : bool :=
  match o with auth_signUp _ => true | _ => false end.

Definition resolved (ev : event) : bool :=
  match snd ev with Resolved _ => true | Rejected _ => false end.

End Supabase.
Export Supabase.

Notation "x |> f" := (f x) (at level 40, left associativity, only parsing).

(* ===================================================================== *)
(** ** Handlers as programs over the client *)
(* ===================================================================== *)

(** An [async] function body: it returns, throws, or awaits a call of the
    client and goes on with what the call gave. *)
Inductive Prog (A : Type) : Type :=
| Ret (a : A)
| Throw (e : value)
| Await (o : op) (k : outcome -> Prog A).

Arguments Ret {A} a.
Arguments Throw {A} e.
Arguments Await {A} o k.

Fixpoint pbind {A B : Type} (p : Prog A) (f : A -> Prog B) : Prog B :=
  match p with
  | Ret a => f a
  | Throw e => Throw e
  | Await o k => Await o (fun r => pbind (k r) f)
  end.

#[export] Instance Monad_Prog : Monad Prog :=
  {| ret := @Ret; bind := @pbind |}.

(** [try { p } catch (error) { h error }] *)
Fixpoint try_catch {A : Type} (p : Prog A) (h : value -> Prog A) : Prog A :=
  match p with
  | Ret a => Ret a
  | Throw e => h e
  | Await o k => Await o (fun r => try_catch (k r) h)
  end.

(** [await call] *)
Definition await (o : op) : Prog reply :=
  Await o (fun r => match r with
                    | Resolved x => Ret x
                    | Rejected e => Throw e
                    end).

(** [v.k], which throws on [undefined] and [null]. *)
Definition prop (v : value) (k : string) : Prog value :=
  if nullish v then Throw (type_error v k) else Ret (member k v).

(** [v.k1.k2...] *)
Fixpoint props (v : value) (ks : list string) : Prog value :=
  match ks with
  | [] => Ret v
  | k :: rest => pbind (prop v k) (fun x => props x rest)
  end.

(** [a || b] where [b] is only evaluated when [a] is falsy. *)
Definition or_lazy (a : value) (b : Prog value) : Prog value :=
  if truthy a then Ret a else b.

(** [s.replace(pat, rep)]: a method of strings only. *)
Definition replace (v : value) (pat rep : string) : Prog value :=
  match v with
  | VStr s => Ret (VStr (replace_first pat rep s))
  | _ => Throw (VObj [("name", VStr "TypeError");
                      ("message", VStr "authHeader.replace is not a function")])
  end.

(** How a run of a handler ends. *)
Inductive result (A : Type) : Type :=
| Done (a : A)
| Raised (e : value).

Arguments Done {A} a.
Arguments Raised {A} e.

Section Run.
(** The service: any state, and for each call an outcome and a next
    state. Nothing is assumed about it. *)
Context {S : Type} (srv : S -> op -> outcome * S).

Fixpoint run {A : Type} (p : Prog A) (s : S) : result A * S * list event :=
  match p with
  | Ret a => (Done a, s, [])
  | Throw e => (Raised e, s, [])
  | Await o k =>
      let (r, s1) := srv s o in
      let '(x, s2, tr) := run (k r) s1 in
      (x, s2, (o, r) :: tr)
  end.

Definition outcome_of {A : Type} (p : Prog A) (s : S) : result A :=
  fst (fst (run p s)).

Definition state_after {A : Type} (p : Prog A) (s : S) : S :=
  snd (fst (run p s)).

Definition trace_of {A : Type} (p : Prog A) (s : S) : list event :=
  snd (run p s).
End Run.

(* ===================================================================== *)
(** ** Express: request, response, process *)
(* ===================================================================== *)

(** What the handlers read of [req]. The body parsers leave an object in
    [req.body]; [req.params], [req.query] and [req.headers] are objects. *)
Record request : Type := {
  body : list (string * value);
  params : list (string * value);
  query_string : list (string * value);
  headers : list (string * value);
  originalUrl : string
}.

(** What the handlers read of the process and of the clock. *)
Record process : Type := {
  NODE_ENV : value;              (** [process.env.NODE_ENV] *)
  toISOString : string;          (** [new Date().toISOString()] *)
  Date_now : Z;                  (** [Date.now()] *)
  uptime : value                 (** [process.uptime()] *)
}.

Record response : Type := { status : Z; json : value }.

(** [res.status(code).json(v)] *)
Definition res_status_json (code : Z) (v : value) : response :=
  {| status := code; json := v |}.

(** [res.json(v)] *)
Definition res_json (v : value) : response :=
  {| status := 200; json := v |}.

(** A route with its [try] block and its [catch] block. *)
Record guarded : Type := {
  try_block : process -> request -> Prog response;
  catch_block : process -> value -> Prog response
}.

Definition handler (g : guarded) (pr : process) (req : request) : Prog response :=
  try_catch (try_block g pr req) (catch_block g pr).

(* ===================================================================== *)
(** ** A reference reading of the read-only queries *)
(* ===================================================================== *)

(** The rows live in the external service. Where a statement speaks of
    them (active rows, their order, a name that matches no level), the
    queries the handlers build are read over tables of rows as PostgREST
    documents them: [eq] keeps the rows whose cell has the text of the
    argument, [order] sorts ascending with nulls last, [limit] keeps a
    prefix, [select] projects and embeds the related row, [single] wants
    exactly one row. *)
Module Store.

Definition row : Type := list (string * value).

Record store : Type := {
  table : string -> option (list row);
  (** [foreign_key t r]: the column of [t] that references [r.id] *)
  foreign_key : string -> string -> option string
}.

(** [col=eq.text]: the client sends the argument as text. *)
Definition cell_matches (arg cell : value) : bool :=
  match cell with
  | VBool _ | VNum _ | VStr _ => String.eqb (to_string arg) (to_string cell)
  | _ => false
  end.

Definition passes (filters : list (string * value)) (r : row) : bool :=
  forallb (fun f => cell_matches (snd f) (lookup (fst f) r)) filters.

Definition rank (v : value) : nat :=
  match v with
  | VNum _ => 0
  | VStr _ => 1
  | VBool _ => 2
  | _ => 3
  end.

(** Ascending order of cells, nulls last. *)
Definition cell_leb (a b : value) : bool :=
  match a, b with
  | VNum x, VNum y => (x <=? y)%Z
  | VStr x, VStr y => String.leb x y
  | VBool x, VBool y => implb x y
  | _, _ => (rank a <=? rank b)%nat
  end.

Fixpoint insert_row (col : string) (r : row) (l : list row) : list row :=
  match l with
  | [] => [r]
  | x :: rest =>
      if cell_leb (lookup col r) (lookup col x) then r :: l
      else x :: insert_row col r rest
  end.

Definition sort_rows (col : string) (l : list row) : list row :=
  fold_right (insert_row col) [] l.

Definition pick (cs : list string) (r : row) : row :=
  map (fun c => (c, if nullish (lookup c r) then VNull else lookup c r)) cs.

Definition embed_row (db : store) (parent : string) (r : row) (e : embed)
  : string * value :=
  (rel e,
   match foreign_key db parent (rel e), table db (rel e) with
   | Some fk, Some rows =>
       match find (fun x => cell_matches (lookup fk r) (lookup "id" x)) rows with
       | Some x => VObj (pick (rel_columns e) x)
       | None => VNull
       end
   | _, _ => VNull
   end).

Definition shape (db : store) (q : query) (r : row) : value :=
  VObj ((match q_columns q with
         | AllColumns => r
         | Columns cs => pick cs r
         end) ++ map (embed_row db (q_from q) r) (q_embeds q)).

Definition ordered (q : query) (l : list row) : list row :=
  match q_order q with
  | Some col => sort_rows col l
  | None => l
  end.

Definition limited (q : query) (l : list row) : list row :=
  match q_limit q with
  | Some n => firstn n l
  | None => l
  end.

(** The rows a query selects, before they are shaped. *)
Definition selected (q : query) (rows : list row) : list row :=
  limited q (ordered q (filter (passes (q_filters q)) rows)).

Definition ok (d : value) : reply := {| data := d; error := VNull |}.

Definition failure (msg : string) : reply :=
  {| data := VNull; error := VObj [("message", VStr msg)] |}.

Definition exec_select (db : store) (q : query) : reply :=
  match table db (q_from q) with
  | None => failure ("relation " ++ q_from q ++ " does not exist")
  | Some rows =>
      let out := map (shape db q) (selected q rows) in
      if q_single q then
        match out with
        | [r] => ok r
        | _ => failure "JSON object requested, multiple (or no) rows returned"
        end
      else ok (VArr out)
  end.

(** A service serves its reads from a store when every awaited query
    resolves to what the store holds and leaves the state as it was. *)
Definition serves {S : Type} (srv : S -> op -> outcome * S) (view : S -> store)
  : Prop :=
  forall s q, srv s (Select q) = (Resolved (exec_select (view s) q), s).

(** The plainest such service: the state is the store, and anything but
    a read is refused. *)
Definition reader (db : store) (o : op) : outcome * store :=
  match o with
  | Select q => (Resolved (exec_select db q), db)
  | _ => (Rejected (VObj [("message", VStr "read-only service")]), db)
  end.

End Store.
Export Store.

(** A service that answers from a script, one outcome per call, whatever
    the call; used to replay a concrete exchange. *)
Definition scripted (s : list outcome) (o : op) : outcome * list outcome :=
  match s with
  | [] => (Rejected (VObj [("message", VStr "fetch failed")]), [])
  | x :: rest => (x, rest)
  end.

(* ===================================================================== *)
(** ** src/server.js *)
(* ===================================================================== *)

Module Server.

(** [app.get('/')] *)
Definition get_root (pr : process) (req : request) : Prog response :=
  ret (res_json (VObj [
    ("message", VStr "🤖 Plataforma Educativa Chaski Bots - API funcionando");
    ("version", VStr "1.0.0");
    ("timestamp", VStr (toISOString pr));
    ("status", VStr "online");
    ("environment", or_else (NODE_ENV pr) (VStr "development"))])).

(** [app.get('/api/health')] *)
Definition get_api_health : guarded := {|
  try_block := fun pr req =>
    r <- await (Select (from "niveles" |> select (Columns ["id"]) [] |> limit 1)) ;;
    let data := data r in
    let error := error r in
    if truthy error then
      message <- prop error "message" ;;
      ret (res_status_json 500 (VObj [
        ("status", VStr "ERROR");
        ("database", VStr "Disconnected");
        ("supabase", VStr "Error");
        ("error", message);
        ("timestamp", VStr (toISOString pr))]))
    else
      ret (res_json (VObj [
        ("status", VStr "OK");
        ("database", VStr "Connected");
        ("supabase", VStr "Connected");
        ("timestamp", VStr (toISOString pr));
        ("uptime", uptime pr);
        ("dataTest", cond data (VStr "Success") (VStr "No data but connected"))]));
  catch_block := fun pr error =>
    message <- prop error "message" ;;
    ret (res_status_json 500 (VObj [
      ("status", VStr "ERROR");
      ("database", VStr "Error");
      ("error", message);
      ("timestamp", VStr (toISOString pr))]))
|}.

(** [app.get('/api/niveles')] *)
Definition get_api_niveles : guarded := {|
  try_block := fun pr req =>
    r <- await (Select (from "niveles" |> select AllColumns []
                        |> eq_ "activo" (VBool true) |> order "orden_nivel")) ;;
    let data := data r in
    let error := error r in
    if truthy error then
      message <- prop error "message" ;;
      ret (res_status_json 500 (VObj [
        ("error", VStr "Error al obtener niveles");
        ("details", message)]))
    else
      length <- prop data "length" ;;
      ret (res_json (VObj [
        ("success", VBool true);
        ("count", length);
        ("niveles", data)]));
  catch_block := fun pr error =>
    message <- prop error "message" ;;
    ret (res_status_json 500 (VObj [
      ("error", VStr "Error interno del servidor");
      ("details", message)]))
|}.

(** [app.get('/api/cursos/:nivelId')] *)
Definition get_api_cursos_nivelId : guarded := {|
  try_block := fun pr req =>
    let nivelId := lookup "nivelId" (params req) in
    r <- await (Select (from "cursos"
                        |> select AllColumns [Embed "niveles" ["nombre"; "descripcion"]]
                        |> eq_ "nivel_id" nivelId
                        |> eq_ "activo" (VBool true) |> order "orden_curso")) ;;
    let data := data r in
    let error := error r in
    if truthy error then
      message <- prop error "message" ;;
      ret (res_status_json 500 (VObj [
        ("error", VStr "Error al obtener cursos");
        ("details", message)]))
    else
      length <- prop data "length" ;;
      ret (res_json (VObj [
        ("success", VBool true);
        ("count", length);
        ("cursos", data)]));
  catch_block := fun pr error =>
    message <- prop error "message" ;;
    ret (res_status_json 500 (VObj [
      ("error", VStr "Error interno del servidor");
      ("details", message)]))
|}.

(** [app.get('/api/lecciones/:cursoId')] *)
Definition get_api_lecciones_cursoId : guarded := {|
  try_block := fun pr req =>
    let cursoId := lookup "cursoId" (params req) in
    r <- await (Select (from "lecciones" |> select AllColumns []
                        |> eq_ "curso_id" cursoId
                        |> eq_ "activo" (VBool true) |> order "orden_leccion")) ;;
    let data := data r in
    let error := error r in
    if truthy error then
      message <- prop error "message" ;;
      ret (res_status_json 500 (VObj [
        ("error", VStr "Error al obtener lecciones");
        ("details", message)]))
    else
      length <- prop data "length" ;;
      ret (res_json (VObj [
        ("success", VBool true);
        ("count", length);
        ("lecciones", data)]));
  catch_block := fun pr error =>
    message <- prop error "message" ;;
    ret (res_status_json 500 (VObj [
      ("error", VStr "Error interno del servidor");
      ("details", message)]))
|}.

(** [app.get('/api/instituciones')] *)
Definition get_api_instituciones : guarded := {|
  try_block := fun pr req =>
    r <- await (Select (from "instituciones"
                        |> select (Columns ["id"; "nombre"; "codigo_acceso"]) []
                        |> eq_ "activo" (VBool true))) ;;
    let data := data r in
    let error := error r in
    if truthy error then
      message <- prop error "message" ;;
      ret (res_status_json 500 (VObj [
        ("error", VStr "Error al obtener instituciones");
        ("details", message)]))
    else
      length <- prop data "length" ;;
      ret (res_json (VObj [
        ("success", VBool true);
        ("count", length);
        ("instituciones", data)]));
  catch_block := fun pr error =>
    message <- prop error "message" ;;
    ret (res_status_json 500 (VObj [
      ("error", VStr "Error interno del servidor");
      ("details", message)]))
|}.

(** [app.post('/api/auth/registro-estudiante')] *)
Definition post_api_auth_registro_estudiante : guarded := {|
  try_block := fun pr req =>
    let nombre := lookup "nombre" (body req) in
    let apellidos := lookup "apellidos" (body req) in
    let email := lookup "email" (body req) in
    let password := lookup "password" (body req) in
    let codigo_institucion := lookup "codigo_institucion" (body req) in
    let grado := lookup "grado" (body req) in
    if negb (truthy nombre) || negb (truthy apellidos) || negb (truthy email)
       || negb (truthy password) || negb (truthy codigo_institucion)
       || negb (truthy grado)
    then
      ret (res_status_json 400 (VObj [
        ("error", VStr "Todos los campos son requeridos")]))
    else
      r <- await (Select (from "instituciones"
                          |> select (Columns ["id"; "nombre"]) []
                          |> eq_ "codigo_acceso" codigo_institucion
                          |> eq_ "activo" (VBool true) |> single)) ;;
      let institucion := data r in
      let instError := error r in
      if truthy instError || negb (truthy institucion) then
        ret (res_status_json 400 (VObj [
          ("error", VStr "Código de institución inválido")]))
      else
        institucion_id <- prop institucion "id" ;;
        r <- await (auth_signUp (VObj [
               ("email", email);
               ("password", password);
               ("options", VObj [("data", VObj [
                  ("nombre", nombre);
                  ("apellidos", apellidos);
                  ("rol", VStr "estudiante");
                  ("grado", grado);
                  ("institucion_id", institucion_id)])])])) ;;
        let authUser := data r in
        let authError := error r in
        if truthy authError then
          message <- prop authError "message" ;;
          ret (res_status_json 400 (VObj [
            ("error", str_plus "Error al crear usuario: " message)]))
        else
          user_id <- props authUser ["user"; "id"] ;;
          user_email <- props authUser ["user"; "email"] ;;
          institucion_nombre <- prop institucion "nombre" ;;
          ret (res_status_json 201 (VObj [
            ("success", VBool true);
            ("message", VStr "Estudiante registrado exitosamente");
            ("user", VObj [
               ("id", user_id);
               ("email", user_email);
               ("nombre", nombre);
               ("apellidos", apellidos);
               ("rol", VStr "estudiante");
               ("grado", grado);
               ("institucion", institucion_nombre)])]));
  catch_block := fun pr error =>
    message <- prop error "message" ;;
    ret (res_status_json 500 (VObj [
      ("error", VStr "Error interno del servidor");
      ("details", message)]))
|}.

(** [app.use((err, req, res, next) => ...)]: Express calls it with the
    error a middleware passed on. *)
Definition error_middleware (pr : process) (err : value) : Prog response :=
  _ <- prop err "stack" ;;
  message <- (if strict_eq_str (NODE_ENV pr) "development"
              then prop err "message"
              else ret (VStr "Error interno del servidor")) ;;
  ret (res_status_json 500 (VObj [
    ("error", VStr "Algo salió mal!");
    ("message", message)])).

(** [app.use('*')] *)
Definition not_found (pr : process) (req : request) : Prog response :=
  ret (res_status_json 404 (VObj [
    ("error", VStr "Ruta no encontrada");
    ("path", VStr (originalUrl req))])).

End Server.

(* ===================================================================== *)
(** ** src/unnamed/part_000 *)
(* ===================================================================== *)

Module Part000.

(** [app.get('/')]: as in [src/server.js]. *)
Definition get_root := Server.get_root.

(** [app.get('/api/health')] *)
Definition get_api_health : guarded := {|
  try_block := fun pr req =>
    r <- await (Select (from "instituciones"
                        |> select (Columns ["count(*)"]) [] |> limit 1)) ;;
    let error := error r in
    if truthy error then Throw error
    else
      ret (res_json (VObj [
        ("status", VStr "OK");
        ("database", VStr "Connected");
        ("supabase", VStr "Connected");
        ("timestamp", VStr (toISOString pr));
        ("uptime", uptime pr)]));
  catch_block := fun pr error =>
    message <- prop error "message" ;;
    ret (res_status_json 500 (VObj [
      ("status", VStr "ERROR");
      ("database", VStr "Disconnected");
      ("error", message);
      ("timestamp", VStr (toISOString pr))]))
|}.

(** [app.post('/api/auth/registro-estudiante')] *)
Definition post_api_auth_registro_estudiante : guarded := {|
  try_block := fun pr req =>
    let nombre := lookup "nombre" (body req) in
    let apellidos := lookup "apellidos" (body req) in
    let email := lookup "email" (body req) in
    let password := lookup "password" (body req) in
    let codigo_institucion := lookup "codigo_institucion" (body req) in
    let grado := lookup "grado" (body req) in
    if negb (truthy nombre) || negb (truthy apellidos) || negb (truthy email)
       || negb (truthy password) || negb (truthy codigo_institucion)
       || negb (truthy grado)
    then
      ret (res_status_json 400 (VObj [
        ("error", VStr "Todos los campos son requeridos")]))
    else
      r <- await (Select (from "instituciones"
                          |> select (Columns ["id"; "nombre"]) []
                          |> eq_ "codigo_acceso" codigo_institucion
                          |> eq_ "activo" (VBool true) |> single)) ;;
      let institucion := data r in
      let instError := error r in
      if truthy instError || negb (truthy institucion) then
        ret (res_status_json 400 (VObj [
          ("error", VStr "Código de institución inválido")]))
      else
        r <- await (Select (from "usuarios" |> select (Columns ["id"]) []
                            |> eq_ "email" email |> single)) ;;
        let existingUser := data r in
        if truthy existingUser then
          ret (res_status_json 400 (VObj [
            ("error", VStr "El email ya está registrado")]))
        else
          let codigo_estudiante := str_plus "EST" (VNum (Date_now pr)) in
          institucion_id <- prop institucion "id" ;;
          r <- await (auth_signUp (VObj [
                 ("email", email);
                 ("password", password);
                 ("options", VObj [("data", VObj [
                    ("nombre", nombre);
                    ("apellidos", apellidos);
                    ("rol", VStr "estudiante");
                    ("grado", grado);
                    ("codigo_estudiante", codigo_estudiante);
                    ("institucion_id", institucion_id)])])])) ;;
          let authUser := data r in
          let authError := error r in
          if truthy authError then
            message <- prop authError "message" ;;
            ret (res_status_json 400 (VObj [
              ("error", str_plus "Error al crear usuario: " message)]))
          else
            user_id <- props authUser ["user"; "id"] ;;
            user_email <- props authUser ["user"; "email"] ;;
            institucion_nombre <- prop institucion "nombre" ;;
            ret (res_status_json 201 (VObj [
              ("message", VStr "Estudiante registrado exitosamente");
              ("user", VObj [
                 ("id", user_id);
                 ("email", user_email);
                 ("nombre", nombre);
                 ("apellidos", apellidos);
                 ("rol", VStr "estudiante");
                 ("grado", grado);
                 ("codigo_estudiante", codigo_estudiante);
                 ("institucion", institucion_nombre)])]));
  catch_block := fun pr error =>
    ret (res_status_json 500 (VObj [
      ("error", VStr "Error interno del servidor")]))
|}.

(** [app.post('/api/auth/login')] *)
Definition post_api_auth_login : guarded := {|
  try_block := fun pr req =>
    let email := lookup "email" (body req) in
    let password := lookup "password" (body req) in
    if negb (truthy email) || negb (truthy password) then
      ret (res_status_json 400 (VObj [
        ("error", VStr "Email y contraseña son requeridos")]))
    else
      r <- await (auth_signInWithPassword (VObj [
             ("email", email); ("password", password)])) ;;
      let authData := data r in
      let authError := error r in
      if truthy authError then
        ret (res_status_json 401 (VObj [
          ("error", VStr "Credenciales inválidas")]))
      else
        r <- await (Select (from "usuarios"
                            |> select AllColumns [Embed "instituciones" ["nombre"]]
                            |> eq_ "email" email |> single)) ;;
        let userData := data r in
        session <- prop authData "session" ;;
        user <- or_lazy userData (prop authData "user") ;;
        ret (res_json (VObj [
          ("message", VStr "Login exitoso");
          ("session", session);
          ("user", user)]));
  catch_block := fun pr error =>
    ret (res_status_json 500 (VObj [
      ("error", VStr "Error interno del servidor")]))
|}.

(** [app.get('/api/niveles')] *)
Definition get_api_niveles : guarded := {|
  try_block := fun pr req =>
    r <- await (Select (from "niveles" |> select AllColumns []
                        |> eq_ "activo" (VBool true) |> order "orden_nivel")) ;;
    let data := data r in
    let error := error r in
    if truthy error then Throw error
    else ret (res_json (VObj [("niveles", data)]));
  catch_block := fun pr error =>
    ret (res_status_json 500 (VObj [
      ("error", VStr "Error al obtener niveles")]))
|}.

(** [app.get('/api/cursos/:nivelId')] *)
Definition get_api_cursos_nivelId : guarded := {|
  try_block := fun pr req =>
    let nivelId := lookup "nivelId" (params req) in
    r <- await (Select (from "cursos"
                        |> select AllColumns [Embed "niveles" ["nombre"; "descripcion"]]
                        |> eq_ "nivel_id" nivelId
                        |> eq_ "activo" (VBool true) |> order "orden_curso")) ;;
    let data := data r in
    let error := error r in
    if truthy error then Throw error
    else ret (res_json (VObj [("cursos", data)]));
  catch_block := fun pr error =>
    ret (res_status_json 500 (VObj [
      ("error", VStr "Error al obtener cursos")]))
|}.

(** [app.get('/api/lecciones/:cursoId')] *)
Definition get_api_lecciones_cursoId : guarded := {|
  try_block := fun pr req =>
    let cursoId := lookup "cursoId" (params req) in
    r <- await (Select (from "lecciones" |> select AllColumns []
                        |> eq_ "curso_id" cursoId
                        |> eq_ "activo" (VBool true) |> order "orden_leccion")) ;;
    let data := data r in
    let error := error r in
    if truthy error then Throw error
    else ret (res_json (VObj [("lecciones", data)]));
  catch_block := fun pr error =>
    ret (res_status_json 500 (VObj [
      ("error", VStr "Error al obtener lecciones")]))
|}.

(** [app.get('/api/instituciones')] *)
Definition get_api_instituciones : guarded := {|
  try_block := fun pr req =>
    r <- await (Select (from "instituciones"
                        |> select (Columns ["id"; "nombre"; "codigo_acceso"]) []
                        |> eq_ "activo" (VBool true))) ;;
    let data := data r in
    let error := error r in
    if truthy error then Throw error
    else ret (res_json (VObj [("instituciones", data)]));
  catch_block := fun pr error =>
    ret (res_status_json 500 (VObj [
      ("error", VStr "Error al obtener instituciones")]))
|}.

(** The error middleware and the 404 route: as in [src/server.js]. *)
Definition error_middleware := Server.error_middleware.
Definition not_found := Server.not_found.

End Part000.

(* ===================================================================== *)
(** ** src/unnamed/part_001 *)
(* ===================================================================== *)

Module Part001.

(** These routes have the text of [src/server.js]. *)
Definition get_root := Server.get_root.
Definition get_api_health := Server.get_api_health.
Definition get_api_niveles := Server.get_api_niveles.
Definition get_api_cursos_nivelId := Server.get_api_cursos_nivelId.
Definition get_api_lecciones_cursoId := Server.get_api_lecciones_cursoId.
Definition get_api_instituciones := Server.get_api_instituciones.
Definition error_middleware := Server.error_middleware.
Definition not_found := Server.not_found.

(** [app.get('/api/cursos')] *)
Definition get_api_cursos : guarded := {|
  try_block := fun pr req =>
    let nivel := lookup "nivel" (query_string req) in
    let query :=
      from "cursos"
      |> select AllColumns
           [Embed "niveles" ["nombre"; "descripcion"; "color"; "icono"]]
      |> eq_ "activo" (VBool true) |> order "orden_curso" in
    query <- (if truthy nivel then
                r <- await (Select (from "niveles" |> select (Columns ["id"]) []
                                    |> eq_ "nombre" nivel |> single)) ;;
                let nivelData := data r in
                if truthy nivelData then
                  nivelData_id <- prop nivelData "id" ;;
                  ret (query |> eq_ "nivel_id" nivelData_id)
                else ret query
              else ret query) ;;
    r <- await (Select query) ;;
    let data := data r in
    let error := error r in
    if truthy error then
      message <- prop error "message" ;;
      ret (res_status_json 500 (VObj [
        ("error", VStr "Error al obtener cursos");
        ("details", message)]))
    else
      length <- prop data "length" ;;
      ret (res_json (VObj [
        ("success", VBool true);
        ("count", length);
        ("cursos", data)]));
  catch_block := fun pr error =>
    message <- prop error "message" ;;
    ret (res_status_json 500 (VObj [
      ("error", VStr "Error interno del servidor");
      ("details", message)]))
|}.

(** [app.post('/api/auth/registro-estudiante')] *)
Definition post_api_auth_registro_estudiante : guarded := {|
  try_block := fun pr req =>
    let nombre := lookup "nombre" (body req) in
    let apellidos := lookup "apellidos" (body req) in
    let email := lookup "email" (body req) in
    let password := lookup "password" (body req) in
    let codigo_institucion := lookup "codigo_institucion" (body req) in
    let grado := lookup "grado" (body req) in
    if negb (truthy nombre) || negb (truthy apellidos) || negb (truthy email)
       || negb (truthy password) || negb (truthy codigo_institucion)
       || negb (truthy grado)
    then
      ret (res_status_json 400 (VObj [
        ("error", VStr "Todos los campos son requeridos")]))
    else
      r <- await (Select (from "instituciones"
                          |> select (Columns ["id"; "nombre"]) []
                          |> eq_ "codigo_acceso" codigo_institucion
                          |> eq_ "activo" (VBool true) |> single)) ;;
      let institucion := data r in
      let instError := error r in
      if truthy instError || negb (truthy institucion) then
        ret (res_status_json 400 (VObj [
          ("error", VStr "Código de institución inválido")]))
      else
        institucion_id <- prop institucion "id" ;;
        r <- await (auth_signUp (VObj [
               ("email", email);
               ("password", password);
               ("options", VObj [("data", VObj [
                  ("nombre", nombre);
                  ("apellidos", apellidos);
                  ("rol", VStr "estudiante");
                  ("grado", grado);
                  ("institucion_id", institucion_id)])])])) ;;
        let authUser := data r in
        let authError := error r in
        if truthy authError then
          message <- prop authError "message" ;;
          ret (res_status_json 400 (VObj [
            ("error", str_plus "Error al crear usuario: " message)]))
        else
          user_id <- props authUser ["user"; "id"] ;;
          institucion_id <- prop institucion "id" ;;
          r <- await (InsertSelectSingle "usuarios" (VArr [VObj [
                 ("id", user_id);
                 ("institucion_id", institucion_id);
                 ("nombre", nombre);
                 ("apellidos", apellidos);
                 ("email", email);
                 ("password_hash", VStr "managed_by_supabase_auth");
                 ("rol", VStr "estudiante");
                 ("grado", grado);
                 ("activo", VBool true)]])) ;;
          let dbError := error r in
          (* [if (dbError)] only logs, and the handler goes on *)
          user_id <- props authUser ["user"; "id"] ;;
          user_email <- props authUser ["user"; "email"] ;;
          institucion_nombre <- prop institucion "nombre" ;;
          ret (res_status_json 201 (VObj [
            ("success", VBool true);
            ("message", VStr "Estudiante registrado exitosamente");
            ("user", VObj [
               ("id", user_id);
               ("email", user_email);
               ("nombre", nombre);
               ("apellidos", apellidos);
               ("rol", VStr "estudiante");
               ("grado", grado);
               ("institucion", institucion_nombre)])]));
  catch_block := fun pr error =>
    message <- prop error "message" ;;
    ret (res_status_json 500 (VObj [
      ("error", VStr "Error interno del servidor");
      ("details", message)]))
|}.

(** [app.post('/api/auth/login')] *)
Definition post_api_auth_login : guarded := {|
  try_block := fun pr req =>
    let email := lookup "email" (body req) in
    let password := lookup "password" (body req) in
    if negb (truthy email) || negb (truthy password) then
      ret (res_status_json 400 (VObj [
        ("error", VStr "Email y contraseña son requeridos")]))
    else
      r <- await (auth_signInWithPassword (VObj [
             ("email", email); ("password", password)])) ;;
      let authData := data r in
      let authError := error r in
      if truthy authError then
        ret (res_status_json 401 (VObj [
          ("error", VStr "Credenciales inválidas")]))
      else
        r <- await (Select (from "usuarios"
                 |> select (Columns ["id"; "nombre"; "apellidos"; "rol";
                                     "grado"; "activo"])
                      [Embed "instituciones" ["nombre"; "codigo_acceso"]]
                 |> eq_ "email" email |> eq_ "activo" (VBool true) |> single)) ;;
        let userData := data r in
        let userError := error r in
        if truthy userError then
          user_id <- props authData ["user"; "id"] ;;
          user_email <- props authData ["user"; "email"] ;;
          nombre <- props authData ["user"; "user_metadata"; "nombre"] ;;
          apellidos <- props authData ["user"; "user_metadata"; "apellidos"] ;;
          rol <- props authData ["user"; "user_metadata"; "rol"] ;;
          grado <- props authData ["user"; "user_metadata"; "grado"] ;;
          session <- prop authData "session" ;;
          ret (res_json (VObj [
            ("success", VBool true);
            ("message", VStr "Login exitoso");
            ("user", VObj [
               ("id", user_id);
               ("email", user_email);
               ("nombre", or_else nombre (VStr "Usuario"));
               ("apellidos", or_else apellidos (VStr EmptyString));
               ("rol", or_else rol (VStr "estudiante"));
               ("grado", or_else grado (VStr "sin-grado"))]);
            ("session", session)]))
        else
          id <- prop userData "id" ;;
          nombre <- prop userData "nombre" ;;
          apellidos <- prop userData "apellidos" ;;
          rol <- prop userData "rol" ;;
          grado <- prop userData "grado" ;;
          instituciones <- prop userData "instituciones" ;;
          session <- prop authData "session" ;;
          ret (res_json (VObj [
            ("success", VBool true);
            ("message", VStr "Login exitoso");
            ("user", VObj [
               ("id", id);
               ("email", email);
               ("nombre", nombre);
               ("apellidos", apellidos);
               ("rol", rol);
               ("grado", grado);
               ("institucion", or_else (opt_member "nombre" instituciones)
                                       (VStr "Sin institución"))]);
            ("session", session)]));
  catch_block := fun pr error =>
    message <- prop error "message" ;;
    ret (res_status_json 500 (VObj [
      ("error", VStr "Error interno del servidor");
      ("details", message)]))
|}.

(** [app.get('/api/auth/me')]. The pattern [{ data: { user }, error }]
    is read as the property [user] of [data]: on a nullish [data] a
    [TypeError] is thrown either way, which the engine words for a
    destructuring otherwise than [type_error] does. *)
Definition get_api_auth_me : guarded := {|
  try_block := fun pr req =>
    let authHeader := lookup "authorization" (headers req) in
    if negb (truthy authHeader) then
      ret (res_status_json 401 (VObj [("error", VStr "Token no proporcionado")]))
    else
      token <- replace authHeader "Bearer " EmptyString ;;
      r <- await (auth_getUser token) ;;
      user <- prop (data r) "user" ;;
      let error := error r in
      if truthy error || negb (truthy user) then
        ret (res_status_json 401 (VObj [("error", VStr "Token inválido")]))
      else
        user_id <- prop user "id" ;;
        r <- await (Select (from "usuarios"
                 |> select (Columns ["nombre"; "apellidos"; "rol"; "grado"])
                      [Embed "instituciones" ["nombre"]]
                 |> eq_ "id" user_id |> single)) ;;
        let userData := data r in
        id <- prop user "id" ;;
        email <- prop user "email" ;;
        nombre <- or_lazy (opt_member "nombre" userData)
                    (m <- props user ["user_metadata"; "nombre"] ;;
                     ret (or_else m (VStr "Usuario"))) ;;
        apellidos <- or_lazy (opt_member "apellidos" userData)
                       (m <- props user ["user_metadata"; "apellidos"] ;;
                        ret (or_else m (VStr EmptyString))) ;;
        rol <- or_lazy (opt_member "rol" userData)
                 (m <- props user ["user_metadata"; "rol"] ;;
                  ret (or_else m (VStr "estudiante"))) ;;
        grado <- or_lazy (opt_member "grado" userData)
                   (m <- props user ["user_metadata"; "grado"] ;;
                    ret (or_else m (VStr "sin-grado"))) ;;
        ret (res_json (VObj [
          ("success", VBool true);
          ("user", VObj [
             ("id", id);
             ("email", email);
             ("nombre", nombre);
             ("apellidos", apellidos);
             ("rol", rol);
             ("grado", grado);
             ("institucion",
              opt_member "nombre" (opt_member "instituciones" userData))])]));
  catch_block := fun pr error =>
    message <- prop error "message" ;;
    ret (res_status_json 500 (VObj [
      ("error", VStr "Error interno del servidor");
      ("details", message)]))
|}.

(** [app.post('/api/auth/logout')] *)
Definition post_api_auth_logout : guarded := {|
  try_block := fun pr req =>
    let authHeader := lookup "authorization" (headers req) in
    (if truthy authHeader then
       token <- replace authHeader "Bearer " EmptyString ;;
       _ <- await (auth_signOut token) ;;
       ret tt
     else ret tt) ;;
    ret (res_json (VObj [
      ("success", VBool true);
      ("message", VStr "Logout exitoso")]));
  catch_block := fun pr error =>
    message <- prop error "message" ;;
    ret (res_status_json 500 (VObj [
      ("error", VStr "Error interno del servidor");
      ("details", message)]))
|}.

End Part001.

(* ===================================================================== *)
(** ** The three servers side by side *)
(* ===================================================================== *)

Inductive variant : Type := server_js | part_000 | part_001.

(** [POST /api/auth/registro-estudiante], present in the three files. *)
Definition registro_estudiante (v : variant) : guarded :=
  match v with
  | server_js => Server.post_api_auth_registro_estudiante
  | part_000 => Part000.post_api_auth_registro_estudiante
  | part_001 => Part001.post_api_auth_registro_estudiante
  end.

(** [POST /api/auth/login], present in two of them. *)
Definition login (v : variant) : option guarded :=
  match v with
  | server_js => None
  | part_000 => Some Part000.post_api_auth_login
  | part_001 => Some Part001.post_api_auth_login
  end.

(** Every route that has a [try]/[catch], by method and path. *)
Definition guarded_routes (v : variant) : list (string * guarded) :=
  match v with
  | server_js =>
      [("GET /api/health", Server.get_api_health);
       ("GET /api/niveles", Server.get_api_niveles);
       ("GET /api/cursos/:nivelId", Server.get_api_cursos_nivelId);
       ("GET /api/lecciones/:cursoId", Server.get_api_lecciones_cursoId);
       ("GET /api/instituciones", Server.get_api_instituciones);
       ("POST /api/auth/registro-estudiante",
        Server.post_api_auth_registro_estudiante)]
  | part_000 =>
      [("GET /api/health", Part000.get_api_health);
       ("POST /api/auth/registro-estudiante",
        Part000.post_api_auth_registro_estudiante);
       ("POST /api/auth/login", Part000.post_api_auth_login);
       ("GET /api/niveles", Part000.get_api_niveles);
       ("GET /api/cursos/:nivelId", Part000.get_api_cursos_nivelId);
       ("GET /api/lecciones/:cursoId", Part000.get_api_lecciones_cursoId);
       ("GET /api/instituciones", Part000.get_api_instituciones)]
  | part_001 =>
      [("GET /api/health", Part001.get_api_health);
       ("GET /api/niveles", Part001.get_api_niveles);
       ("GET /api/cursos/:nivelId", Part001.get_api_cursos_nivelId);
       ("GET /api/cursos", Part001.get_api_cursos);
       ("GET /api/lecciones/:cursoId", Part001.get_api_lecciones_cursoId);
       ("GET /api/instituciones", Part001.get_api_instituciones);
       ("POST /api/auth/registro-estudiante",
        Part001.post_api_auth_registro_estudiante);
       ("POST /api/auth/login", Part001.post_api_auth_login);
       ("GET /api/auth/me", Part001.get_api_auth_me);
       ("POST /api/auth/logout", Part001.post_api_auth_logout)]
  end.

(** The fields [registro-estudiante] requires. *)
Definition required_fields : list string :=
  ["nombre"; "apellidos"; "email"; "password"; "codigo_institucion"; "grado"].

Definition all_present (fields : list string) (b : list (string * value)) : bool :=
  forallb (fun f => truthy (lookup f b)) fields.

(** The institution lookup, the same text in the three files. *)
Definition institucion_lookup (codigo_institucion : value) : query :=
  from "instituciones" |> select (Columns ["id"; "nombre"]) []
  |> eq_ "codigo_acceso" codigo_institucion
  |> eq_ "activo" (VBool true) |> single.

(* ===================================================================== *)
(** ** The vocabulary of the statements *)
(* ===================================================================== *)

(** What [auth.signInWithPassword] resolves to when the credentials are
    right: no error, a session with its token, the user with its
    metadata. *)
Definition signed_in (r : reply) : Prop :=
  truthy (error r) = false
  /\ truthy (member "access_token" (member "session" (data r))) = true
  /\ nullish (member "user_metadata" (member "user" (data r))) = false.

(** The profile lookup of part_001. *)
Definition profile_lookup (email : value) : query :=
  from "usuarios"
  |> select (Columns ["id"; "nombre"; "apellidos"; "rol"; "grado"; "activo"])
       [Embed "instituciones" ["nombre"; "codigo_acceso"]]
  |> eq_ "email" email |> eq_ "activo" (VBool true) |> single.

(** The calls a run made after its first [auth.signUp]. *)
Fixpoint after_signUp (tr : list event) : list event :=
  match tr with
  | [] => []
  | ev :: rest => if is_signUp (fst ev) then rest else after_signUp rest
  end.

(** The calls by which the registration could touch an account: none of
    the three handlers has another. *)
Definition registration_op (o : op) : bool :=
  match o with
  | Select _ | auth_signUp _ | InsertSelectSingle _ _ => true
  | auth_signInWithPassword _ | auth_getUser _ | auth_signOut _ => false
  end.

(** Two rows in the ascending order of the column [col]. *)
Definition row_le (col : string) (a b : row) : Prop :=
  cell_leb (lookup col a) (lookup col b) = true.

Inductive list_endpoint : Type :=
| Niveles         (** [GET /api/niveles] *)
| CursosNivel     (** [GET /api/cursos/:nivelId] *)
| Cursos          (** [GET /api/cursos], in part_001 only *)
| Lecciones       (** [GET /api/lecciones/:cursoId] *)
| Instituciones   (** [GET /api/instituciones] *).

Definition list_route (v : variant) (e : list_endpoint) : option guarded :=
  match v, e with
  | server_js, Niveles => Some Server.get_api_niveles
  | server_js, CursosNivel => Some Server.get_api_cursos_nivelId
  | server_js, Lecciones => Some Server.get_api_lecciones_cursoId
  | server_js, Instituciones => Some Server.get_api_instituciones
  | part_000, Niveles => Some Part000.get_api_niveles
  | part_000, CursosNivel => Some Part000.get_api_cursos_nivelId
  | part_000, Lecciones => Some Part000.get_api_lecciones_cursoId
  | part_000, Instituciones => Some Part000.get_api_instituciones
  | part_001, Niveles => Some Part001.get_api_niveles
  | part_001, CursosNivel => Some Part001.get_api_cursos_nivelId
  | part_001, Cursos => Some Part001.get_api_cursos
  | part_001, Lecciones => Some Part001.get_api_lecciones_cursoId
  | part_001, Instituciones => Some Part001.get_api_instituciones
  | _, Cursos => None
  end.

(** The table an endpoint lists, and the field of the answer that holds
    the array. *)
Definition entity_table (e : list_endpoint) : string :=
  match e with
  | Niveles => "niveles"
  | CursosNivel | Cursos => "cursos"
  | Lecciones => "lecciones"
  | Instituciones => "instituciones"
  end.

Definition array_key (e : list_endpoint) : string := entity_table e.

(** The active flag of a stored row, as the filter [eq('activo', true)]
    tests it. *)
Definition activo (r : row) : bool :=
  cell_matches (VBool true) (lookup "activo" r).

(** The active flag of a listed element is true: the boolean, or its text
    where the column holds text. *)
Definition active_flag (el : value) : Prop :=
  member "activo" el = VBool true \/ member "activo" el = VStr "true".

(** A listed array in the ascending order of a field of its elements:
    each element is at most every later one. *)
Definition sorted_by (c : string) (arr : list value) : Prop :=
  StronglySorted (fun a b => cell_leb (member c a) (member c b) = true) arr.

(** What is listed, endpoint by endpoint: for levels, courses and lessons
    every element carries a true active flag and the array is in the
    order of the entity's order field; institutions are listed as the
    three selected columns of the active rows, in the order upstream. *)
Definition listed (e : list_endpoint) (rows : list row) (arr : list value)
  : Prop :=
  match e with
  | Niveles => Forall active_flag arr /\ sorted_by "orden_nivel" arr
  | CursosNivel | Cursos => Forall active_flag arr /\ sorted_by "orden_curso" arr
  | Lecciones => Forall active_flag arr /\ sorted_by "orden_leccion" arr
  | Instituciones =>
      Forall (fun el => exists r, In r rows /\ activo r = true
                                  /\ el = VObj (pick ["id"; "nombre"; "codigo_acceso"] r))
             arr
  end.

(** Reads leave the data upstream as they found it. *)
Definition reads_only {S : Type} (srv : S -> op -> outcome * S) : Prop :=
  forall s q, snd (srv s (Select q)) = s.

(** The query of [GET /api/cursos] before any level filter is added. *)
Definition all_cursos : query :=
  from "cursos"
  |> select AllColumns [Embed "niveles" ["nombre"; "descripcion"; "color"; "icono"]]
  |> eq_ "activo" (VBool true) |> order "orden_curso".

(** The field of a 500 answer in which a [catch] block of
    [src/server.js] and part_001 puts the message of the exception. *)
Definition message_key (name : string) : string :=
  if String.eqb name "GET /api/health" then "error" else "details".

(* ===================================================================== *)
(** ** Exchanges to replay *)
(* ===================================================================== *)

(** A small store to replay requests on: the two levels of the example
    scenario, a few courses and lessons, two institutions. *)
Definition demo_niveles : list row := [
  [("id", VNum 1); ("nombre", VStr "Primaria"); ("descripcion", VStr "Básica");
   ("orden_nivel", VNum 1); ("activo", VBool true)];
  [("id", VNum 2); ("nombre", VStr "Secundaria"); ("descripcion", VStr "Media");
   ("orden_nivel", VNum 2); ("activo", VBool false)]].

Definition demo_cursos : list row := [
  [("id", VNum 10); ("nivel_id", VNum 1); ("nombre", VStr "Robótica II");
   ("orden_curso", VNum 2); ("activo", VBool true)];
  [("id", VNum 11); ("nivel_id", VNum 1); ("nombre", VStr "Robótica I");
   ("orden_curso", VNum 1); ("activo", VBool true)];
  [("id", VNum 12); ("nivel_id", VNum 2); ("nombre", VStr "Electrónica");
   ("orden_curso", VNum 3); ("activo", VBool true)];
  [("id", VNum 13); ("nivel_id", VNum 1); ("nombre", VStr "Archivado");
   ("orden_curso", VNum 0); ("activo", VBool false)]].

Definition demo_lecciones : list row := [
  [("id", VNum 100); ("curso_id", VNum 11); ("nombre", VStr "Motores");
   ("orden_leccion", VNum 2); ("activo", VBool true)];
  [("id", VNum 101); ("curso_id", VNum 11); ("nombre", VStr "Sensores");
   ("orden_leccion", VNum 1); ("activo", VBool true)]].

Definition demo_instituciones : list row := [
  [("id", VNum 7); ("nombre", VStr "Colegio Chaski");
   ("codigo_acceso", VStr "CHASKI"); ("activo", VBool true)];
  [("id", VNum 8); ("nombre", VStr "Colegio Viejo");
   ("codigo_acceso", VStr "VIEJO"); ("activo", VBool false)]].

Definition demo : store := {|
  table := fun t =>
    if String.eqb t "niveles" then Some demo_niveles
    else if String.eqb t "cursos" then Some demo_cursos
    else if String.eqb t "lecciones" then Some demo_lecciones
    else if String.eqb t "instituciones" then Some demo_instituciones
    else if String.eqb t "usuarios" then Some []
    else None;
  foreign_key := fun t r =>
    if String.eqb t "cursos" && String.eqb r "niveles" then Some "nivel_id"
    else if String.eqb t "usuarios" && String.eqb r "instituciones"
         then Some "institucion_id"
    else None
|}.

Definition a_process (env : value) : process :=
  {| NODE_ENV := env; toISOString := "2024-01-01T00:00:00.000Z";
     Date_now := 1704067200000; uptime := VNum 5 |}.

Definition a_request (b q p h : list (string * value)) : request :=
  {| body := b; params := p; query_string := q; headers := h;
     originalUrl := "/" |}.

Definition ana (codigo : string) : list (string * value) :=
  [("nombre", VStr "Ana"); ("apellidos", VStr "Paz");
   ("email", VStr "ana@x.ec"); ("password", VStr "secreto");
   ("codigo_institucion", VStr codigo); ("grado", VStr "8vo")].

Definition chaski_row : value :=
  VObj [("id", VNum 7); ("nombre", VStr "Colegio Chaski")].

Definition ana_account : value :=
  VObj [("user", VObj [("id", VStr "u-1"); ("email", VStr "ana@x.ec");
                       ("user_metadata", VObj [("nombre", VStr "Ana")])]);
        ("session", VNull)].

Definition ana_signUp : value :=
  VObj [("email", VStr "ana@x.ec"); ("password", VStr "secreto");
        ("options", VObj [("data", VObj [
           ("nombre", VStr "Ana"); ("apellidos", VStr "Paz");
           ("rol", VStr "estudiante"); ("grado", VStr "8vo");
           ("institucion_id", VNum 7)])])].

Definition ana_login : list (string * value) :=
  [("email", VStr "ana@x.ec"); ("password", VStr "secreto")].

Definition ana_credentials : value :=
  VObj [("email", VStr "ana@x.ec"); ("password", VStr "secreto")].

Definition ana_session : value :=
  VObj [("user", VObj [("id", VStr "u-1"); ("email", VStr "ana@x.ec");
                       ("user_metadata", VObj [("nombre", VStr "Ana");
                                               ("grado", VStr "8vo")])]);
        ("session", VObj [("access_token", VStr "eyJhbGciOi")])].

Definition no_rows : reply :=
  failure "JSON object requested, multiple (or no) rows returned".

Definition invalid_credentials : reply :=
  {| data := VObj [("user", VNull); ("session", VNull)];
     error := VObj [("message", VStr "Invalid login credentials")] |}.

Definition ana_profile : value :=
  VObj [("id", VStr "u-1"); ("nombre", VStr "Ana María"); ("apellidos", VStr "Paz");
        ("rol", VStr "estudiante"); ("grado", VStr "9no"); ("activo", VBool true);
        ("instituciones", VObj [("nombre", VStr "Colegio Chaski");
                                ("codigo_acceso", VStr "CHASKI")])].

Definition econnrefused : value :=
  VObj [("name", VStr "FetchError");
        ("message", VStr "connect ECONNREFUSED 10.0.0.5:443")].

(* ===================================================================== *)
(** ** More vocabulary: the routes the statements above leave out *)
(* ===================================================================== *)

(** A call whose promise rejected with [undefined] or [null]. *)
Definition rejected_nullish (ev : event) : bool :=
  match snd ev with
  | Rejected e => nullish e
  | Resolved _ => false
  end.

(** The statuses each route sends, by method and path: the literals of
    its [res.status(...)] calls, and 200 for a bare [res.json(...)]. *)
Definition statuses (name : string) : list Z :=
  if String.eqb name "POST /api/auth/registro-estudiante" then [201; 400; 500]%Z
  else if String.eqb name "POST /api/auth/login" then [200; 400; 401; 500]%Z
  else if String.eqb name "GET /api/auth/me" then [200; 401; 500]%Z
  else [200; 500]%Z.

(** The health check of each file, and the read it sends. *)
Definition health (v : variant) : guarded :=
  match v with
  | server_js => Server.get_api_health
  | part_000 => Part000.get_api_health
  | part_001 => Part001.get_api_health
  end.

Definition probe (v : variant) : query :=
  match v with
  | server_js | part_001 => from "niveles" |> select (Columns ["id"]) [] |> limit 1
  | part_000 => from "instituciones" |> select (Columns ["count(*)"]) [] |> limit 1
  end.

(** The column a list endpoint orders by, if it orders. *)
Definition order_field (e : list_endpoint) : option string :=
  match e with
  | Niveles => Some "orden_nivel"
  | CursosNivel | Cursos => Some "orden_curso"
  | Lecciones => Some "orden_leccion"
  | Instituciones => None
  end.

(** The level lookup of [GET /api/cursos]. *)
Definition nivel_lookup (nivel : value) : query :=
  from "niveles" |> select (Columns ["id"]) [] |> eq_ "nombre" nivel |> single.


Definition usuarios_unreachable : reply :=
  failure "relation usuarios does not exist".

Definition bad_jwt : reply :=
  {| data := VObj [("user", VNull)];
     error := VObj [("message", VStr "invalid JWT")] |}.

Definition session_not_found : reply :=
  {| data := VUndefined;
     error := VObj [("message", VStr "session_not_found")] |}.

Definition permission_denied : reply :=
  {| data := VNull;
     error := VObj [("message", VStr "permission denied for table niveles")] |}.

(* ===================================================================== *)
(** ** What the service answers, call by call *)
(* ===================================================================== *)

(** The service, from the state [s], answers the calls of [evs] in that
    order with the outcomes paired with them, and is left in [s']. This
    speaks of the service alone: of a handler it says nothing. *)
Fixpoint answers {S : Type} (srv : S -> op -> outcome * S) (s : S)
         (evs : list event) (s' : S) : Prop :=
  match evs with
  | [] => s' = s
  | ev :: rest =>
      exists s1, srv s (fst ev) = (snd ev, s1) /\ answers srv s1 rest s'
  end.


(** The argument of [auth.signUp] in each file. *)
Definition signUp_credentials (v : variant) (pr : process) (req : request)
           (institucion : value) : value :=
  VObj [("email", lookup "email" (body req));
        ("password", lookup "password" (body req));
        ("options", VObj [("data", VObj (
           [("nombre", lookup "nombre" (body req));
            ("apellidos", lookup "apellidos" (body req));
            ("rol", VStr "estudiante");
            ("grado", lookup "grado" (body req))]
           ++ match v with
              | part_000 =>
                  [("codigo_estudiante", str_plus "EST" (VNum (Date_now pr)))]
              | server_js | part_001 => []
              end
           ++ [("institucion_id", member "id" institucion)]))])].

(** The lookup of the email in part_000. *)
Definition email_lookup (email : value) : query :=
  from "usuarios" |> select (Columns ["id"]) [] |> eq_ "email" email |> single.

(** The rows that part_001 inserts into [usuarios]. *)
Definition profile_rows (req : request) (institucion authUser : value) : value :=
  VArr [VObj [
    ("id", member "id" (member "user" authUser));
    ("institucion_id", member "id" institucion);
    ("nombre", lookup "nombre" (body req));
    ("apellidos", lookup "apellidos" (body req));
    ("email", lookup "email" (body req));
    ("password_hash", VStr "managed_by_supabase_auth");
    ("rol", VStr "estudiante");
    ("grado", lookup "grado" (body req));
    ("activo", VBool true)]].

(** The calls of a registration up to [auth.signUp], with the replies
    [ri] to the institution lookup, [rx] to the lookup of the email
    (part_000 only) and [r] to [auth.signUp]. *)
Definition signUp_exchange (v : variant) (pr : process) (req : request)
           (ri rx r : reply) : list event :=
  (Select (institucion_lookup (lookup "codigo_institucion" (body req))),
   Resolved ri)
  :: match v with
     | part_000 =>
         [(Select (email_lookup (lookup "email" (body req))), Resolved rx)]
     | server_js | part_001 => []
     end
  ++ [(auth_signUp (signUp_credentials v pr req (data ri)), Resolved r)].

(** The calls of a registration that goes through, with the reply [r3]
    to the insert of part_001. *)
Definition registro_exchange (v : variant) (pr : process) (req : request)
           (ri rx r r3 : reply) : list event :=
  signUp_exchange v pr req ri rx r
  ++ match v with
     | part_001 =>
         [(InsertSelectSingle "usuarios" (profile_rows req (data ri) (data r)),
           Resolved r3)]
     | server_js | part_000 => []
     end.

(** The argument of [auth.signInWithPassword], and the profile read that
    follows it in each file. *)
Definition login_credentials (req : request) : value :=
  VObj [("email", lookup "email" (body req));
        ("password", lookup "password" (body req))].

Definition login_profile_query (v : variant) (email : value) : query :=
  match v with
  | part_001 => profile_lookup email
  | server_js | part_000 =>
      from "usuarios" |> select AllColumns [Embed "instituciones" ["nombre"]]
      |> eq_ "email" email |> single
  end.

(** The read of the table a list endpoint lists; for [GET /api/cursos]
    it depends on the reply [rl] to the level lookup. *)
Definition list_query (e : list_endpoint) (req : request) (rl : reply) : query :=
  match e with
  | Niveles =>
      from "niveles" |> select AllColumns []
      |> eq_ "activo" (VBool true) |> order "orden_nivel"
  | CursosNivel =>
      from "cursos"
      |> select AllColumns [Embed "niveles" ["nombre"; "descripcion"]]
      |> eq_ "nivel_id" (lookup "nivelId" (params req))
      |> eq_ "activo" (VBool true) |> order "orden_curso"
  | Cursos =>
      if truthy (lookup "nivel" (query_string req)) && truthy (data rl)
      then all_cursos |> eq_ "nivel_id" (member "id" (data rl))
      else all_cursos
  | Lecciones =>
      from "lecciones" |> select AllColumns []
      |> eq_ "curso_id" (lookup "cursoId" (params req))
      |> eq_ "activo" (VBool true) |> order "orden_leccion"
  | Instituciones =>
      from "instituciones"
      |> select (Columns ["id"; "nombre"; "codigo_acceso"]) []
      |> eq_ "activo" (VBool true)
  end.

(** The calls of a list endpoint, with the reply [r] to the read of the
    listed table. *)
Definition list_exchange (e : list_endpoint) (req : request) (rl r : reply)
  : list event :=
  match e with
  | Cursos =>
      if truthy (lookup "nivel" (query_string req))
      then [(Select (nivel_lookup (lookup "nivel" (query_string req))),
             Resolved rl)]
      else []
  | _ => []
  end
  ++ [(Select (list_query e req rl), Resolved r)].

(** The same read on a store, which answers the level lookup itself. *)
Definition entity_query (db : store) (e : list_endpoint) (req : request)
  : query :=
  list_query e req
    (exec_select db (nivel_lookup (lookup "nivel" (query_string req)))).

(** What goes with the array in a 200 answer of a list endpoint. *)
Definition counted (v : variant) (arr : list value) : list (string * value) :=
  match v with
  | part_000 => []
  | server_js | part_001 =>
      [("success", VBool true); ("count", VNum (Z.of_nat (List.length arr)))]
  end.

(** A store whose institutions are in no ascending order. *)
Definition unordered_instituciones : list row := [
  [("id", VNum 9); ("nombre", VStr "Zeta"); ("codigo_acceso", VStr "ZZ");
   ("activo", VBool true)];
  [("id", VNum 3); ("nombre", VStr "Alfa"); ("codigo_acceso", VStr "AA");
   ("activo", VBool true)]].

Definition unordered : store := {|
  table := fun t =>
    if String.eqb t "instituciones" then Some unordered_instituciones else None;
  foreign_key := fun _ _ => None
|}.

(* ===================================================================== *)
(** ** The operators on examples *)
(* ===================================================================== *)

Example truthy_examples :
  map truthy [VUndefined; VNull; VBool false; VNum 0; VStr EmptyString;
              VStr "a"; VNum 7; VArr []; VObj []]
  = [false; false; false; false; false; true; true; true; true].
Proof. reflexivity. Qed.

Example to_string_examples :
  map to_string [VNum 12; VNum (-3); VNum 0; VBool true;
                 VArr [VStr "a"; VNull; VNum 2]]
  = ["12"; "-3"; "0"; "true"; "a,,2"].
Proof. reflexivity. Qed.

Example utf16_length_examples :
  map utf16_length ["abc"; "niño"; "año 2024"; "🤖"] = [3; 4; 8; 2]%nat.
Proof. reflexivity. Qed.

Example replace_first_examples :
  map (replace_first "Bearer " EmptyString) ["Bearer abc"; "abc"; "x Bearer y Bearer z"]
  = ["abc"; "abc"; "x y Bearer z"].
Proof. reflexivity. Qed.

(* ===================================================================== *)
(** ** Running programs: general facts *)
(* ===================================================================== *)

Section RunFacts.
Context {S : Type} (srv : S -> op -> outcome * S).

Lemma run_pbind {A B : Type} (p : Prog A) (f : A -> Prog B) (s : S) :
  run srv (pbind p f) s =
  match run srv p s with
  | (Done a, s1, tr) =>
      let '(x, s2, tr2) := run srv (f a) s1 in (x, s2, (tr ++ tr2)%list)
  | (Raised e, s1, tr) => (Raised e, s1, tr)
  end.
Proof.
  revert s. induction p as [a | e | o k IH]; intros s; cbn.
  - destruct (run srv (f a) s) as [[x s2] tr2]. reflexivity.
  - reflexivity.
  - destruct (srv s o) as [r s1]. rewrite IH.
    destruct (run srv (k r) s1) as [[[a | e] s2] tr]; cbn.
    + destruct (run srv (f a) s2) as [[x s3] tr2]. reflexivity.
    + reflexivity.
Qed.

Lemma run_try_catch {A : Type} (p : Prog A) (h : value -> Prog A) (s : S) :
  run srv (try_catch p h) s =
  match run srv p s with
  | (Done a, s1, tr) => (Done a, s1, tr)
  | (Raised e, s1, tr) =>
      let '(x, s2, tr2) := run srv (h e) s1 in (x, s2, (tr ++ tr2)%list)
  end.
Proof.
  revert s. induction p as [a | e | o k IH]; intros s; cbn.
  - reflexivity.
  - destruct (run srv (h e) s) as [[x s2] tr2]. reflexivity.
  - destruct (srv s o) as [r s1]. rewrite IH.
    destruct (run srv (k r) s1) as [[[a | e] s2] tr]; cbn.
    + reflexivity.
    + destruct (run srv (h e) s2) as [[x s3] tr2]. reflexivity.
Qed.
End RunFacts.

Lemma truthy_not_nullish (v : value) : truthy v = true -> nullish v = false.
Proof. destruct v; cbn; congruence. Qed.

Lemma all_present_In (fields : list string) (b : list (string * value)) :
  all_present fields b = true <->
  forall f, In f fields -> truthy (lookup f b) = true.
Proof. unfold all_present. apply forallb_forall. Qed.

Lemma not_all_present (fields : list string) (b : list (string * value)) :
  all_present fields b = false <->
  exists f, In f fields /\ truthy (lookup f b) = false.
Proof.
  unfold all_present. induction fields as [| f rest IH]; cbn.
  - split; [discriminate | intros [f [[] _]]].
  - rewrite andb_false_iff, IH. split.
    + intros [H | [g [Hin Hg]]]; eauto.
    + intros [g [[<- | Hin] Hg]]; eauto.
Qed.

(* ===================================================================== *)
(** ** Registration: the required fields *)
(* ===================================================================== *)

(** C1. In each of the three files, a registration request in which one
    of the six required fields is missing or falsy is answered 400 with
    an [error] field, and the run makes no call of the client: the trace
    is empty and the state of the service is the one it started from. *)
Theorem registro_missing_field :
  forall (v : variant) (S : Type) (srv : S -> op -> outcome * S) (s : S)
         (pr : process) (req : request),
    (exists f, In f required_fields /\ truthy (lookup f (body req)) = false) ->
    run srv (handler (registro_estudiante v) pr req) s =
    (Done (res_status_json 400
             (VObj [("error", VStr "Todos los campos son requeridos")])),
     s, []).
Proof.
  intros v S srv s pr req [f [Hin Hf]].
  assert (Hc : negb (truthy (lookup "nombre" (body req)))
               || negb (truthy (lookup "apellidos" (body req)))
               || negb (truthy (lookup "email" (body req)))
               || negb (truthy (lookup "password" (body req)))
               || negb (truthy (lookup "codigo_institucion" (body req)))
               || negb (truthy (lookup "grado" (body req))) = true).
  { cbn in Hin.
    destruct Hin as [<- | [<- | [<- | [<- | [<- | [<- | []]]]]]];
      rewrite Hf; cbn; rewrite ?orb_true_r; reflexivity. }
  destruct v; unfold handler, registro_estudiante; cbn; rewrite Hc; reflexivity.
Qed.

(** A request without [grado], replayed on [src/server.js]. *)
Lemma registro_missing_field_witness :
  run scripted
      (handler (registro_estudiante server_js)
         {| NODE_ENV := VStr "production"; toISOString := "2024-01-01T00:00:00.000Z";
            Date_now := 1704067200000; uptime := VNum 5 |}
         {| body := [("nombre", VStr "Ana"); ("apellidos", VStr "Paz");
                     ("email", VStr "ana@x.ec"); ("password", VStr "secreto");
                     ("codigo_institucion", VStr "CHASKI")];
            params := []; query_string := []; headers := [];
            originalUrl := "/api/auth/registro-estudiante" |})
      [] =
  (Done (res_status_json 400
           (VObj [("error", VStr "Todos los campos son requeridos")])),
   [], []).
Proof.
  apply registro_missing_field.
  exists "grado". split; [cbn; tauto | reflexivity].
Defined.

(* ===================================================================== *)
(** ** Registration: the institution code *)
(* ===================================================================== *)

(** Case analysis on a run: split on what the service answers and on the
    tests of the handler, as far as they go. *)
Ltac step_run srv :=
  match goal with
  | |- context [srv ?s ?o] =>
      let H := fresh "Hsrv" in
      destruct (srv s o) as [[? | ?] ?] eqn:H
  | |- context [if ?b then _ else _] =>
      let H := fresh "Htest" in
      match b with
      | context [truthy ?v] => destruct (truthy v) eqn:H
      | context [nullish ?v] =>
          first [ rewrite (truthy_not_nullish v) by assumption
                | destruct (nullish v) eqn:H ]
      | _ => destruct b eqn:H
      end
  end;
  cbn; unfold prop, or_lazy; cbn.

Ltac steps srv := unfold prop, or_lazy; cbn; repeat step_run srv.

Ltac split_present H :=
  cbn in H;
  repeat match type of H with
         | (_ && _) = true =>
             let H1 := fresh "Hfield" in
             apply andb_prop in H; destruct H as [H1 H]
         end.

Lemma registro_invalid_institucion_run :
  forall (v : variant) (S : Type) (srv : S -> op -> outcome * S) (s s1 : S)
         (pr : process) (req : request) (r : reply),
    all_present required_fields (body req) = true ->
    srv s (Select (institucion_lookup (lookup "codigo_institucion" (body req))))
    = (Resolved r, s1) ->
    truthy (error r) = true \/ truthy (data r) = false ->
    run srv (handler (registro_estudiante v) pr req) s =
    (Done (res_status_json 400
             (VObj [("error", VStr "Código de institución inválido")])),
     s1,
     [(Select (institucion_lookup (lookup "codigo_institucion" (body req))),
       Resolved r)]).
Proof.
  intros v S srv s s1 pr req r Hall Hsrv Hbad.
  split_present Hall.
  assert (Hc : truthy (error r) || negb (truthy (data r)) = true).
  { destruct Hbad as [-> | ->]; [reflexivity | apply orb_true_r]. }
  unfold institucion_lookup in *. cbn in Hsrv.
  destruct v; unfold handler, registro_estudiante; cbn;
    rewrite Hfield, Hfield0, Hfield1, Hfield2, Hfield3, Hfield4; cbn;
    rewrite Hsrv; cbn; rewrite Hc; reflexivity.
Qed.

(** C2. In each of the three files, when the six fields are present and
    the institution lookup comes back with an error or without a row,
    the answer is 400 and the run never calls [auth.signUp]: the lookup
    is the only call made. *)
Theorem registro_invalid_institucion :
  forall (v : variant) (S : Type) (srv : S -> op -> outcome * S) (s s1 : S)
         (pr : process) (req : request) (r : reply),
    all_present required_fields (body req) = true ->
    srv s (Select (institucion_lookup (lookup "codigo_institucion" (body req))))
    = (Resolved r, s1) ->
    truthy (error r) = true \/ truthy (data r) = false ->
    (exists resp,
        outcome_of srv (handler (registro_estudiante v) pr req) s = Done resp
        /\ status resp = 400%Z
        /\ nullish (member "error" (json resp)) = false)
    /\ existsb (fun ev => is_signUp (fst ev))
               (trace_of srv (handler (registro_estudiante v) pr req) s) = false
    /\ List.length (trace_of srv (handler (registro_estudiante v) pr req) s) = 1%nat.
Proof.
  intros v S srv s s1 pr req r Hall Hsrv Hbad.
  unfold outcome_of, trace_of.
  rewrite (registro_invalid_institucion_run v S srv s s1 pr req r Hall Hsrv Hbad).
  cbn. repeat split. eexists. repeat split.
Qed.

Example niveles_scenario :
  outcome_of reader (handler Server.get_api_niveles (a_process VUndefined)
                       (a_request [] [] [] [])) demo =
  Done (res_json (VObj [
    ("success", VBool true);
    ("count", VNum 1);
    ("niveles", VArr [VObj [
       ("id", VNum 1); ("nombre", VStr "Primaria"); ("descripcion", VStr "Básica");
       ("orden_nivel", VNum 1); ("activo", VBool true)]])])).
Proof. reflexivity. Qed.

(** The code of an institution that is no longer active, on part_001. *)
Lemma registro_invalid_institucion_witness :
  (exists resp,
      outcome_of reader (handler (registro_estudiante part_001)
                           (a_process (VStr "production"))
                           (a_request (ana "VIEJO") [] [] [])) demo = Done resp
      /\ status resp = 400%Z
      /\ nullish (member "error" (json resp)) = false)
  /\ existsb (fun ev => is_signUp (fst ev))
       (trace_of reader (handler (registro_estudiante part_001)
                           (a_process (VStr "production"))
                           (a_request (ana "VIEJO") [] [] [])) demo) = false
  /\ List.length
       (trace_of reader (handler (registro_estudiante part_001)
                           (a_process (VStr "production"))
                           (a_request (ana "VIEJO") [] [] [])) demo) = 1%nat.
Proof.
  apply (registro_invalid_institucion part_001 store reader demo demo
           (a_process (VStr "production")) (a_request (ana "VIEJO") [] [] [])
           (failure "JSON object requested, multiple (or no) rows returned")).
  - reflexivity.
  - reflexivity.
  - left. reflexivity.
Defined.

(* ===================================================================== *)
(** ** Registration: the account is created *)
(* ===================================================================== *)

(** Closing the branches of a case analysis in which the trace assumed
    cannot be the trace of the run. *)
Ltac trace_facts :=
  repeat match goal with
         | H : False |- _ => destruct H
         | H : _ \/ _ |- _ => destruct H as [H | H]
         | H : In _ (_ :: _) |- _ => destruct H as [H | H]
         | H : In _ [] |- _ => destruct H
         | H : (_, _) = (_, _) |- _ => inversion H; clear H; subst
         | H : Some _ = Some _ |- _ => inversion H; clear H; subst
         | H : _ && _ = true |- _ => apply andb_prop in H; destruct H
         end;
  try discriminate; try congruence.

(** Following a run along the replies that the service is known to
    give. *)
Ltac follow :=
  cbn;
  repeat (first
    [ match goal with
      | H : ?srv ?s ?o = _ |- context [?srv ?s ?o] => rewrite H
      | H : truthy ?x = _ |- context [truthy ?x] => rewrite H
      | H : nullish ?x = _ |- context [nullish ?x] => rewrite H
      | H : truthy ?x = true |- context [nullish ?x] =>
          rewrite (truthy_not_nullish x H)
      end
    | progress (unfold prop, or_lazy) ];
    cbn).

Ltac open_answers H :=
  cbn in H;
  repeat match type of H with
         | exists _, _ =>
             let s1 := fresh "s" in
             let Hs := fresh "Hsrv" in
             destruct H as [s1 [Hs H]]
         end;
  subst.

(** C3. In each of the three files, with the six fields present: when
    the service answers the institution lookup with a row and no error
    (and, on part_000, the lookup of the email with no data), answers
    [auth.signUp] without error with a created user (and, on part_001,
    answers the insert, with an error or not), the handler makes just
    these calls and is answered 201, with the [id] and the [email] of the
    created user and the name of that institution. *)
Theorem registro_created :
  forall (v : variant) (S : Type) (srv : S -> op -> outcome * S) (s s' : S)
         (pr : process) (req : request) (ri rx r r3 : reply),
    all_present required_fields (body req) = true ->
    answers srv s (registro_exchange v pr req ri rx r r3) s' ->
    truthy (error ri) = false ->
    truthy (data ri) = true ->
    (v = part_000 -> truthy (data rx) = false) ->
    truthy (error r) = false ->
    nullish (member "user" (data r)) = false ->
    exists resp,
      run srv (handler (registro_estudiante v) pr req) s
      = (Done resp, s', registro_exchange v pr req ri rx r r3)
      /\ status resp = 201%Z
      /\ member "id" (member "user" (json resp))
         = member "id" (member "user" (data r))
      /\ member "email" (member "user" (json resp))
         = member "email" (member "user" (data r))
      /\ member "institucion" (member "user" (json resp))
         = member "nombre" (data ri).
Proof.
  intros v S srv s s' pr req ri rx r r3 Hall Hans Hei Hdi Hdx Her Hu.
  split_present Hall.
  assert (Hd : nullish (data r) = false)
    by (destruct (data r); cbn in Hu |- *; congruence).
  destruct v; [| specialize (Hdx eq_refl) |];
    unfold registro_exchange, signUp_exchange, signUp_credentials,
      institucion_lookup, email_lookup, profile_rows in *;
    open_answers Hans; unfold handler, registro_estudiante; follow;
    eexists; repeat split.
Qed.

(** A registration replayed on part_001: the lookup finds the
    institution, the account is created, the profile row is inserted. *)
Lemma registro_created_witness :
  exists resp,
    run scripted
      (handler (registro_estudiante part_001) (a_process VUndefined)
         (a_request (ana "CHASKI") [] [] []))
      [Resolved (ok chaski_row); Resolved (ok ana_account); Resolved (ok VNull)]
    = (Done resp, [],
       registro_exchange part_001 (a_process VUndefined)
         (a_request (ana "CHASKI") [] [] [])
         (ok chaski_row) no_rows (ok ana_account) (ok VNull))
    /\ status resp = 201%Z
    /\ member "id" (member "user" (json resp))
       = member "id" (member "user" (data (ok ana_account)))
    /\ member "email" (member "user" (json resp))
       = member "email" (member "user" (data (ok ana_account)))
    /\ member "institucion" (member "user" (json resp))
       = member "nombre" (data (ok chaski_row)).
Proof.
  apply (registro_created part_001 (list outcome) scripted
           [Resolved (ok chaski_row); Resolved (ok ana_account);
            Resolved (ok VNull)] []
           (a_process VUndefined) (a_request (ana "CHASKI") [] [] [])
           (ok chaski_row) no_rows (ok ana_account) (ok VNull)).
  - reflexivity.
  - cbn. eexists. split; [reflexivity |].
    eexists. split; [reflexivity |].
    eexists. split; [reflexivity |]. reflexivity.
  - reflexivity.
  - reflexivity.
  - discriminate.
  - reflexivity.
  - reflexivity.
Defined.

Example registro_part_000 :
  run scripted
    (handler Part000.post_api_auth_registro_estudiante (a_process VUndefined)
       (a_request (ana "CHASKI") [] [] []))
    [Resolved (ok chaski_row); Resolved no_rows; Resolved (ok ana_account)]
  = (Done (res_status_json 201 (VObj [
       ("message", VStr "Estudiante registrado exitosamente");
       ("user", VObj [
          ("id", VStr "u-1"); ("email", VStr "ana@x.ec");
          ("nombre", VStr "Ana"); ("apellidos", VStr "Paz");
          ("rol", VStr "estudiante"); ("grado", VStr "8vo");
          ("codigo_estudiante", VStr "EST1704067200000");
          ("institucion", VStr "Colegio Chaski")])])),
     [],
     [(Select (institucion_lookup (VStr "CHASKI")), Resolved (ok chaski_row));
      (Select (from "usuarios" |> select (Columns ["id"]) []
               |> eq_ "email" (VStr "ana@x.ec") |> single),
       Resolved no_rows);
      (auth_signUp (VObj [
         ("email", VStr "ana@x.ec"); ("password", VStr "secreto");
         ("options", VObj [("data", VObj [
            ("nombre", VStr "Ana"); ("apellidos", VStr "Paz");
            ("rol", VStr "estudiante"); ("grado", VStr "8vo");
            ("codigo_estudiante", VStr "EST1704067200000");
            ("institucion_id", VNum 7)])])]),
       Resolved (ok ana_account))]).
Proof. reflexivity. Qed.

Example registro_part_000_email_taken :
  outcome_of scripted
    (handler Part000.post_api_auth_registro_estudiante (a_process VUndefined)
       (a_request (ana "CHASKI") [] [] []))
    [Resolved (ok chaski_row); Resolved (ok (VObj [("id", VStr "u-0")]))]
  = Done (res_status_json 400 (VObj [
      ("error", VStr "El email ya está registrado")])).
Proof. reflexivity. Qed.

Example registro_signUp_refused :
  outcome_of scripted
    (handler Server.post_api_auth_registro_estudiante (a_process VUndefined)
       (a_request (ana "CHASKI") [] [] []))
    [Resolved (ok chaski_row);
     Resolved {| data := VObj [("user", VNull); ("session", VNull)];
                 error := VObj [("message", VStr "User already registered")] |}]
  = Done (res_status_json 400 (VObj [
      ("error", VStr "Error al crear usuario: User already registered")])).
Proof. reflexivity. Qed.

(* ===================================================================== *)
(** ** Login *)
(* ===================================================================== *)

Lemma member_nullish (v : value) (k : string) :
  nullish v = true -> member k v = VUndefined.
Proof. destruct v; cbn; congruence. Qed.

Ltac nullish_facts :=
  repeat match goal with
         | H : nullish ?v = true, H2 : context [member ?k ?v] |- _ =>
             rewrite (member_nullish v k H) in H2; cbn in H2
         | H : nullish ?v = true, H2 : truthy ?v = true |- _ =>
             rewrite (truthy_not_nullish v H2) in H; discriminate H
         end;
  try discriminate; try congruence.

(** C4. In the two files that have the route, with [email] and
    [password] present, the auth service is called with the two of them.
    When it resolves as for right credentials, and the service answers
    the profile read that follows (on part_001 as [.single()] does, with
    an error or with a row), the handler makes just these two calls and
    is answered 200, with the session of the auth service and its
    non-empty token.
    When it resolves with an error the answer is 401 and the sign-in is
    the only call. *)
Theorem login_status :
  forall (v : variant) (g : guarded) (S : Type) (srv : S -> op -> outcome * S)
         (s s1 : S) (pr : process) (req : request) (r : reply),
    login v = Some g ->
    all_present ["email"; "password"] (body req) = true ->
    srv s (auth_signInWithPassword (login_credentials req)) = (Resolved r, s1) ->
    (signed_in r ->
     forall (r2 : reply) (s2 : S),
       srv s1 (Select (login_profile_query v (lookup "email" (body req))))
       = (Resolved r2, s2) ->
       (v = part_001 ->
        truthy (error r2) = true \/ nullish (data r2) = false) ->
       exists resp,
         run srv (handler g pr req) s
         = (Done resp, s2,
            [(auth_signInWithPassword (login_credentials req), Resolved r);
             (Select (login_profile_query v (lookup "email" (body req))),
              Resolved r2)])
         /\ status resp = 200%Z
         /\ member "session" (json resp) = member "session" (data r)
         /\ truthy (member "access_token" (member "session" (json resp))) = true)
    /\ (truthy (error r) = true ->
        run srv (handler g pr req) s
        = (Done (res_status_json 401
                   (VObj [("error", VStr "Credenciales inválidas")])),
           s1,
           [(auth_signInWithPassword (login_credentials req), Resolved r)])).
Proof.
  intros v g S srv s s1 pr req r Hg Hall Hsrv.
  split_present Hall.
  unfold login_credentials, login_profile_query, profile_lookup in *.
  split.
  - intros [He [Htok Hmd]] r2 s2 Hsrv2 Hsingle.
    assert (Hu : nullish (member "user" (data r)) = false).
    { destruct (nullish (member "user" (data r))) eqn:Hn; [| reflexivity].
      rewrite (member_nullish _ _ Hn) in Hmd. discriminate Hmd. }
    assert (Hd : nullish (data r) = false).
    { destruct (nullish (data r)) eqn:Hn; [| reflexivity].
      rewrite (member_nullish _ _ Hn) in Hu. discriminate Hu. }
    destruct v; inversion Hg; subst g; cbn in Hsrv, Hsrv2; unfold handler.
    + follow. unfold or_lazy.
      destruct (truthy (data r2)); follow; eexists; repeat split; assumption.
    + destruct (Hsingle eq_refl) as [He2 | Hd2].
      * follow. eexists; repeat split; assumption.
      * destruct (truthy (error r2)) eqn:He2; follow;
          eexists; repeat split; assumption.
  - intros He.
    destruct v; inversion Hg; subst g; cbn in Hsrv; unfold handler; follow;
      reflexivity.
Qed.

(** A login on part_001 with no profile row, and a refused login on
    part_000. *)
Lemma login_status_witness :
  (exists resp,
      run scripted
        (handler Part001.post_api_auth_login (a_process VUndefined)
           (a_request ana_login [] [] []))
        [Resolved (ok ana_session); Resolved no_rows]
      = (Done resp, [],
         [(auth_signInWithPassword
             (login_credentials (a_request ana_login [] [] [])),
           Resolved (ok ana_session));
          (Select (login_profile_query part_001
                     (lookup "email" (body (a_request ana_login [] [] [])))),
           Resolved no_rows)])
      /\ status resp = 200%Z
      /\ member "session" (json resp) = member "session" (data (ok ana_session))
      /\ truthy (member "access_token" (member "session" (json resp))) = true)
  /\ run scripted
       (handler Part000.post_api_auth_login (a_process VUndefined)
          (a_request ana_login [] [] []))
       [Resolved invalid_credentials]
     = (Done (res_status_json 401
                (VObj [("error", VStr "Credenciales inválidas")])),
        [],
        [(auth_signInWithPassword
            (login_credentials (a_request ana_login [] [] [])),
          Resolved invalid_credentials)]).
Proof.
  split.
  - apply (proj1 (login_status part_001 Part001.post_api_auth_login
                    (list outcome) scripted
                    [Resolved (ok ana_session); Resolved no_rows]
                    [Resolved no_rows]
                    (a_process VUndefined) (a_request ana_login [] [] [])
                    (ok ana_session) eq_refl eq_refl eq_refl)).
    + repeat split; reflexivity.
    + reflexivity.
    + intros _. left. reflexivity.
  - apply (proj2 (login_status part_000 Part000.post_api_auth_login
                    (list outcome) scripted
                    [Resolved invalid_credentials] []
                    (a_process VUndefined) (a_request ana_login [] [] [])
                    invalid_credentials eq_refl eq_refl eq_refl)).
    reflexivity.
Defined.

(** ** Login: the user summary *)

(** C7. On part_001, after a successful sign-in: when the profile lookup
    resolves with an error (no row for the email), the answer is still
    200 and the user summary is built from the user of the auth service,
    each field of its metadata with a default behind it; when the lookup
    resolves with a row, the summary takes its fields from the row,
    whatever the metadata hold. *)
Theorem login_user_summary :
  forall (S : Type) (srv : S -> op -> outcome * S) (s : S)
         (pr : process) (req : request) (c : value) (r r2 : reply),
    all_present ["email"; "password"] (body req) = true ->
    trace_of srv (handler Part001.post_api_auth_login pr req) s
    = [(auth_signInWithPassword c, Resolved r);
       (Select (profile_lookup (lookup "email" (body req))), Resolved r2)] ->
    signed_in r ->
    (truthy (error r2) = true ->
     exists resp,
       outcome_of srv (handler Part001.post_api_auth_login pr req) s = Done resp
       /\ status resp = 200%Z
       /\ member "user" (json resp)
          = let user := member "user" (data r) in
            let metadata := member "user_metadata" user in
            VObj [("id", member "id" user);
                  ("email", member "email" user);
                  ("nombre", or_else (member "nombre" metadata) (VStr "Usuario"));
                  ("apellidos",
                   or_else (member "apellidos" metadata) (VStr EmptyString));
                  ("rol", or_else (member "rol" metadata) (VStr "estudiante"));
                  ("grado", or_else (member "grado" metadata) (VStr "sin-grado"))])
    /\ (truthy (error r2) = false -> nullish (data r2) = false ->
        exists resp,
          outcome_of srv (handler Part001.post_api_auth_login pr req) s = Done resp
          /\ status resp = 200%Z
          /\ member "user" (json resp)
             = let userData := data r2 in
               VObj [("id", member "id" userData);
                     ("email", lookup "email" (body req));
                     ("nombre", member "nombre" userData);
                     ("apellidos", member "apellidos" userData);
                     ("rol", member "rol" userData);
                     ("grado", member "grado" userData);
                     ("institucion",
                      or_else (opt_member "nombre"
                                 (member "instituciones" userData))
                              (VStr "Sin institución"))]).
Proof.
  intros S srv s pr req c r r2 Hall.
  split_present Hall.
  unfold trace_of, outcome_of, signed_in, profile_lookup.
  unfold handler; cbn; rewrite Hfield, Hfield0; cbn.
  steps srv.
  all: intros Htr [He [Htok Hmd]]; inversion Htr; subst;
    (split; [intros He2 | intros He2 Hd2]).
  all: nullish_facts.
  all: eexists; repeat split; reflexivity.
Qed.

Example login_without_profile :
  outcome_of scripted
    (handler Part001.post_api_auth_login (a_process VUndefined)
       (a_request ana_login [] [] []))
    [Resolved (ok ana_session); Resolved no_rows]
  = Done (res_json (VObj [
      ("success", VBool true);
      ("message", VStr "Login exitoso");
      ("user", VObj [("id", VStr "u-1"); ("email", VStr "ana@x.ec");
                     ("nombre", VStr "Ana"); ("apellidos", VStr EmptyString);
                     ("rol", VStr "estudiante"); ("grado", VStr "8vo")]);
      ("session", VObj [("access_token", VStr "eyJhbGciOi")])])).
Proof. reflexivity. Qed.

(** The same login without and with a profile row. *)
Lemma login_user_summary_witness :
  (exists resp,
      outcome_of scripted
        (handler Part001.post_api_auth_login (a_process VUndefined)
           (a_request ana_login [] [] []))
        [Resolved (ok ana_session); Resolved no_rows] = Done resp
      /\ status resp = 200%Z
      /\ member "user" (json resp)
         = VObj [("id", VStr "u-1"); ("email", VStr "ana@x.ec");
                 ("nombre", VStr "Ana"); ("apellidos", VStr EmptyString);
                 ("rol", VStr "estudiante"); ("grado", VStr "8vo")])
  /\ (exists resp,
         outcome_of scripted
           (handler Part001.post_api_auth_login (a_process VUndefined)
              (a_request ana_login [] [] []))
           [Resolved (ok ana_session); Resolved (ok ana_profile)] = Done resp
         /\ status resp = 200%Z
         /\ member "user" (json resp)
            = VObj [("id", VStr "u-1"); ("email", VStr "ana@x.ec");
                    ("nombre", VStr "Ana María"); ("apellidos", VStr "Paz");
                    ("rol", VStr "estudiante"); ("grado", VStr "9no");
                    ("institucion", VStr "Colegio Chaski")]).
Proof.
  split.
  - apply (proj1 (login_user_summary (list outcome) scripted
                    [Resolved (ok ana_session); Resolved no_rows]
                    (a_process VUndefined) (a_request ana_login [] [] [])
                    ana_credentials (ok ana_session) no_rows
                    eq_refl eq_refl
                    (conj eq_refl (conj eq_refl eq_refl)))).
    reflexivity.
  - apply (proj2 (login_user_summary (list outcome) scripted
                    [Resolved (ok ana_session); Resolved (ok ana_profile)]
                    (a_process VUndefined) (a_request ana_login [] [] [])
                    ana_credentials (ok ana_session) (ok ana_profile)
                    eq_refl eq_refl
                    (conj eq_refl (conj eq_refl eq_refl)))).
    + reflexivity.
    + reflexivity.
Defined.

(** [GET /api/auth/me] merges field by field: the field of the profile
    row when it is truthy, else the field of the metadata, else the
    default. *)
Lemma me_user_summary :
  forall (S : Type) (srv : S -> op -> outcome * S) (s : S)
         (pr : process) (req : request) (t : value) (r : reply)
         (q : query) (r2 : reply),
    truthy (lookup "authorization" (headers req)) = true ->
    trace_of srv (handler Part001.get_api_auth_me pr req) s
    = [(auth_getUser t, Resolved r); (Select q, Resolved r2)] ->
    truthy (error r) = false ->
    nullish (member "user_metadata" (member "user" (data r))) = false ->
    exists resp,
      outcome_of srv (handler Part001.get_api_auth_me pr req) s = Done resp
      /\ status resp = 200%Z
      /\ member "user" (json resp)
         = let user := member "user" (data r) in
           let metadata := member "user_metadata" user in
           let userData := data r2 in
           VObj [("id", member "id" user);
                 ("email", member "email" user);
                 ("nombre", or_else (opt_member "nombre" userData)
                              (or_else (member "nombre" metadata) (VStr "Usuario")));
                 ("apellidos", or_else (opt_member "apellidos" userData)
                                 (or_else (member "apellidos" metadata)
                                          (VStr EmptyString)));
                 ("rol", or_else (opt_member "rol" userData)
                           (or_else (member "rol" metadata) (VStr "estudiante")));
                 ("grado", or_else (opt_member "grado" userData)
                             (or_else (member "grado" metadata) (VStr "sin-grado")));
                 ("institucion",
                  opt_member "nombre" (opt_member "instituciones" userData))].
Proof.
  intros S srv s pr req t r q r2 Hh.
  unfold trace_of, outcome_of, handler; cbn; rewrite Hh; cbn.
  unfold replace.
  destruct (lookup "authorization" (headers req)) eqn:Hv; cbn.
  all: steps srv.
  all: intros Htr He Hmd; inversion Htr; subst.
  all: nullish_facts.
  all: eexists; repeat split; cbn.
  all: unfold or_else;
    repeat match goal with
           | H : truthy ?v = _ |- context [truthy ?v] => rewrite H
           end; reflexivity.
Qed.

Example login_part_000 :
  outcome_of scripted
    (handler Part000.post_api_auth_login (a_process VUndefined)
       (a_request ana_login [] [] []))
    [Resolved (ok ana_session); Resolved no_rows]
  = Done (res_json (VObj [
      ("message", VStr "Login exitoso");
      ("session", VObj [("access_token", VStr "eyJhbGciOi")]);
      ("user", VObj [("id", VStr "u-1"); ("email", VStr "ana@x.ec");
                     ("user_metadata", VObj [("nombre", VStr "Ana");
                                             ("grado", VStr "8vo")])])])).
Proof. reflexivity. Qed.

Example me_without_token :
  run scripted
    (handler Part001.get_api_auth_me (a_process VUndefined)
       (a_request [] [] [] []))
    []
  = (Done (res_status_json 401 (VObj [("error", VStr "Token no proporcionado")])),
     [], []).
Proof. reflexivity. Qed.

Example logout_with_token :
  run scripted
    (handler Part001.post_api_auth_logout (a_process VUndefined)
       (a_request [] [] [] [("authorization", VStr "Bearer eyJhbGciOi")]))
    [Resolved {| data := VUndefined; error := VNull |}]
  = (Done (res_json (VObj [("success", VBool true);
                           ("message", VStr "Logout exitoso")])),
     [],
     [(auth_signOut (VStr "eyJhbGciOi"),
       Resolved {| data := VUndefined; error := VNull |})]).
Proof. reflexivity. Qed.

(* ===================================================================== *)
(** ** Registration: the profile row *)
(* ===================================================================== *)

(** C9. On part_001, when [auth.signUp] has created the user and the
    insert into [usuarios] resolves with an error, the answer is still
    201 with the summary of the created user, and the insert is the last
    call of the run. In none of the three files does a run call anything
    after [auth.signUp] but that insert, and no run signs out or calls
    anything but reads, [signUp] and the insert: the account is never
    rolled back. *)
Theorem registro_insert_fails :
  (forall (S : Type) (srv : S -> op -> outcome * S) (s : S)
          (pr : process) (req : request) (c rows : value) (r r3 : reply),
      all_present required_fields (body req) = true ->
      In (auth_signUp c, Resolved r)
         (trace_of srv (handler Part001.post_api_auth_registro_estudiante pr req) s) ->
      truthy (error r) = false ->
      nullish (member "user" (data r)) = false ->
      In (InsertSelectSingle "usuarios" rows, Resolved r3)
         (trace_of srv (handler Part001.post_api_auth_registro_estudiante pr req) s) ->
      truthy (error r3) = true ->
      exists resp,
        outcome_of srv (handler Part001.post_api_auth_registro_estudiante pr req) s
        = Done resp
        /\ status resp = 201%Z
        /\ member "id" (member "user" (json resp))
           = member "id" (member "user" (data r))
        /\ member "email" (member "user" (json resp))
           = member "email" (member "user" (data r))
        /\ after_signUp
             (trace_of srv
                (handler Part001.post_api_auth_registro_estudiante pr req) s)
           = [(InsertSelectSingle "usuarios" rows, Resolved r3)])
  /\ (forall (v : variant) (S : Type) (srv : S -> op -> outcome * S) (s : S)
             (pr : process) (req : request),
         forallb (fun ev => registration_op (fst ev))
                 (trace_of srv (handler (registro_estudiante v) pr req) s) = true
         /\ (after_signUp
               (trace_of srv (handler (registro_estudiante v) pr req) s) = []
             \/ exists rows o,
                 after_signUp
                   (trace_of srv (handler (registro_estudiante v) pr req) s)
                 = [(InsertSelectSingle "usuarios" rows, o)])).
Proof.
  split.
  - intros S srv s pr req c rows r r3 Hall.
    split_present Hall.
    unfold trace_of, outcome_of, handler; cbn;
      rewrite Hfield, Hfield0, Hfield1, Hfield2, Hfield3, Hfield4; cbn.
    steps srv.
    all: intros Hin He Hu Hin3 He3; trace_facts; nullish_facts.
    all: eexists; repeat split; cbn; reflexivity.
  - intros v S srv s pr req.
    unfold trace_of.
    destruct v; unfold handler, registro_estudiante; cbn.
    all: steps srv.
    all: split; [reflexivity | ].
    all: first [ left; reflexivity | right; eexists; eexists; reflexivity ].
Qed.

(** The profile insert refused for a duplicate key, after the account
    was created. *)
Lemma registro_insert_fails_witness :
  exists resp,
    outcome_of scripted
      (handler Part001.post_api_auth_registro_estudiante (a_process VUndefined)
         (a_request (ana "CHASKI") [] [] []))
      [Resolved (ok chaski_row); Resolved (ok ana_account);
       Resolved (failure "duplicate key value violates unique constraint")]
    = Done resp
    /\ status resp = 201%Z
    /\ member "id" (member "user" (json resp))
       = member "id" (member "user" (data (ok ana_account)))
    /\ member "email" (member "user" (json resp))
       = member "email" (member "user" (data (ok ana_account)))
    /\ after_signUp
         (trace_of scripted
            (handler Part001.post_api_auth_registro_estudiante
               (a_process VUndefined) (a_request (ana "CHASKI") [] [] []))
            [Resolved (ok chaski_row); Resolved (ok ana_account);
             Resolved (failure "duplicate key value violates unique constraint")])
       = [(InsertSelectSingle "usuarios"
             (VArr [VObj [("id", VStr "u-1"); ("institucion_id", VNum 7);
                          ("nombre", VStr "Ana"); ("apellidos", VStr "Paz");
                          ("email", VStr "ana@x.ec");
                          ("password_hash", VStr "managed_by_supabase_auth");
                          ("rol", VStr "estudiante"); ("grado", VStr "8vo");
                          ("activo", VBool true)]]),
           Resolved (failure "duplicate key value violates unique constraint"))].
Proof.
  apply (proj1 registro_insert_fails (list outcome) scripted
           [Resolved (ok chaski_row); Resolved (ok ana_account);
            Resolved (failure "duplicate key value violates unique constraint")]
           (a_process VUndefined) (a_request (ana "CHASKI") [] [] [])
           ana_signUp
           (VArr [VObj [("id", VStr "u-1"); ("institucion_id", VNum 7);
                        ("nombre", VStr "Ana"); ("apellidos", VStr "Paz");
                        ("email", VStr "ana@x.ec");
                        ("password_hash", VStr "managed_by_supabase_auth");
                        ("rol", VStr "estudiante"); ("grado", VStr "8vo");
                        ("activo", VBool true)]])
           (ok ana_account)
           (failure "duplicate key value violates unique constraint")).
  - reflexivity.
  - right. left. reflexivity.
  - reflexivity.
  - reflexivity.
  - right. right. left. reflexivity.
  - reflexivity.
Defined.

(* ===================================================================== *)
(** ** The reference reading: what a query selects *)
(* ===================================================================== *)

Lemma string_compare_trans (a b c : string) :
  String.compare a b <> Gt -> String.compare b c <> Gt ->
  String.compare a c <> Gt.
Proof.
  revert b c.
  induction a as [| x a IH]; intros [| y b] [| z c]; cbn; try congruence.
  unfold Ascii.compare.
  destruct (N.compare_spec (N_of_ascii x) (N_of_ascii y));
    destruct (N.compare_spec (N_of_ascii y) (N_of_ascii z));
    destruct (N.compare_spec (N_of_ascii x) (N_of_ascii z));
    try congruence; try lia.
  apply IH.
Qed.

Lemma string_leb_trans (a b c : string) :
  String.leb a b = true -> String.leb b c = true -> String.leb a c = true.
Proof.
  unfold String.leb. intros H1 H2.
  pose proof (string_compare_trans a b c) as H.
  destruct (String.compare a b), (String.compare b c), (String.compare a c);
    try reflexivity; try discriminate; exfalso; apply H; congruence.
Qed.

Lemma cell_leb_trans (a b c : value) :
  cell_leb a b = true -> cell_leb b c = true -> cell_leb a c = true.
Proof.
  destruct a, b, c; cbn; try congruence.
  - destruct b, b0, b1; cbn; congruence.
  - rewrite !Z.leb_le. lia.
  - apply string_leb_trans.
Qed.

Section Selection.
Variable col : string.

Lemma cell_leb_total (a b : value) : cell_leb a b = false -> cell_leb b a = true.
Proof.
  destruct a, b; cbn; try congruence.
  - destruct b, b0; cbn; congruence.
  - intros H. apply Z.leb_gt in H. apply Z.leb_le. lia.
  - intros H. destruct (String.leb_total s s0) as [H1 | H1]; congruence.
Qed.

Lemma insert_row_In (x r : row) (l : list row) :
  In x (insert_row col r l) <-> x = r \/ In x l.
Proof.
  induction l as [| y l IH]; cbn.
  - intuition congruence.
  - destruct (cell_leb (lookup col r) (lookup col y)); cbn.
    + intuition congruence.
    + rewrite IH. intuition congruence.
Qed.

Lemma sort_rows_In (x : row) (l : list row) :
  In x (sort_rows col l) <-> In x l.
Proof.
  induction l as [| y l IH]; cbn.
  - reflexivity.
  - unfold sort_rows in IH. rewrite insert_row_In, IH. intuition congruence.
Qed.

Lemma insert_row_HdRel (a r : row) (l : list row) :
  (row_le col) a r -> HdRel (row_le col) a l -> HdRel (row_le col) a (insert_row col r l).
Proof.
  intros Har Hl. destruct l as [| y l]; cbn.
  - constructor. exact Har.
  - destruct (cell_leb (lookup col r) (lookup col y)).
    + constructor. exact Har.
    + constructor. inversion Hl. assumption.
Qed.

Lemma insert_row_sorted (r : row) (l : list row) :
  Sorted (row_le col) l -> Sorted (row_le col) (insert_row col r l).
Proof.
  induction l as [| y l IH]; intros Hs; cbn.
  - repeat constructor.
  - destruct (cell_leb (lookup col r) (lookup col y)) eqn:Hle.
    + constructor; [exact Hs | constructor; exact Hle].
    + inversion Hs as [| ? ? Hs' Hhd]; subst.
      constructor; [apply IH; exact Hs' |].
      apply insert_row_HdRel; [| exact Hhd].
      apply cell_leb_total. exact Hle.
Qed.

Lemma sort_rows_sorted (l : list row) : Sorted (row_le col) (sort_rows col l).
Proof.
  induction l as [| y l IH]; cbn.
  - constructor.
  - apply insert_row_sorted. exact IH.
Qed.

Lemma firstn_sorted (n : nat) (l : list row) :
  Sorted (row_le col) l -> Sorted (row_le col) (firstn n l).
Proof.
  revert l. induction n as [| n IH]; intros l Hs; cbn.
  - constructor.
  - destruct l as [| x l]; [constructor |].
    inversion Hs as [| ? ? Hs' Hhd]; subst.
    constructor; [apply IH; exact Hs' |].
    destruct l as [| y l]; [destruct n; constructor |].
    destruct n; cbn; constructor. inversion Hhd. assumption.
Qed.
End Selection.

Lemma In_firstn {A : Type} (n : nat) (l : list A) (x : A) :
  In x (firstn n l) -> In x l.
Proof.
  revert l. induction n as [| n IH]; intros [| y l]; cbn; try tauto.
  intros [H | H]; [left; exact H | right; apply IH; exact H].
Qed.

(** The rows a query selects are rows of the table that pass its filters. *)
Lemma selected_In (q : query) (rows : list row) (r : row) :
  In r (selected q rows) -> In r rows /\ passes (q_filters q) r = true.
Proof.
  unfold selected, limited, ordered. intros H.
  assert (H1 : In r (match q_order q with
                     | Some c => sort_rows c (filter (passes (q_filters q)) rows)
                     | None => filter (passes (q_filters q)) rows
                     end)).
  { destruct (q_limit q); [eapply In_firstn; exact H | exact H]. }
  apply filter_In.
  destruct (q_order q); [apply sort_rows_In in H1; exact H1 | exact H1].
Qed.

(** Without a limit, a query selects every row that passes its filters. *)
Lemma selected_all (q : query) (rows : list row) (r : row) :
  q_limit q = None ->
  In r rows -> passes (q_filters q) r = true -> In r (selected q rows).
Proof.
  unfold selected, limited, ordered. intros -> Hin Hp.
  assert (H : In r (filter (passes (q_filters q)) rows))
    by (apply filter_In; split; assumption).
  destruct (q_order q); [apply sort_rows_In; exact H | exact H].
Qed.

(** With an [order], what a query selects is sorted on that column. *)
Lemma selected_sorted (q : query) (rows : list row) (c : string) :
  q_order q = Some c -> Sorted (row_le c) (selected q rows).
Proof.
  unfold selected, limited, ordered. intros ->.
  destruct (q_limit q).
  - apply firstn_sorted. apply sort_rows_sorted.
  - apply sort_rows_sorted.
Qed.

(** What an awaited list query resolves to when its table is there. *)
Lemma exec_select_list (db : store) (q : query) (rows : list row) :
  table db (q_from q) = Some rows -> q_single q = false ->
  exec_select db q = ok (VArr (map (shape db q) (selected q rows))).
Proof. unfold exec_select. intros -> ->. reflexivity. Qed.

(** [.single()] on anything but one row resolves with an error and no
    data. *)
Lemma exec_select_single_none (db : store) (q : query) :
  q_single q = true ->
  (forall rows, table db (q_from q) = Some rows ->
                List.length (selected q rows) <> 1%nat) ->
  nullish (data (exec_select db q)) = true
  /\ truthy (error (exec_select db q)) = true.
Proof.
  unfold exec_select. intros -> H.
  destruct (table db (q_from q)) as [rows |]; [| split; reflexivity].
  specialize (H rows eq_refl). rewrite <- (length_map (shape db q)) in H.
  destruct (map (shape db q) (selected q rows)) as [| x [| y l]];
    cbn in *; try (split; reflexivity). congruence.
Qed.

(** On a store, a code that selects no institution, or more than one,
    ends the registration at the lookup. *)
Lemma registro_code_without_institution :
  forall (v : variant) (S : Type) (srv : S -> op -> outcome * S)
         (view : S -> store) (s : S) (pr : process) (req : request),
    serves srv view ->
    all_present required_fields (body req) = true ->
    (forall rows, table (view s) "instituciones" = Some rows ->
       List.length
         (selected (institucion_lookup (lookup "codigo_institucion" (body req)))
                   rows) <> 1%nat) ->
    outcome_of srv (handler (registro_estudiante v) pr req) s
    = Done (res_status_json 400
              (VObj [("error", VStr "Código de institución inválido")])).
Proof.
  intros v S srv view s pr req Hserves Hall Hnone.
  unfold outcome_of.
  rewrite (registro_invalid_institucion_run v S srv s s pr req
             (exec_select (view s)
                (institucion_lookup (lookup "codigo_institucion" (body req))))
             Hall (Hserves s _)).
  - reflexivity.
  - left. apply exec_select_single_none; [reflexivity | exact Hnone].
Qed.

(* ===================================================================== *)
(** ** The list endpoints *)
(* ===================================================================== *)

Lemma string_of_Z_not_true (n : Z) : String.eqb "true" (string_of_Z n) = false.
Proof.
  unfold string_of_Z, NilZero.string_of_int.
  destruct (Z.to_int n) as [d | d]; [destruct d |]; reflexivity.
Qed.

Lemma cell_matches_true (c : value) :
  cell_matches (VBool true) c = true <-> c = VBool true \/ c = VStr "true".
Proof.
  destruct c; unfold cell_matches; cbn [to_string];
    try (split; [discriminate | intros [H | H]; discriminate]).
  - destruct b; cbn; split; auto; try discriminate.
    intros [H | H]; discriminate.
  - rewrite string_of_Z_not_true.
    split; [discriminate | intros [H | H]; discriminate].
  - rewrite String.eqb_eq. split.
    + intros <-. right. reflexivity.
    + intros [H | H]; [discriminate | congruence].
Qed.

Lemma lookup_app_other (c : string) (r es : list (string * value)) :
  (forall e, In e es -> fst e <> c) -> lookup c (r ++ es) = lookup c r.
Proof.
  intros Hes. induction r as [| [k x] r IH]; cbn.
  - induction es as [| [k x] es IH]; cbn; [reflexivity |].
    destruct (String.eqb_spec c k) as [-> | Hne].
    + exfalso. apply (Hes (k, x)); [left; reflexivity | reflexivity].
    + apply IH. intros e He. apply Hes. right. exact He.
  - destruct (String.eqb c k); [reflexivity | exact IH].
Qed.

Lemma shape_all_member (db : store) (q : query) (r : row) (c : string) :
  q_columns q = AllColumns ->
  (forall e, In e (q_embeds q) -> rel e <> c) ->
  member c (shape db q r) = lookup c r.
Proof.
  intros Hc He. unfold shape. rewrite Hc. cbn. apply lookup_app_other.
  intros e Hin. apply in_map_iff in Hin. destruct Hin as [x [<- Hx]].
  cbn. apply He. exact Hx.
Qed.

Lemma passes_activo (fs : list (string * value)) (r : row) :
  In ("activo", VBool true) fs -> passes fs r = true -> activo r = true.
Proof.
  unfold passes, activo. intros Hin Hp.
  rewrite forallb_forall in Hp. apply (Hp _ Hin).
Qed.

Lemma listed_active (db : store) (q : query) (rows : list row) :
  q_columns q = AllColumns ->
  (forall e, In e (q_embeds q) -> rel e <> "activo") ->
  In ("activo", VBool true) (q_filters q) ->
  Forall active_flag (map (shape db q) (selected q rows)).
Proof.
  intros Hc He Hf. apply Forall_forall. intros el Hel.
  apply in_map_iff in Hel. destruct Hel as [r [<- Hr]].
  apply selected_In in Hr. destruct Hr as [_ Hp].
  unfold active_flag. rewrite (shape_all_member db q r "activo" Hc He).
  apply cell_matches_true. exact (passes_activo _ _ Hf Hp).
Qed.

Lemma listed_sorted (db : store) (q : query) (rows : list row) (c : string) :
  q_columns q = AllColumns ->
  (forall e, In e (q_embeds q) -> rel e <> c) ->
  q_order q = Some c ->
  sorted_by c (map (shape db q) (selected q rows)).
Proof.
  intros Hc He Ho. unfold sorted_by.
  apply Sorted_StronglySorted.
  { intros x y z. apply cell_leb_trans. }
  pose proof (selected_sorted q rows c Ho) as Hs.
  induction Hs as [| r l Hl IH Hhd]; cbn; constructor.
  - exact IH.
  - destruct Hhd as [| r' l' Hrr']; cbn; constructor.
    rewrite !(shape_all_member db q _ c Hc He). exact Hrr'.
Qed.

Lemma listed_picked (db : store) (q : query) (rows : list row) (cs : list string) :
  q_columns q = Columns cs -> q_embeds q = [] ->
  In ("activo", VBool true) (q_filters q) ->
  Forall (fun el => exists r, In r rows /\ activo r = true /\ el = VObj (pick cs r))
         (map (shape db q) (selected q rows)).
Proof.
  intros Hc He Hf. apply Forall_forall. intros el Hel.
  apply in_map_iff in Hel. destruct Hel as [r [<- Hr]].
  apply selected_In in Hr. destruct Hr as [Hin Hp].
  exists r. split; [exact Hin |]. split; [exact (passes_activo _ _ Hf Hp) |].
  unfold shape. rewrite Hc, He. cbn. rewrite app_nil_r. reflexivity.
Qed.

Lemma reader_serves : serves reader (fun db => db).
Proof. intros s q. reflexivity. Qed.

Arguments exec_select : simpl never.
Arguments selected : simpl never.
Arguments shape : simpl never.
Arguments pick : simpl never.

(** Running a handler on a service that serves its reads from a store. *)
Ltac read_store Hserves Htable :=
  repeat (rewrite Hserves; cbn);
  repeat match goal with
         | |- context [exec_select ?db ?q] =>
             rewrite (exec_select_list db q _ Htable eq_refl); cbn
         end;
  unfold prop; cbn.

Ltac listed_facts :=
  repeat match goal with
         | |- _ /\ _ => split
         | |- Forall active_flag _ =>
             apply listed_active; cbn;
             [reflexivity | intros ? [<- | []]; discriminate | tauto]
         | |- Forall active_flag _ =>
             apply listed_active; cbn; [reflexivity | tauto | tauto]
         | |- sorted_by _ _ =>
             apply listed_sorted; cbn;
             [reflexivity | intros ? [<- | []]; discriminate | reflexivity]
         | |- sorted_by _ _ =>
             apply listed_sorted; cbn; [reflexivity | tauto | reflexivity]
         | |- Forall _ _ =>
             apply listed_picked; cbn; [reflexivity | reflexivity | tauto]
         end.

Lemma selected_plain (q : query) (rows : list row) :
  q_order q = None -> q_limit q = None ->
  selected q rows = filter (passes (q_filters q)) rows.
Proof. unfold selected, limited, ordered. intros -> ->. reflexivity. Qed.

Lemma filter_activo (rows : list row) :
  filter (passes [("activo", VBool true)]) rows = filter activo rows.
Proof.
  apply filter_ext. intros r. unfold passes, activo. cbn.
  apply andb_true_r.
Qed.

Ltac listing_facts Hserves Htable :=
  read_store Hserves Htable;
  split; [reflexivity |];
  split; [cbn; tauto |];
  split; [unfold listed; listed_facts |];
  split; [intros r Hr Hp; apply in_map; apply selected_all;
          [reflexivity | exact Hr | exact Hp] |];
  intros He; try discriminate He;
  rewrite selected_plain by reflexivity; cbn;
  rewrite filter_activo; apply map_ext; intros r;
  unfold shape; cbn; rewrite app_nil_r; reflexivity.

(** C5, as the code has it. On a service that serves its reads from a
    store in which the listed table exists, every list endpoint of every
    file answers 200 with, under the name of the entity, the array that
    its read of that table returned: the rows of the table that pass the
    filters of the read, each of them, shaped as the read selects. In
    [src/server.js] and part_001 the answer carries [count], the length
    of that array, and in part_000 it carries no [count]. For levels,
    courses and lessons every element has its active flag true and the
    array is in the ascending order of [orden_nivel], [orden_curso],
    [orden_leccion]; institutions are the columns [id], [nombre],
    [codigo_acceso] of the active rows, in the order of the table. *)
Theorem list_endpoint_answer :
  forall (v : variant) (e : list_endpoint) (g : guarded)
         (S : Type) (srv : S -> op -> outcome * S) (view : S -> store) (s : S)
         (pr : process) (req : request) (rows : list row),
    list_route v e = Some g ->
    serves srv view ->
    table (view s) (entity_table e) = Some rows ->
    let q := entity_query (view s) e req in
    let arr := map (shape (view s) q) (selected q rows) in
    outcome_of srv (handler g pr req) s
    = Done (res_json (VObj (counted v arr ++ [(array_key e, VArr arr)])))
    /\ In (Select q, Resolved (ok (VArr arr)))
          (trace_of srv (handler g pr req) s)
    /\ listed e rows arr
    /\ (forall r, In r rows -> passes (q_filters q) r = true ->
                  In (shape (view s) q r) arr)
    /\ (e = Instituciones ->
        arr = map (fun r => VObj (pick ["id"; "nombre"; "codigo_acceso"] r))
                  (filter activo rows)).
Proof.
  intros v e g S srv view s pr req rows Hg Hserves Htable.
  unfold outcome_of, trace_of, entity_query, nivel_lookup.
  destruct v, e; inversion Hg; subst g; cbn in Htable; unfold handler; cbn.
  all: try (listing_facts Hserves Htable; fail).
  destruct (truthy (lookup "nivel" (query_string req))) eqn:Hn; cbn.
  - rewrite Hserves; cbn.
    destruct (truthy (data (exec_select (view s)
               (single (eq_ "nombre" (lookup "nivel" (query_string req))
                  (select (Columns ["id"]) [] (from "niveles"))))))) eqn:Hd;
      cbn; unfold prop; try rewrite (truthy_not_nullish _ Hd); cbn.
    all: listing_facts Hserves Htable.
  - listing_facts Hserves Htable.
Qed.

(** The courses of the level ['Primaria'] of [demo], listed by
    part_001. *)
Lemma list_endpoint_answer_witness :
  let req := a_request [] [("nivel", VStr "Primaria")] [] [] in
  let q := entity_query demo Cursos req in
  let arr := map (shape demo q) (selected q demo_cursos) in
  outcome_of reader (handler Part001.get_api_cursos (a_process VUndefined) req)
    demo
  = Done (res_json (VObj (counted part_001 arr ++ [(array_key Cursos, VArr arr)])))
  /\ In (Select q, Resolved (ok (VArr arr)))
        (trace_of reader
           (handler Part001.get_api_cursos (a_process VUndefined) req) demo)
  /\ listed Cursos demo_cursos arr
  /\ (forall r, In r demo_cursos -> passes (q_filters q) r = true ->
                In (shape demo q r) arr)
  /\ (Cursos = Instituciones ->
      arr = map (fun r => VObj (pick ["id"; "nombre"; "codigo_acceso"] r))
                (filter activo demo_cursos)).
Proof.
  apply (list_endpoint_answer part_001 Cursos Part001.get_api_cursos
           store reader (fun db => db) demo
           (a_process VUndefined)
           (a_request [] [("nivel", VStr "Primaria")] [] [])
           demo_cursos eq_refl reader_serves eq_refl).
Defined.

Example instituciones_listed :
  outcome_of reader
    (handler Server.get_api_instituciones (a_process VUndefined)
       (a_request [] [] [] [])) demo
  = Done (res_json (VObj [
      ("success", VBool true);
      ("count", VNum 1);
      ("instituciones", VArr [
         VObj [("id", VNum 7); ("nombre", VStr "Colegio Chaski");
               ("codigo_acceso", VStr "CHASKI")]])])).
Proof. reflexivity. Qed.

Example cursos_listed :
  let req := a_request [] [("nivel", VStr "Primaria")] [] [] in
  let q := entity_query demo Cursos req in
  map (member "nombre") (map (shape demo q) (selected q demo_cursos))
  = [VStr "Robótica I"; VStr "Robótica II"].
Proof. reflexivity. Qed.

(** C5 as the specification words it fails twice. On part_000
    [GET /api/niveles] answers 200 with the array and no [count]. And
    the institutions that [src/server.js] lists carry no active flag and
    come in the order of the table: of [unordered] they are listed as
    they are stored, in the ascending order of none of their three
    columns. *)
Lemma list_endpoint_count_counterexample :
  (exists (resp : response) (arr : list value),
      outcome_of reader
        (handler Part000.get_api_niveles (a_process VUndefined)
           (a_request [] [] [] [])) demo = Done resp
      /\ status resp = 200%Z
      /\ member "niveles" (json resp) = VArr arr
      /\ member "count" (json resp) = VUndefined
      /\ member "count" (json resp) <> VNum (Z.of_nat (List.length arr)))
  /\ (exists (resp : response) (arr : list value),
         outcome_of reader
           (handler Server.get_api_instituciones (a_process VUndefined)
              (a_request [] [] [] [])) unordered = Done resp
         /\ status resp = 200%Z
         /\ member "instituciones" (json resp) = VArr arr
         /\ member "count" (json resp) = VNum (Z.of_nat (List.length arr))
         /\ arr = [VObj [("id", VNum 9); ("nombre", VStr "Zeta");
                         ("codigo_acceso", VStr "ZZ")];
                   VObj [("id", VNum 3); ("nombre", VStr "Alfa");
                         ("codigo_acceso", VStr "AA")]]
         /\ Forall (fun el => member "activo" el = VUndefined) arr
         /\ ~ Forall active_flag arr
         /\ ~ sorted_by "id" arr
         /\ ~ sorted_by "nombre" arr
         /\ ~ sorted_by "codigo_acceso" arr).
Proof.
  split.
  - eexists. eexists.
    split; [reflexivity |]. split; [reflexivity |]. split; [reflexivity |].
    split; [reflexivity | discriminate].
  - eexists. eexists.
    split; [reflexivity |]. split; [reflexivity |]. split; [reflexivity |].
    split; [reflexivity |]. split; [reflexivity |].
    split; [repeat constructor |].
    split.
    { intros H. inversion H as [| x l [Hx | Hx] Hl]; discriminate Hx. }
    repeat split; intros H; inversion H as [| x l Hs Hall];
      inversion Hall as [| y l' Hle Hrest]; discriminate Hle.
Qed.

(* ===================================================================== *)
(** ** The list endpoints only read *)
(* ===================================================================== *)

Ltac step_read srv Hro :=
  match goal with
  | |- context [srv ?s (Select ?q)] =>
      let H := fresh "Hs" in
      let s0 := fresh "s" in
      pose proof (Hro s q) as H;
      destruct (srv s (Select q)) as [[? | ?] s0]; cbn in H; subst s0
  | |- context [if ?b then _ else _] =>
      let H := fresh "Htest" in
      match b with
      | context [truthy ?v] => destruct (truthy v) eqn:H
      | context [nullish ?v] =>
          first [ rewrite (truthy_not_nullish v) by assumption
                | destruct (nullish v) eqn:H ]
      end
  end;
  cbn; unfold prop; cbn.

Lemma list_endpoint_reads_only :
  forall (v : variant) (e : list_endpoint) (g : guarded)
         (S : Type) (srv : S -> op -> outcome * S) (s : S)
         (pr : process) (req : request),
    list_route v e = Some g -> reads_only srv ->
    state_after srv (handler g pr req) s = s.
Proof.
  intros v e g S srv s pr req Hg Hro. unfold state_after.
  destruct v, e; inversion Hg; subst g; unfold handler; cbn.
  all: unfold prop; cbn; repeat step_read srv Hro; reflexivity.
Qed.

Ltac step_pair srv srv' s s' Hro Hro' Hsame :=
  match goal with
  | |- context [srv s (Select ?q)] =>
      let H1 := fresh "H1" in
      let H2 := fresh "H2" in
      let H3 := fresh "H3" in
      let s1 := fresh "s" in
      let s2 := fresh "s" in
      let o1 := fresh "o" in
      let o2 := fresh "o" in
      pose proof (Hro s q) as H1; pose proof (Hro' s' q) as H2;
      pose proof (Hsame q) as H3;
      destruct (srv s (Select q)) as [o1 s1];
      destruct (srv' s' (Select q)) as [o2 s2];
      cbn in H1, H2, H3; subst s1 s2 o1; destruct o2
  | |- context [if ?b then _ else _] =>
      let H := fresh "Htest" in
      match b with
      | context [truthy ?v] => destruct (truthy v) eqn:H
      | context [nullish ?v] =>
          first [ rewrite (truthy_not_nullish v) by assumption
                | destruct (nullish v) eqn:H ]
      end
  end;
  cbn; unfold prop; cbn.

Lemma list_endpoint_function_of_reads :
  forall (v : variant) (e : list_endpoint) (g : guarded)
         (S S' : Type) (srv : S -> op -> outcome * S)
         (srv' : S' -> op -> outcome * S') (s : S) (s' : S')
         (pr pr' : process) (req : request),
    list_route v e = Some g -> reads_only srv -> reads_only srv' ->
    (forall q, fst (srv s (Select q)) = fst (srv' s' (Select q))) ->
    outcome_of srv (handler g pr req) s = outcome_of srv' (handler g pr' req) s'.
Proof.
  intros v e g S S' srv srv' s s' pr pr' req Hg Hro Hro' Hsame.
  unfold outcome_of.
  destruct v, e; inversion Hg; subst g; unfold handler; cbn.
  all: unfold prop; cbn.
  all: repeat step_pair srv srv' s s' Hro Hro' Hsame.
  all: reflexivity.
Qed.

(** C8. For every list endpoint of every file, on a service whose reads
    leave the data upstream unchanged: a request leaves the state of the
    service as it was; the same request made again, at another time and
    whatever the environment of the process, gets the same answer, hence
    the same array, value for value; and so does the request on any other
    service that answers the reads alike: the answer is a function of
    what the reads return. *)
Theorem list_endpoint_repeatable :
  forall (v : variant) (e : list_endpoint) (g : guarded)
         (S : Type) (srv : S -> op -> outcome * S) (s : S)
         (pr pr' : process) (req : request),
    list_route v e = Some g -> reads_only srv ->
    state_after srv (handler g pr req) s = s
    /\ outcome_of srv (handler g pr' req)
         (state_after srv (handler g pr req) s)
       = outcome_of srv (handler g pr req) s
    /\ forall (S' : Type) (srv' : S' -> op -> outcome * S') (s' : S'),
         reads_only srv' ->
         (forall q, fst (srv s (Select q)) = fst (srv' s' (Select q))) ->
         outcome_of srv' (handler g pr' req) s'
         = outcome_of srv (handler g pr req) s.
Proof.
  intros v e g S srv s pr pr' req Hg Hro.
  pose proof (list_endpoint_reads_only v e g S srv s pr req Hg Hro) as Hst.
  split; [exact Hst |]. split.
  - rewrite Hst. destruct v, e; inversion Hg; subst g; reflexivity.
  - intros S' srv' s' Hro' Hsame. symmetry.
    apply (list_endpoint_function_of_reads v e g); assumption.
Qed.

(** The list of courses asked twice of the store [demo], the second time
    later and in production. *)
Lemma list_endpoint_repeatable_witness :
  state_after reader
    (handler Part001.get_api_cursos (a_process VUndefined)
       (a_request [] [("nivel", VStr "Primaria")] [] [])) demo = demo
  /\ outcome_of reader
       (handler Part001.get_api_cursos
          {| NODE_ENV := VStr "production";
             toISOString := "2024-06-30T12:00:00.000Z";
             Date_now := 1719748800000; uptime := VNum 86400 |}
          (a_request [] [("nivel", VStr "Primaria")] [] []))
       (state_after reader
          (handler Part001.get_api_cursos (a_process VUndefined)
             (a_request [] [("nivel", VStr "Primaria")] [] [])) demo)
     = outcome_of reader
         (handler Part001.get_api_cursos (a_process VUndefined)
            (a_request [] [("nivel", VStr "Primaria")] [] [])) demo
  /\ forall (S' : Type) (srv' : S' -> op -> outcome * S') (s' : S'),
       reads_only srv' ->
       (forall q, fst (reader demo (Select q)) = fst (srv' s' (Select q))) ->
       outcome_of srv'
         (handler Part001.get_api_cursos
            {| NODE_ENV := VStr "production";
               toISOString := "2024-06-30T12:00:00.000Z";
               Date_now := 1719748800000; uptime := VNum 86400 |}
            (a_request [] [("nivel", VStr "Primaria")] [] [])) s'
       = outcome_of reader
           (handler Part001.get_api_cursos (a_process VUndefined)
              (a_request [] [("nivel", VStr "Primaria")] [] [])) demo.
Proof.
  apply (list_endpoint_repeatable part_001 Cursos Part001.get_api_cursos
           store reader demo).
  - reflexivity.
  - intros s q. reflexivity.
Defined.

(* ===================================================================== *)
(** ** [GET /api/cursos]: a level name that matches nothing *)
(* ===================================================================== *)

Lemma selected_none (q : query) (rows : list row) :
  (forall r, In r rows -> passes (q_filters q) r = false) ->
  selected q rows = [].
Proof.
  intros H. unfold selected, limited, ordered.
  assert (Hf : filter (passes (q_filters q)) rows = []).
  { induction rows as [| r rows IH]; cbn; [reflexivity |].
    rewrite (H r (or_introl eq_refl)). apply IH.
    intros r' Hr'. apply H. right. exact Hr'. }
  rewrite Hf. destruct (q_order q), (q_limit q) as [[| n] |]; reflexivity.
Qed.

Lemma nullish_falsy (v : value) : nullish v = true -> truthy v = false.
Proof. destruct v; cbn; congruence. Qed.

(** C10. On part_001, on a service that serves its reads from a store:
    when the [nivel] parameter matches the name of no level, the answer
    is the one of a request without the parameter; and when the table of
    courses is there, it is 200 and lists the active courses of every
    level, each of them, in the order of [orden_curso]. *)
Theorem cursos_unknown_nivel :
  forall (S : Type) (srv : S -> op -> outcome * S) (view : S -> store) (s : S)
         (pr : process) (req req0 : request),
    serves srv view ->
    (forall rows r, table (view s) "niveles" = Some rows -> In r rows ->
                    cell_matches (lookup "nivel" (query_string req))
                                 (lookup "nombre" r) = false) ->
    lookup "nivel" (query_string req0) = VUndefined ->
    outcome_of srv (handler Part001.get_api_cursos pr req) s
    = outcome_of srv (handler Part001.get_api_cursos pr req0) s
    /\ forall rows, table (view s) "cursos" = Some rows ->
         exists resp,
           outcome_of srv (handler Part001.get_api_cursos pr req) s = Done resp
           /\ status resp = 200%Z
           /\ member "cursos" (json resp)
              = VArr (map (shape (view s) all_cursos) (selected all_cursos rows))
           /\ forall r, In r rows -> activo r = true ->
                        In (shape (view s) all_cursos r)
                           (map (shape (view s) all_cursos)
                                (selected all_cursos rows)).
Proof.
  intros S srv view s pr req req0 Hserves Hnone H0.
  assert (Hlookup :
    truthy (data (exec_select (view s)
                    (from "niveles" |> select (Columns ["id"]) []
                     |> eq_ "nombre" (lookup "nivel" (query_string req))
                     |> single))) = false).
  { apply nullish_falsy. apply exec_select_single_none; [reflexivity |].
    intros rows Hrows. rewrite selected_none; [cbn; congruence |].
    intros r Hr. cbn. rewrite (Hnone rows r Hrows Hr). reflexivity. }
  assert (Hsame :
    outcome_of srv (handler Part001.get_api_cursos pr req) s
    = outcome_of srv (handler Part001.get_api_cursos pr req0) s).
  { unfold outcome_of, handler; cbn. rewrite H0; cbn.
    destruct (truthy (lookup "nivel" (query_string req))); cbn;
      [| reflexivity].
    rewrite Hserves; cbn. rewrite Hlookup; cbn.
    repeat (rewrite Hserves; cbn). steps srv; reflexivity. }
  split; [exact Hsame |].
  intros rows Htable. rewrite Hsame.
  unfold outcome_of, handler; cbn. rewrite H0; cbn.
  read_store Hserves Htable.
  eexists. split; [reflexivity |]. split; [reflexivity |].
  split; [reflexivity |].
  intros r Hr Ha. apply in_map. apply selected_all; [reflexivity | exact Hr |].
  cbn. unfold activo in Ha. rewrite Ha. reflexivity.
Qed.

(** [GET /api/cursos?nivel=Bachillerato] on [demo], which has no such
    level. *)
Lemma cursos_unknown_nivel_witness :
  outcome_of reader
    (handler Part001.get_api_cursos (a_process VUndefined)
       (a_request [] [("nivel", VStr "Bachillerato")] [] [])) demo
  = outcome_of reader
      (handler Part001.get_api_cursos (a_process VUndefined)
         (a_request [] [] [] [])) demo
  /\ forall rows, table demo "cursos" = Some rows ->
       exists resp,
         outcome_of reader
           (handler Part001.get_api_cursos (a_process VUndefined)
              (a_request [] [("nivel", VStr "Bachillerato")] [] [])) demo
         = Done resp
         /\ status resp = 200%Z
         /\ member "cursos" (json resp)
            = VArr (map (shape demo all_cursos) (selected all_cursos rows))
         /\ forall r, In r rows -> activo r = true ->
                      In (shape demo all_cursos r)
                         (map (shape demo all_cursos) (selected all_cursos rows)).
Proof.
  apply (cursos_unknown_nivel store reader (fun db => db) demo
           (a_process VUndefined)
           (a_request [] [("nivel", VStr "Bachillerato")] [] [])
           (a_request [] [] [] [])).
  - exact reader_serves.
  - intros rows r Hrows Hr. inversion Hrows; subst.
    destruct Hr as [<- | [<- | []]]; reflexivity.
  - reflexivity.
Defined.

Example cursos_unknown_nivel_lists_all :
  outcome_of reader
    (handler Part001.get_api_cursos (a_process VUndefined)
       (a_request [] [("nivel", VStr "Bachillerato")] [] [])) demo
  = Done (res_json (VObj [
      ("success", VBool true);
      ("count", VNum 3);
      ("cursos", VArr [
         VObj [("id", VNum 11); ("nivel_id", VNum 1); ("nombre", VStr "Robótica I");
               ("orden_curso", VNum 1); ("activo", VBool true);
               ("niveles", VObj [("nombre", VStr "Primaria");
                                 ("descripcion", VStr "Básica");
                                 ("color", VNull); ("icono", VNull)])];
         VObj [("id", VNum 10); ("nivel_id", VNum 1); ("nombre", VStr "Robótica II");
               ("orden_curso", VNum 2); ("activo", VBool true);
               ("niveles", VObj [("nombre", VStr "Primaria");
                                 ("descripcion", VStr "Básica");
                                 ("color", VNull); ("icono", VNull)])];
         VObj [("id", VNum 12); ("nivel_id", VNum 2); ("nombre", VStr "Electrónica");
               ("orden_curso", VNum 3); ("activo", VBool true);
               ("niveles", VObj [("nombre", VStr "Secundaria");
                                 ("descripcion", VStr "Media");
                                 ("color", VNull); ("icono", VNull)])]])])).
Proof. reflexivity. Qed.

(* ===================================================================== *)
(** ** Faults: what the answer tells of the exception *)
(* ===================================================================== *)

Ltac each_route Hin :=
  cbn in Hin;
  repeat (destruct Hin as [Hin | Hin];
          [inversion Hin; subst; clear Hin |]);
  [.. | destruct Hin].

(** C6, as the code has it. The error middleware puts the message of the
    exception in its answer when [NODE_ENV] is exactly ['development'],
    and the generic text otherwise, in production as in any other
    environment. The [catch] blocks of the routes do not look at the
    environment: in [src/server.js] and part_001 each of them answers 500
    with the message of the exception, whatever [NODE_ENV]; in part_000
    each of them answers 500 with a fixed text, the same for every
    exception and every environment, but for the health check, which
    gives the message. *)
Theorem fault_messages :
  (forall (pr : process) (err : value),
      nullish err = false ->
      Server.error_middleware pr err
      = Ret (res_status_json 500 (VObj [
               ("error", VStr "Algo salió mal!");
               ("message",
                if strict_eq_str (NODE_ENV pr) "development"
                then member "message" err
                else VStr "Error interno del servidor")])))
  /\ (forall (v : variant) (name : string) (g : guarded)
             (S : Type) (srv : S -> op -> outcome * S) (s s' : S)
             (pr : process) (req : request) (e : value) (tr : list event),
         In (name, g) (guarded_routes v) ->
         nullish e = false ->
         run srv (try_block g pr req) s = (Raised e, s', tr) ->
         exists resp,
           run srv (handler g pr req) s = (Done resp, s', tr)
           /\ status resp = 500%Z
           /\ match v with
              | server_js | part_001 =>
                  member (message_key name) (json resp) = member "message" e
              | part_000 =>
                  if String.eqb name "GET /api/health"
                  then member "error" (json resp) = member "message" e
                  else forall pr' e', catch_block g pr' e' = Ret resp
              end).
Proof.
  split.
  - intros pr err Hn. unfold Server.error_middleware, prop. rewrite Hn. cbn.
    destruct (strict_eq_str (NODE_ENV pr) "development"); reflexivity.
  - intros v name g S srv s s' pr req e tr Hin Hn Hrun.
    unfold handler. rewrite run_try_catch, Hrun.
    destruct v; each_route Hin; cbn; unfold prop; rewrite ?Hn; cbn;
      rewrite app_nil_r; eexists; repeat split.
Qed.

(** In production: an error handed to the middleware, and a rejected
    call on [GET /api/niveles] of [src/server.js]. *)
Lemma fault_messages_witness :
  Server.error_middleware (a_process (VStr "production")) econnrefused
  = Ret (res_status_json 500 (VObj [
           ("error", VStr "Algo salió mal!");
           ("message",
            if strict_eq_str (NODE_ENV (a_process (VStr "production"))) "development"
            then member "message" econnrefused
            else VStr "Error interno del servidor")]))
  /\ exists resp,
       run scripted
         (handler Server.get_api_niveles (a_process (VStr "production"))
            (a_request [] [] [] []))
         [Rejected econnrefused]
       = (Done resp, [],
          [(Select (from "niveles" |> select AllColumns []
                    |> eq_ "activo" (VBool true) |> order "orden_nivel"),
            Rejected econnrefused)])
       /\ status resp = 500%Z
       /\ member (message_key "GET /api/niveles") (json resp)
          = member "message" econnrefused.
Proof.
  split.
  - apply (proj1 fault_messages (a_process (VStr "production")) econnrefused).
    reflexivity.
  - apply (proj2 fault_messages server_js "GET /api/niveles"
             Server.get_api_niveles (list outcome) scripted
             [Rejected econnrefused] []
             (a_process (VStr "production")) (a_request [] [] [] [])
             econnrefused).
    + cbn. tauto.
    + reflexivity.
    + reflexivity.
Defined.

(** C6 as the specification words it fails both ways. In production the
    [catch] block of a route of [src/server.js] gives the message of the
    exception, be it a rejected call or the [TypeError] of [data.length]
    on a reply without data; and outside production (here ['test'], and
    with [NODE_ENV] unset) the error middleware withholds it. *)
Lemma fault_messages_counterexample :
  outcome_of scripted
    (handler Server.get_api_niveles (a_process (VStr "production"))
       (a_request [] [] [] []))
    [Rejected econnrefused]
  = Done (res_status_json 500 (VObj [
            ("error", VStr "Error interno del servidor");
            ("details", VStr "connect ECONNREFUSED 10.0.0.5:443")]))
  /\ outcome_of scripted
       (handler Server.get_api_niveles (a_process (VStr "production"))
          (a_request [] [] [] []))
       [Resolved (ok VNull)]
     = Done (res_status_json 500 (VObj [
               ("error", VStr "Error interno del servidor");
               ("details",
                VStr "Cannot read properties of null (reading 'length')")]))
  /\ Server.error_middleware (a_process (VStr "test")) econnrefused
     = Ret (res_status_json 500 (VObj [
              ("error", VStr "Algo salió mal!");
              ("message", VStr "Error interno del servidor")]))
  /\ Server.error_middleware (a_process VUndefined) econnrefused
     = Ret (res_status_json 500 (VObj [
              ("error", VStr "Algo salió mal!");
              ("message", VStr "Error interno del servidor")])).
Proof. repeat split. Qed.

(* ===================================================================== *)
(** ** Walking a run *)
(* ===================================================================== *)

Lemma type_error_not_nullish (v : value) (k : string) :
  nullish (type_error v k) = false.
Proof. reflexivity. Qed.

(** The case analysis of [steps], which knows that a [TypeError] is an
    object. *)
Ltac walk srv :=
  unfold prop, or_lazy; cbn;
  repeat first [ progress (rewrite type_error_not_nullish; cbn)
               | step_run srv ].

(** Naming the run once, so that the case analysis walks one copy of it. *)
Ltac name_run srv s :=
  unfold trace_of, outcome_of, state_after;
  match goal with
  | |- context [run srv ?p s] =>
      let x := fresh "x" in
      let Hx := fresh "Hx" in
      remember (run srv p s) as x eqn:Hx; revert Hx
  end;
  unfold handler; cbn.

Ltac header_cases req :=
  unfold replace;
  destruct (lookup "authorization" (headers req)) as [| | [|] | ? | [| ? ?] | ? | ?];
  cbn.

(* ===================================================================== *)
(** ** Every route answers *)
(* ===================================================================== *)

(** No exception escapes a route: in each of the three files, on
    every service and every request, a route with a [try]/[catch] sends
    an answer, with one of the statuses of its [res.status] calls, unless
    a call rejected with [undefined] or [null] (of which the [catch]
    block cannot read the message). But for the health check, an answer
    of status 400 or more carries a text under [error]. *)
Theorem routes_always_answer :
  forall (v : variant) (name : string) (g : guarded)
         (S : Type) (srv : S -> op -> outcome * S) (s : S)
         (pr : process) (req : request),
    In (name, g) (guarded_routes v) ->
    existsb rejected_nullish (trace_of srv (handler g pr req) s) = false ->
    exists resp,
      outcome_of srv (handler g pr req) s = Done resp
      /\ In (status resp) (statuses name)
      /\ (String.eqb name "GET /api/health" = false ->
          (400 <=? status resp)%Z = true ->
          exists msg, member "error" (json resp) = VStr msg).
Proof.
  intros v name g S srv s pr req Hin.
  destruct v; each_route Hin; name_run srv s.
  all: try header_cases req.
  all: walk srv.
  all: intros ->; unfold rejected_nullish; cbn; rewrite ?orb_false_r.
  all: intros Hrej; try discriminate Hrej; try congruence.
  all: eexists; split; [reflexivity |]; split; [cbn; tauto |].
  all: cbn; intros Hname Hstatus; try discriminate; eexists; reflexivity.
Qed.

(** A rejected read on [GET /api/niveles] of [src/server.js]. *)
Lemma routes_always_answer_witness :
  exists resp,
    outcome_of scripted
      (handler Server.get_api_niveles (a_process (VStr "production"))
         (a_request [] [] [] []))
      [Rejected econnrefused] = Done resp
    /\ In (status resp) (statuses "GET /api/niveles")
    /\ (String.eqb "GET /api/niveles" "GET /api/health" = false ->
        (400 <=? status resp)%Z = true ->
        exists msg, member "error" (json resp) = VStr msg).
Proof.
  apply (routes_always_answer server_js "GET /api/niveles"
           Server.get_api_niveles (list outcome) scripted
           [Rejected econnrefused]
           (a_process (VStr "production")) (a_request [] [] [] [])).
  - cbn. tauto.
  - reflexivity.
Defined.

(* ===================================================================== *)
(** ** The health check *)
(* ===================================================================== *)

(** The health check of each file sends one read and nothing else, and
    answers 200 exactly when that read resolved without error; any other
    answer is 500. *)
Theorem health_probe :
  forall (v : variant) (S : Type) (srv : S -> op -> outcome * S) (s : S)
         (pr : process) (req : request),
    exists o,
      trace_of srv (handler (health v) pr req) s = [(Select (probe v), o)]
      /\ forall resp,
           outcome_of srv (handler (health v) pr req) s = Done resp ->
           (status resp = 200%Z \/ status resp = 500%Z)
           /\ (status resp = 200%Z <->
               exists r, o = Resolved r /\ truthy (error r) = false).
Proof.
  intros v S srv s pr req.
  destruct v; name_run srv s; walk srv; intros ->; cbn.
  all: eexists; split; [reflexivity |].
  all: intros resp Hresp; inversion Hresp; subst; cbn.
  all: split; [tauto |].
  all: split; [intros Hst; try discriminate Hst; eauto
              | intros [r' [Heq He]]; inversion Heq; subst; congruence].
Qed.

(* ===================================================================== *)
(** ** Login: what is not sent, what is not told *)
(* ===================================================================== *)

(** In the two files that have the route, a login without [email] or
    without [password] is answered 400 and no call is made. *)
Theorem login_missing_field :
  forall (v : variant) (g : guarded) (S : Type)
         (srv : S -> op -> outcome * S) (s : S) (pr : process) (req : request),
    login v = Some g ->
    (exists f, In f ["email"; "password"] /\ truthy (lookup f (body req)) = false) ->
    run srv (handler g pr req) s
    = (Done (res_status_json 400
               (VObj [("error", VStr "Email y contraseña son requeridos")])),
       s, []).
Proof.
  intros v g S srv s pr req Hg [f [Hin Hf]].
  assert (Hc : negb (truthy (lookup "email" (body req)))
               || negb (truthy (lookup "password" (body req))) = true).
  { cbn in Hin. destruct Hin as [<- | [<- | []]];
      rewrite Hf; cbn; rewrite ?orb_true_r; reflexivity. }
  destruct v; inversion Hg; subst g; unfold handler; cbn; rewrite Hc;
    reflexivity.
Qed.

Lemma login_missing_field_witness :
  run scripted
    (handler Part001.post_api_auth_login (a_process VUndefined)
       (a_request [("email", VStr "ana@x.ec"); ("password", VStr EmptyString)]
          [] [] []))
    [Resolved (ok ana_session)]
  = (Done (res_status_json 400
             (VObj [("error", VStr "Email y contraseña son requeridos")])),
     [Resolved (ok ana_session)], []).
Proof.
  apply (login_missing_field part_001 Part001.post_api_auth_login).
  - reflexivity.
  - exists "password". split; [cbn; tauto | reflexivity].
Defined.

(** In the two files that have the route: the auth service is called
    with the [email] and the [password] of the body and nothing else;
    when it resolves with an error the answer is 401 with one fixed
    text, whatever the error says, and the profile is not read: the
    sign-in is the only call. *)
Theorem login_refused :
  forall (v : variant) (g : guarded) (S : Type)
         (srv : S -> op -> outcome * S) (s s1 : S) (pr : process)
         (req : request) (r : reply),
    login v = Some g ->
    all_present ["email"; "password"] (body req) = true ->
    srv s (auth_signInWithPassword
             (VObj [("email", lookup "email" (body req));
                    ("password", lookup "password" (body req))]))
    = (Resolved r, s1) ->
    truthy (error r) = true ->
    run srv (handler g pr req) s
    = (Done (res_status_json 401
               (VObj [("error", VStr "Credenciales inválidas")])),
       s1,
       [(auth_signInWithPassword
           (VObj [("email", lookup "email" (body req));
                  ("password", lookup "password" (body req))]),
         Resolved r)]).
Proof.
  intros v g S srv s s1 pr req r Hg Hall Hsrv He.
  split_present Hall.
  destruct v; inversion Hg; subst g; unfold handler; cbn;
    rewrite Hfield, Hfield0; cbn; rewrite Hsrv; cbn; rewrite He; reflexivity.
Qed.

Lemma login_refused_witness :
  run scripted
    (handler Part000.post_api_auth_login (a_process VUndefined)
       (a_request ana_login [] [] []))
    [Resolved invalid_credentials; Resolved (ok ana_profile)]
  = (Done (res_status_json 401
             (VObj [("error", VStr "Credenciales inválidas")])),
     [Resolved (ok ana_profile)],
     [(auth_signInWithPassword
         (VObj [("email", lookup "email" (body (a_request ana_login [] [] [])));
                ("password",
                 lookup "password" (body (a_request ana_login [] [] [])))]),
       Resolved invalid_credentials)]).
Proof.
  apply (login_refused part_000 Part000.post_api_auth_login (list outcome)
           scripted
           [Resolved invalid_credentials; Resolved (ok ana_profile)]
           [Resolved (ok ana_profile)]).
  - reflexivity.
  - reflexivity.
  - reflexivity.
  - reflexivity.
Defined.

(** On part_000, after a sign-in without error whose reply has data: the
    answer is 200 with the session of the auth service, and [user] is
    the profile row when the lookup returned one, else the user of the
    auth service as it came; the error of the lookup is not looked at. *)
Theorem login_part_000_user :
  forall (S : Type) (srv : S -> op -> outcome * S) (s : S)
         (pr : process) (req : request) (c : value) (q : query) (r r2 : reply),
    all_present ["email"; "password"] (body req) = true ->
    trace_of srv (handler Part000.post_api_auth_login pr req) s
    = [(auth_signInWithPassword c, Resolved r); (Select q, Resolved r2)] ->
    truthy (error r) = false ->
    nullish (data r) = false ->
    outcome_of srv (handler Part000.post_api_auth_login pr req) s
    = Done (res_json (VObj [
        ("message", VStr "Login exitoso");
        ("session", member "session" (data r));
        ("user", or_else (data r2) (member "user" (data r)))])).
Proof.
  intros S srv s pr req c q r r2 Hall.
  split_present Hall.
  name_run srv s. rewrite Hfield, Hfield0; cbn.
  walk srv; intros ->; cbn.
  all: intros Htr He Hd; inversion Htr; subst; try congruence.
  all: unfold or_else;
    repeat match goal with
           | H : truthy ?x = _ |- context [truthy ?x] => rewrite H
           end; reflexivity.
Qed.

Lemma login_part_000_user_witness :
  outcome_of scripted
    (handler Part000.post_api_auth_login (a_process VUndefined)
       (a_request ana_login [] [] []))
    [Resolved (ok ana_session); Resolved no_rows]
  = Done (res_json (VObj [
      ("message", VStr "Login exitoso");
      ("session", member "session" (data (ok ana_session)));
      ("user", or_else (data no_rows) (member "user" (data (ok ana_session))))])).
Proof.
  apply (login_part_000_user (list outcome) scripted
           [Resolved (ok ana_session); Resolved no_rows]
           (a_process VUndefined) (a_request ana_login [] [] [])
           ana_credentials
           (from "usuarios"
            |> select AllColumns [Embed "instituciones" ["nombre"]]
            |> eq_ "email" (VStr "ana@x.ec") |> single)
           (ok ana_session) no_rows).
  - reflexivity.
  - reflexivity.
  - reflexivity.
  - reflexivity.
Defined.

(* ===================================================================== *)
(** ** Registration: what reaches the auth service and the table *)
(* ===================================================================== *)

Lemma registro_short_circuit :
  forall (v : variant) (S : Type) (srv : S -> op -> outcome * S) (s : S)
         (pr : process) (req : request),
    all_present required_fields (body req) = false ->
    run srv (handler (registro_estudiante v) pr req) s
    = (Done (res_status_json 400
               (VObj [("error", VStr "Todos los campos son requeridos")])),
       s, []).
Proof.
  intros v S srv s pr req Hall.
  assert (Hc : negb (truthy (lookup "nombre" (body req)))
               || negb (truthy (lookup "apellidos" (body req)))
               || negb (truthy (lookup "email" (body req)))
               || negb (truthy (lookup "password" (body req)))
               || negb (truthy (lookup "codigo_institucion" (body req)))
               || negb (truthy (lookup "grado" (body req))) = true).
  { cbn in Hall.
    destruct (truthy (lookup "nombre" (body req))); [| reflexivity].
    destruct (truthy (lookup "apellidos" (body req))); [| reflexivity].
    destruct (truthy (lookup "email" (body req))); [| reflexivity].
    destruct (truthy (lookup "password" (body req))); [| reflexivity].
    destruct (truthy (lookup "codigo_institucion" (body req))); [| reflexivity].
    destruct (truthy (lookup "grado" (body req))); [discriminate | reflexivity]. }
  destruct v; unfold handler, registro_estudiante; cbn; rewrite Hc; reflexivity.
Qed.

(** A run of the registration, walked with the six fields present or cut
    short. *)
Ltac registro_walk srv s req :=
  let Hall := fresh "Hall" in
  destruct (all_present required_fields (body req)) eqn:Hall;
  [ pose proof Hall as Hpresent; split_present Hall;
    name_run srv s;
    repeat match goal with
           | H : truthy ?x = true |- context [truthy ?x] => rewrite H
           end;
    cbn; walk srv; intros ->; cbn
  | unfold trace_of, outcome_of; rewrite registro_short_circuit by exact Hall;
    cbn ].

(** In each of the three files, whenever a registration calls
    [auth.signUp], the six fields were present and the institution lookup
    had resolved without error with a row; the call carries the [email]
    and [password] of the body, and as metadata the names and the grade
    of the body, the role ['estudiante'] whatever the body says, and the
    [id] of the row that the lookup returned. *)
Theorem signUp_guarded :
  forall (v : variant) (S : Type) (srv : S -> op -> outcome * S) (s : S)
         (pr : process) (req : request) (c : value) (o : outcome),
    In (auth_signUp c, o)
       (trace_of srv (handler (registro_estudiante v) pr req) s) ->
    all_present required_fields (body req) = true
    /\ exists ri,
         hd_error (trace_of srv (handler (registro_estudiante v) pr req) s)
         = Some (Select (institucion_lookup
                           (lookup "codigo_institucion" (body req))),
                 Resolved ri)
         /\ truthy (error ri) = false /\ truthy (data ri) = true
         /\ member "email" c = lookup "email" (body req)
         /\ member "password" c = lookup "password" (body req)
         /\ member "data" (member "options" c)
            = VObj ([("nombre", lookup "nombre" (body req));
                     ("apellidos", lookup "apellidos" (body req));
                     ("rol", VStr "estudiante");
                     ("grado", lookup "grado" (body req))]
                    ++ match v with
                       | part_000 =>
                           [("codigo_estudiante",
                             str_plus "EST" (VNum (Date_now pr)))]
                       | server_js | part_001 => []
                       end
                    ++ [("institucion_id", member "id" (data ri))]).
Proof.
  intros v S srv s pr req c o.
  unfold institucion_lookup.
  destruct v; registro_walk srv s req.
  all: intros Hin; trace_facts.
  all: split; [reflexivity |]; eexists; repeat split; eauto.
Qed.

Lemma signUp_guarded_witness :
  all_present required_fields (body (a_request (ana "CHASKI") [] [] [])) = true
  /\ exists ri,
       hd_error (trace_of scripted
                   (handler (registro_estudiante part_000) (a_process VUndefined)
                      (a_request (ana "CHASKI") [] [] []))
                   [Resolved (ok chaski_row); Resolved no_rows;
                    Resolved (ok ana_account)])
       = Some (Select (institucion_lookup
                         (lookup "codigo_institucion"
                            (body (a_request (ana "CHASKI") [] [] [])))),
               Resolved ri)
       /\ truthy (error ri) = false /\ truthy (data ri) = true
       /\ member "email" (VObj [
            ("email", VStr "ana@x.ec"); ("password", VStr "secreto");
            ("options", VObj [("data", VObj [
               ("nombre", VStr "Ana"); ("apellidos", VStr "Paz");
               ("rol", VStr "estudiante"); ("grado", VStr "8vo");
               ("codigo_estudiante", VStr "EST1704067200000");
               ("institucion_id", VNum 7)])])])
          = lookup "email" (body (a_request (ana "CHASKI") [] [] []))
       /\ member "password" (VObj [
            ("email", VStr "ana@x.ec"); ("password", VStr "secreto");
            ("options", VObj [("data", VObj [
               ("nombre", VStr "Ana"); ("apellidos", VStr "Paz");
               ("rol", VStr "estudiante"); ("grado", VStr "8vo");
               ("codigo_estudiante", VStr "EST1704067200000");
               ("institucion_id", VNum 7)])])])
          = lookup "password" (body (a_request (ana "CHASKI") [] [] []))
       /\ member "data" (member "options" (VObj [
            ("email", VStr "ana@x.ec"); ("password", VStr "secreto");
            ("options", VObj [("data", VObj [
               ("nombre", VStr "Ana"); ("apellidos", VStr "Paz");
               ("rol", VStr "estudiante"); ("grado", VStr "8vo");
               ("codigo_estudiante", VStr "EST1704067200000");
               ("institucion_id", VNum 7)])])]))
          = VObj ([("nombre", lookup "nombre" (body (a_request (ana "CHASKI") [] [] [])));
                   ("apellidos", lookup "apellidos" (body (a_request (ana "CHASKI") [] [] [])));
                   ("rol", VStr "estudiante");
                   ("grado", lookup "grado" (body (a_request (ana "CHASKI") [] [] [])))]
                  ++ [("codigo_estudiante",
                       str_plus "EST" (VNum (Date_now (a_process VUndefined))))]
                  ++ [("institucion_id", member "id" (data ri))]).
Proof.
  apply (signUp_guarded part_000 (list outcome) scripted
           [Resolved (ok chaski_row); Resolved no_rows; Resolved (ok ana_account)]
           (a_process VUndefined) (a_request (ana "CHASKI") [] [] [])
           _ (Resolved (ok ana_account))).
  right. right. left. reflexivity.
Defined.



(** On part_001, whenever a registration inserts a row, it is one row
    into [usuarios], after [auth.signUp] resolved without error: the row
    has the [id] of the created user, the [id] of the institution that
    the lookup returned, the names, email and grade of the body, the role
    ['estudiante'], [activo] true, and under [password_hash] a fixed
    placeholder, not the password. *)
Theorem profile_row_inserted :
  forall (S : Type) (srv : S -> op -> outcome * S) (s : S)
         (pr : process) (req : request) (t : string) (rows : value)
         (o : outcome),
    In (InsertSelectSingle t rows, o)
       (trace_of srv (handler Part001.post_api_auth_registro_estudiante pr req) s) ->
    exists (ri r : reply) (c : value),
      trace_of srv (handler Part001.post_api_auth_registro_estudiante pr req) s
      = [(Select (institucion_lookup (lookup "codigo_institucion" (body req))),
          Resolved ri);
         (auth_signUp c, Resolved r);
         (InsertSelectSingle t rows, o)]
      /\ truthy (error r) = false
      /\ t = "usuarios"
      /\ rows = VArr [VObj [
           ("id", member "id" (member "user" (data r)));
           ("institucion_id", member "id" (data ri));
           ("nombre", lookup "nombre" (body req));
           ("apellidos", lookup "apellidos" (body req));
           ("email", lookup "email" (body req));
           ("password_hash", VStr "managed_by_supabase_auth");
           ("rol", VStr "estudiante");
           ("grado", lookup "grado" (body req));
           ("activo", VBool true)]].
Proof.
  intros S srv s pr req t rows o.
  unfold institucion_lookup.
  change Part001.post_api_auth_registro_estudiante
    with (registro_estudiante part_001).
  registro_walk srv s req.
  all: intros Hin; trace_facts.
  all: eexists; eexists; eexists; repeat split; eauto.
Qed.

Lemma profile_row_inserted_witness :
  exists (ri r : reply) (c : value),
    trace_of scripted
      (handler Part001.post_api_auth_registro_estudiante (a_process VUndefined)
         (a_request (ana "CHASKI") [] [] []))
      [Resolved (ok chaski_row); Resolved (ok ana_account); Resolved (ok VNull)]
    = [(Select (institucion_lookup
                  (lookup "codigo_institucion"
                     (body (a_request (ana "CHASKI") [] [] [])))),
        Resolved ri);
       (auth_signUp c, Resolved r);
       (InsertSelectSingle "usuarios"
          (VArr [VObj [("id", VStr "u-1"); ("institucion_id", VNum 7);
                       ("nombre", VStr "Ana"); ("apellidos", VStr "Paz");
                       ("email", VStr "ana@x.ec");
                       ("password_hash", VStr "managed_by_supabase_auth");
                       ("rol", VStr "estudiante"); ("grado", VStr "8vo");
                       ("activo", VBool true)]]),
        Resolved (ok VNull))]
    /\ truthy (error r) = false
    /\ "usuarios" = "usuarios"
    /\ VArr [VObj [("id", VStr "u-1"); ("institucion_id", VNum 7);
                   ("nombre", VStr "Ana"); ("apellidos", VStr "Paz");
                   ("email", VStr "ana@x.ec");
                   ("password_hash", VStr "managed_by_supabase_auth");
                   ("rol", VStr "estudiante"); ("grado", VStr "8vo");
                   ("activo", VBool true)]]
       = VArr [VObj [
           ("id", member "id" (member "user" (data r)));
           ("institucion_id", member "id" (data ri));
           ("nombre", lookup "nombre" (body (a_request (ana "CHASKI") [] [] [])));
           ("apellidos", lookup "apellidos" (body (a_request (ana "CHASKI") [] [] [])));
           ("email", lookup "email" (body (a_request (ana "CHASKI") [] [] [])));
           ("password_hash", VStr "managed_by_supabase_auth");
           ("rol", VStr "estudiante");
           ("grado", lookup "grado" (body (a_request (ana "CHASKI") [] [] [])));
           ("activo", VBool true)]].
Proof.
  apply (profile_row_inserted (list outcome) scripted
           [Resolved (ok chaski_row); Resolved (ok ana_account);
            Resolved (ok VNull)]
           (a_process VUndefined) (a_request (ana "CHASKI") [] [] [])
           "usuarios" _ (Resolved (ok VNull))).
  right. right. left. reflexivity.
Defined.

(** On part_000, with the six fields present and the institution found:
    when the lookup of the email in [usuarios] returns a row the answer
    is 400 and [auth.signUp] is not called; when it returns no data, be
    it with an error, the error is not looked at and the third call of
    the run is [auth.signUp]. *)
Theorem email_check_part_000 :
  forall (S : Type) (srv : S -> op -> outcome * S) (s : S)
         (pr : process) (req : request) (ri r2 : reply) (q : query),
    all_present required_fields (body req) = true ->
    firstn 2 (trace_of srv
                (handler Part000.post_api_auth_registro_estudiante pr req) s)
    = [(Select (institucion_lookup (lookup "codigo_institucion" (body req))),
        Resolved ri);
       (Select q, Resolved r2)] ->
    q = (from "usuarios" |> select (Columns ["id"]) []
         |> eq_ "email" (lookup "email" (body req)) |> single)
    /\ (truthy (data r2) = true ->
        outcome_of srv (handler Part000.post_api_auth_registro_estudiante pr req) s
        = Done (res_status_json 400 (VObj [
            ("error", VStr "El email ya está registrado")]))
        /\ List.length
             (trace_of srv
                (handler Part000.post_api_auth_registro_estudiante pr req) s)
           = 2%nat)
    /\ (truthy (data r2) = false ->
        exists c o,
          nth_error
            (trace_of srv
               (handler Part000.post_api_auth_registro_estudiante pr req) s) 2
          = Some (auth_signUp c, o)).
Proof.
  intros S srv s pr req ri r2 q Hall.
  split_present Hall.
  name_run srv s.
  rewrite Hfield, Hfield0, Hfield1, Hfield2, Hfield3, Hfield4; cbn.
  walk srv; intros ->; cbn.
  all: intros Htr; inversion Htr; subst.
  all: split; [reflexivity |]; split; intros Hd; try congruence.
  all: try (split; reflexivity).
  all: eexists; eexists; reflexivity.
Qed.

Lemma email_check_part_000_witness :
  (from "usuarios" |> select (Columns ["id"]) []
   |> eq_ "email" (VStr "ana@x.ec") |> single)
  = (from "usuarios" |> select (Columns ["id"]) []
     |> eq_ "email" (lookup "email" (body (a_request (ana "CHASKI") [] [] [])))
     |> single)
  /\ (truthy (data usuarios_unreachable) = true ->
      outcome_of scripted
        (handler Part000.post_api_auth_registro_estudiante (a_process VUndefined)
           (a_request (ana "CHASKI") [] [] []))
        [Resolved (ok chaski_row); Resolved usuarios_unreachable;
         Resolved (ok ana_account)]
      = Done (res_status_json 400 (VObj [
          ("error", VStr "El email ya está registrado")]))
      /\ List.length
           (trace_of scripted
              (handler Part000.post_api_auth_registro_estudiante
                 (a_process VUndefined) (a_request (ana "CHASKI") [] [] []))
              [Resolved (ok chaski_row); Resolved usuarios_unreachable;
               Resolved (ok ana_account)])
         = 2%nat)
  /\ (truthy (data usuarios_unreachable) = false ->
      exists c o,
        nth_error
          (trace_of scripted
             (handler Part000.post_api_auth_registro_estudiante
                (a_process VUndefined) (a_request (ana "CHASKI") [] [] []))
             [Resolved (ok chaski_row); Resolved usuarios_unreachable;
              Resolved (ok ana_account)]) 2
        = Some (auth_signUp c, o)).
Proof.
  apply (email_check_part_000 (list outcome) scripted
           [Resolved (ok chaski_row); Resolved usuarios_unreachable;
            Resolved (ok ana_account)]
           (a_process VUndefined) (a_request (ana "CHASKI") [] [] [])
           (ok chaski_row) usuarios_unreachable).
  - reflexivity.
  - reflexivity.
Defined.

(* ===================================================================== *)
(** ** No success without the auth service *)
(* ===================================================================== *)

(** In each of the three files a registration is answered 201 only if
    [auth.signUp] was called and resolved without error; the [user] of
    the answer then has the [id] and [email] of the user it created, the
    names and grade of the body, the role ['estudiante'], and no
    [password]. *)
Theorem created_only_by_signUp :
  forall (v : variant) (S : Type) (srv : S -> op -> outcome * S) (s : S)
         (pr : process) (req : request) (resp : response),
    outcome_of srv (handler (registro_estudiante v) pr req) s = Done resp ->
    status resp = 201%Z ->
    exists c r,
      In (auth_signUp c, Resolved r)
         (trace_of srv (handler (registro_estudiante v) pr req) s)
      /\ truthy (error r) = false
      /\ member "id" (member "user" (json resp))
         = member "id" (member "user" (data r))
      /\ member "email" (member "user" (json resp))
         = member "email" (member "user" (data r))
      /\ member "nombre" (member "user" (json resp)) = lookup "nombre" (body req)
      /\ member "apellidos" (member "user" (json resp))
         = lookup "apellidos" (body req)
      /\ member "grado" (member "user" (json resp)) = lookup "grado" (body req)
      /\ member "rol" (member "user" (json resp)) = VStr "estudiante"
      /\ member "password" (member "user" (json resp)) = VUndefined.
Proof.
  intros v S srv s pr req resp.
  destruct v; registro_walk srv s req.
  all: intros Hresp Hst; inversion Hresp; subst; cbn in Hst;
    try discriminate Hst.
  all: eexists; eexists; split; [cbn; eauto 6 |]; repeat split; assumption.
Qed.

Lemma created_only_by_signUp_witness :
  exists c r,
    In (auth_signUp c, Resolved r)
       (trace_of scripted
          (handler (registro_estudiante server_js) (a_process VUndefined)
             (a_request (ana "CHASKI") [] [] []))
          [Resolved (ok chaski_row); Resolved (ok ana_account)])
    /\ truthy (error r) = false
    /\ member "id" (member "user"
         (json (res_status_json 201 (VObj [
            ("success", VBool true);
            ("message", VStr "Estudiante registrado exitosamente");
            ("user", VObj [
               ("id", VStr "u-1"); ("email", VStr "ana@x.ec");
               ("nombre", VStr "Ana"); ("apellidos", VStr "Paz");
               ("rol", VStr "estudiante"); ("grado", VStr "8vo");
               ("institucion", VStr "Colegio Chaski")])]))))
       = member "id" (member "user" (data r))
    /\ member "email" (member "user"
         (json (res_status_json 201 (VObj [
            ("success", VBool true);
            ("message", VStr "Estudiante registrado exitosamente");
            ("user", VObj [
               ("id", VStr "u-1"); ("email", VStr "ana@x.ec");
               ("nombre", VStr "Ana"); ("apellidos", VStr "Paz");
               ("rol", VStr "estudiante"); ("grado", VStr "8vo");
               ("institucion", VStr "Colegio Chaski")])]))))
       = member "email" (member "user" (data r))
    /\ VStr "Ana" = lookup "nombre" (body (a_request (ana "CHASKI") [] [] []))
    /\ VStr "Paz" = lookup "apellidos" (body (a_request (ana "CHASKI") [] [] []))
    /\ VStr "8vo" = lookup "grado" (body (a_request (ana "CHASKI") [] [] []))
    /\ VStr "estudiante" = VStr "estudiante"
    /\ VUndefined = VUndefined.
Proof.
  apply (created_only_by_signUp server_js (list outcome) scripted
           [Resolved (ok chaski_row); Resolved (ok ana_account)]
           (a_process VUndefined) (a_request (ana "CHASKI") [] [] [])
           (res_status_json 201 (VObj [
              ("success", VBool true);
              ("message", VStr "Estudiante registrado exitosamente");
              ("user", VObj [
                 ("id", VStr "u-1"); ("email", VStr "ana@x.ec");
                 ("nombre", VStr "Ana"); ("apellidos", VStr "Paz");
                 ("rol", VStr "estudiante"); ("grado", VStr "8vo");
                 ("institucion", VStr "Colegio Chaski")])]))).
  - reflexivity.
  - reflexivity.
Defined.

(** In the two files that have the route, a login is answered 200 only
    if [auth.signInWithPassword] resolved without error, and the session
    of the answer is the one it returned. *)
Theorem session_only_by_signIn :
  forall (v : variant) (g : guarded) (S : Type)
         (srv : S -> op -> outcome * S) (s : S) (pr : process)
         (req : request) (resp : response),
    login v = Some g ->
    outcome_of srv (handler g pr req) s = Done resp ->
    status resp = 200%Z ->
    exists c r,
      hd_error (trace_of srv (handler g pr req) s)
      = Some (auth_signInWithPassword c, Resolved r)
      /\ truthy (error r) = false
      /\ member "session" (json resp) = member "session" (data r).
Proof.
  intros v g S srv s pr req resp Hg.
  destruct v; inversion Hg; subst g; name_run srv s; walk srv; intros ->; cbn.
  all: intros Hresp Hst; inversion Hresp; subst; cbn in Hst;
    try discriminate Hst.
  all: eexists; eexists; split; [reflexivity |]; split; [assumption |];
    reflexivity.
Qed.

Lemma session_only_by_signIn_witness :
  exists c r,
    hd_error (trace_of scripted
                (handler Part000.post_api_auth_login (a_process VUndefined)
                   (a_request ana_login [] [] []))
                [Resolved (ok ana_session); Resolved no_rows])
    = Some (auth_signInWithPassword c, Resolved r)
    /\ truthy (error r) = false
    /\ member "session"
         (json (res_json (VObj [
            ("message", VStr "Login exitoso");
            ("session", VObj [("access_token", VStr "eyJhbGciOi")]);
            ("user", VObj [("id", VStr "u-1"); ("email", VStr "ana@x.ec");
                           ("user_metadata", VObj [("nombre", VStr "Ana");
                                                   ("grado", VStr "8vo")])])])))
       = member "session" (data r).
Proof.
  apply (session_only_by_signIn part_000 Part000.post_api_auth_login
           (list outcome) scripted
           [Resolved (ok ana_session); Resolved no_rows]
           (a_process VUndefined) (a_request ana_login [] [] [])).
  - reflexivity.
  - reflexivity.
  - reflexivity.
Defined.

(** [GET /api/auth/me] is answered 200 only if [auth.getUser] resolved
    without error with a user; the [id] and the [email] of the answer are
    those of that user, never those of the profile row. *)
Theorem me_only_by_getUser :
  forall (S : Type) (srv : S -> op -> outcome * S) (s : S)
         (pr : process) (req : request) (resp : response),
    outcome_of srv (handler Part001.get_api_auth_me pr req) s = Done resp ->
    status resp = 200%Z ->
    exists t r,
      hd_error (trace_of srv (handler Part001.get_api_auth_me pr req) s)
      = Some (auth_getUser t, Resolved r)
      /\ truthy (error r) = false
      /\ truthy (member "user" (data r)) = true
      /\ member "id" (member "user" (json resp))
         = member "id" (member "user" (data r))
      /\ member "email" (member "user" (json resp))
         = member "email" (member "user" (data r)).
Proof.
  intros S srv s pr req resp.
  name_run srv s. header_cases req. all: walk srv; intros ->; cbn.
  all: intros Hresp Hst; inversion Hresp; subst; cbn in Hst;
    try discriminate Hst.
  all: eexists; eexists; split; [reflexivity |]; repeat split; assumption.
Qed.

Lemma me_only_by_getUser_witness :
  exists t r,
    hd_error (trace_of scripted
                (handler Part001.get_api_auth_me (a_process VUndefined)
                   (a_request [] [] [] [("authorization", VStr "Bearer x")]))
                [Resolved (ok ana_account); Resolved (ok ana_profile)])
    = Some (auth_getUser t, Resolved r)
    /\ truthy (error r) = false
    /\ truthy (member "user" (data r)) = true
    /\ member "id" (member "user"
         (json (res_json (VObj [
            ("success", VBool true);
            ("user", VObj [("id", VStr "u-1"); ("email", VStr "ana@x.ec");
                           ("nombre", VStr "Ana María"); ("apellidos", VStr "Paz");
                           ("rol", VStr "estudiante"); ("grado", VStr "9no");
                           ("institucion", VStr "Colegio Chaski")])]))))
       = member "id" (member "user" (data r))
    /\ member "email" (member "user"
         (json (res_json (VObj [
            ("success", VBool true);
            ("user", VObj [("id", VStr "u-1"); ("email", VStr "ana@x.ec");
                           ("nombre", VStr "Ana María"); ("apellidos", VStr "Paz");
                           ("rol", VStr "estudiante"); ("grado", VStr "9no");
                           ("institucion", VStr "Colegio Chaski")])]))))
       = member "email" (member "user" (data r)).
Proof.
  apply (me_only_by_getUser (list outcome) scripted
           [Resolved (ok ana_account); Resolved (ok ana_profile)]
           (a_process VUndefined)
           (a_request [] [] [] [("authorization", VStr "Bearer x")])).
  - reflexivity.
  - reflexivity.
Defined.

(* ===================================================================== *)
(** ** The bearer token *)
(* ===================================================================== *)

Lemma replace_first_unfold (pat rep s : string) :
  replace_first pat rep s
  = if String.prefix pat s then
      rep ++ String.substring (String.length pat)
                              (String.length s - String.length pat) s
    else match s with
         | EmptyString => EmptyString
         | String c rest => String c (replace_first pat rep rest)
         end.
Proof. destruct s; reflexivity. Qed.

Lemma prefix_app (p t : string) : String.prefix p (p ++ t) = true.
Proof.
  induction p as [| c p IH]; cbn.
  - destruct t; reflexivity.
  - destruct (ascii_dec c c); [exact IH | congruence].
Qed.

Lemma prefix_split (p s : string) :
  String.prefix p s = true -> exists t, s = p ++ t.
Proof.
  revert s. induction p as [| c p IH]; intros s H.
  - exists s. reflexivity.
  - destruct s as [| d s]; cbn in H; [discriminate |].
    destruct (ascii_dec c d) as [<- | ]; [| discriminate].
    destruct (IH s H) as [t ->]. exists t. reflexivity.
Qed.

Lemma substring_skip (p t : string) :
  String.substring (String.length p)
                   (String.length (p ++ t) - String.length p) (p ++ t) = t.
Proof.
  induction p as [| c p IH]; cbn.
  - rewrite Nat.sub_0_r. induction t as [| d t IHt]; cbn; [reflexivity |].
    f_equal. exact IHt.
  - exact IH.
Qed.

(** [s.replace(pat, rep)] on a string that starts with [pat]. *)
Lemma replace_first_prefix (pat rep t : string) :
  replace_first pat rep (pat ++ t) = rep ++ t.
Proof.
  rewrite replace_first_unfold, prefix_app, substring_skip. reflexivity.
Qed.

(** [s.replace(pat, rep)] on a string in which [pat] does not occur. *)
Lemma replace_first_absent (pat rep s : string) :
  (forall a b, s <> a ++ pat ++ b) -> replace_first pat rep s = s.
Proof.
  induction s as [| c s IH]; intros Hno; rewrite replace_first_unfold.
  - destruct (String.prefix pat EmptyString) eqn:Hp; [| reflexivity].
    destruct (prefix_split _ _ Hp) as [t Ht].
    exfalso. apply (Hno EmptyString t). exact Ht.
  - destruct (String.prefix pat (String c s)) eqn:Hp.
    + destruct (prefix_split _ _ Hp) as [t Ht].
      exfalso. apply (Hno EmptyString t). exact Ht.
    + f_equal. apply IH. intros a b Hab.
      apply (Hno (String c a) b). cbn. rewrite Hab. reflexivity.
Qed.

Lemma replace_first_here (pat rep s : string) :
  String.prefix pat s = true ->
  exists t, s = pat ++ t /\ replace_first pat rep s = rep ++ t.
Proof.
  intros Hp. destruct (prefix_split _ _ Hp) as [t ->].
  exists t. split; [reflexivity | apply replace_first_prefix].
Qed.

(** The first occurrence is the one replaced: what precedes it holds no
    earlier occurrence, and the text around it is kept. *)
Lemma replace_first_spec (pat rep s : string) :
  (exists a b, s = a ++ pat ++ b
               /\ replace_first pat rep s = a ++ rep ++ b
               /\ forall a' b', s = a' ++ pat ++ b' ->
                                String.length a <= String.length a')
  \/ ((forall a b, s <> a ++ pat ++ b) /\ replace_first pat rep s = s).
Proof.
  induction s as [| c s IH].
  - destruct (String.prefix pat EmptyString) eqn:Hp.
    + left. destruct (replace_first_here pat rep _ Hp) as [t [Ht Hr]].
      exists EmptyString, t. repeat split; auto. intros; cbn; lia.
    + right. split; [| rewrite replace_first_unfold, Hp; reflexivity].
      intros a b Hab.
      destruct a; cbn in Hab; [| discriminate].
      rewrite Hab, prefix_app in Hp. discriminate.
  - destruct (String.prefix pat (String c s)) eqn:Hp.
    + left. destruct (replace_first_here pat rep _ Hp) as [t [Ht Hr]].
      exists EmptyString, t. repeat split; auto. intros; cbn; lia.
    + rewrite replace_first_unfold, Hp.
      destruct IH as [[a [b [Hs [Hr Hmin]]]] | [Hno Hr]].
      * left. exists (String c a), b. cbn. rewrite Hr, <- Hs.
        repeat split; auto.
        intros [| c' a'] b' Hab; cbn in Hab.
        -- rewrite Hab, prefix_app in Hp. discriminate.
        -- inversion Hab; subst c'. cbn. apply le_n_S. eapply Hmin. eassumption.
      * right. rewrite Hr. split; [| reflexivity].
        intros [| c' a'] b' Hab; cbn in Hab.
        -- rewrite Hab, prefix_app in Hp. discriminate.
        -- inversion Hab; subst. eapply Hno. reflexivity.
Qed.

(** The token of [GET /api/auth/me] and [POST /api/auth/logout].
    With a header ['Bearer ' + t] the first call of the run is
    [auth.getUser(t)], respectively [auth.signOut(t)]; with a header in
    which ['Bearer '] does not occur the whole header is the token. *)
Theorem bearer_token :
  forall (S : Type) (srv : S -> op -> outcome * S) (s : S)
         (pr : process) (req : request) (h : string),
    lookup "authorization" (headers req) = VStr h ->
    h <> EmptyString ->
    (exists o,
        hd_error (trace_of srv (handler Part001.get_api_auth_me pr req) s)
        = Some (auth_getUser (VStr (replace_first "Bearer " EmptyString h)), o))
    /\ (exists o,
           hd_error (trace_of srv (handler Part001.post_api_auth_logout pr req) s)
           = Some (auth_signOut (VStr (replace_first "Bearer " EmptyString h)), o))
    /\ (forall t, h = "Bearer " ++ t ->
                  replace_first "Bearer " EmptyString h = t)
    /\ ((forall a b, h <> a ++ "Bearer " ++ b) ->
        replace_first "Bearer " EmptyString h = h).
Proof.
  intros S srv s pr req h Hh Hne.
  assert (Ht : truthy (VStr h) = true) by (destruct h; [congruence | reflexivity]).
  repeat split.
  - unfold trace_of, handler; cbn. rewrite Hh, Ht. cbn.
    destruct (srv s _) as [o s1]. destruct (run srv _ s1) as [[x s2] tr].
    exists o. reflexivity.
  - unfold trace_of, handler; cbn. rewrite Hh, Ht. cbn.
    destruct (srv s _) as [o s1]. destruct (run srv _ s1) as [[x s2] tr].
    exists o. reflexivity.
  - intros t ->. apply (replace_first_prefix "Bearer " EmptyString t).
  - apply replace_first_absent.
Qed.

Lemma bearer_token_witness :
  (exists o,
      hd_error (trace_of scripted
                  (handler Part001.get_api_auth_me (a_process VUndefined)
                     (a_request [] [] []
                        [("authorization", VStr "Bearer eyJhbGciOi")]))
                  [Resolved (ok ana_account); Resolved no_rows])
      = Some (auth_getUser
                (VStr (replace_first "Bearer " EmptyString "Bearer eyJhbGciOi")),
              o))
  /\ (exists o,
         hd_error (trace_of scripted
                     (handler Part001.post_api_auth_logout (a_process VUndefined)
                        (a_request [] [] []
                           [("authorization", VStr "Bearer eyJhbGciOi")]))
                     [Resolved (ok ana_account); Resolved no_rows])
         = Some (auth_signOut
                   (VStr (replace_first "Bearer " EmptyString "Bearer eyJhbGciOi")),
                 o))
  /\ (forall t, "Bearer eyJhbGciOi" = "Bearer " ++ t ->
                replace_first "Bearer " EmptyString "Bearer eyJhbGciOi" = t)
  /\ ((forall a b, "Bearer eyJhbGciOi" <> a ++ "Bearer " ++ b) ->
      replace_first "Bearer " EmptyString "Bearer eyJhbGciOi"
      = "Bearer eyJhbGciOi").
Proof.
  apply (bearer_token (list outcome) scripted
           [Resolved (ok ana_account); Resolved no_rows]
           (a_process VUndefined)
           (a_request [] [] [] [("authorization", VStr "Bearer eyJhbGciOi")])
           "Bearer eyJhbGciOi").
  - reflexivity.
  - discriminate.
Defined.

(* ===================================================================== *)
(** ** [GET /api/auth/me] and [POST /api/auth/logout] *)
(* ===================================================================== *)

(** [GET /api/auth/me]: without an [Authorization] header the answer is
    401 and no call is made; with a token that [auth.getUser] answers
    with an error, or without a user, the answer is 401 and the profile
    is not read. *)
Theorem me_unauthorized :
  forall (S : Type) (srv : S -> op -> outcome * S) (s : S)
         (pr : process) (req : request),
    (truthy (lookup "authorization" (headers req)) = false ->
     run srv (handler Part001.get_api_auth_me pr req) s
     = (Done (res_status_json 401 (VObj [("error", VStr "Token no proporcionado")])),
        s, []))
    /\ (forall (h : string) (t : value) (r : reply),
           lookup "authorization" (headers req) = VStr h ->
           hd_error (trace_of srv (handler Part001.get_api_auth_me pr req) s)
           = Some (auth_getUser t, Resolved r) ->
           nullish (data r) = false ->
           truthy (error r) = true \/ truthy (member "user" (data r)) = false ->
           outcome_of srv (handler Part001.get_api_auth_me pr req) s
           = Done (res_status_json 401 (VObj [("error", VStr "Token inválido")]))
           /\ List.length
                (trace_of srv (handler Part001.get_api_auth_me pr req) s) = 1%nat).
Proof.
  intros S srv s pr req. split.
  - intros Hf. unfold handler; cbn. rewrite Hf. reflexivity.
  - intros h t r Hh. name_run srv s. rewrite Hh. cbn.
    destruct h as [| c h]; cbn; [intros ->; cbn; discriminate |].
    walk srv; intros ->; cbn.
    all: intros Hhd Hd Hbad; inversion Hhd; subst; try congruence.
    all: try (split; reflexivity).
    all: destruct Hbad; congruence.
Qed.

Lemma me_unauthorized_witness :
  run scripted
    (handler Part001.get_api_auth_me (a_process VUndefined)
       (a_request [] [] [] []))
    [Resolved (ok ana_account)]
  = (Done (res_status_json 401 (VObj [("error", VStr "Token no proporcionado")])),
     [Resolved (ok ana_account)], [])
  /\ (outcome_of scripted
        (handler Part001.get_api_auth_me (a_process VUndefined)
           (a_request [] [] [] [("authorization", VStr "Bearer x")]))
        [Resolved bad_jwt; Resolved (ok ana_profile)]
      = Done (res_status_json 401 (VObj [("error", VStr "Token inválido")]))
      /\ List.length
           (trace_of scripted
              (handler Part001.get_api_auth_me (a_process VUndefined)
                 (a_request [] [] [] [("authorization", VStr "Bearer x")]))
              [Resolved bad_jwt; Resolved (ok ana_profile)]) = 1%nat).
Proof.
  split.
  - apply (proj1 (me_unauthorized (list outcome) scripted
                    [Resolved (ok ana_account)] (a_process VUndefined)
                    (a_request [] [] [] []))).
    reflexivity.
  - apply (proj2 (me_unauthorized (list outcome) scripted
                    [Resolved bad_jwt; Resolved (ok ana_profile)]
                    (a_process VUndefined)
                    (a_request [] [] [] [("authorization", VStr "Bearer x")]))
             "Bearer x" (VStr "x") bad_jwt).
    + reflexivity.
    + reflexivity.
    + reflexivity.
    + left. reflexivity.
Defined.

(** The user of [ana_account] asked for, with a profile row that holds a
    name and no grade. *)
Lemma me_user_summary_witness :
  exists resp,
    outcome_of scripted
      (handler Part001.get_api_auth_me (a_process VUndefined)
         (a_request [] [] [] [("authorization", VStr "Bearer x")]))
      [Resolved (ok ana_account);
       Resolved (ok (VObj [("nombre", VStr "Ana María"); ("grado", VNull)]))]
    = Done resp
    /\ status resp = 200%Z
    /\ member "user" (json resp)
       = let user := member "user" (data (ok ana_account)) in
         let metadata := member "user_metadata" user in
         let userData :=
           data (ok (VObj [("nombre", VStr "Ana María"); ("grado", VNull)])) in
         VObj [("id", member "id" user);
               ("email", member "email" user);
               ("nombre", or_else (opt_member "nombre" userData)
                            (or_else (member "nombre" metadata) (VStr "Usuario")));
               ("apellidos", or_else (opt_member "apellidos" userData)
                               (or_else (member "apellidos" metadata)
                                        (VStr EmptyString)));
               ("rol", or_else (opt_member "rol" userData)
                         (or_else (member "rol" metadata) (VStr "estudiante")));
               ("grado", or_else (opt_member "grado" userData)
                           (or_else (member "grado" metadata) (VStr "sin-grado")));
               ("institucion",
                opt_member "nombre" (opt_member "instituciones" userData))].
Proof.
  apply (me_user_summary (list outcome) scripted
           [Resolved (ok ana_account);
            Resolved (ok (VObj [("nombre", VStr "Ana María"); ("grado", VNull)]))]
           (a_process VUndefined)
           (a_request [] [] [] [("authorization", VStr "Bearer x")])
           (VStr "x") (ok ana_account)
           (from "usuarios"
            |> select (Columns ["nombre"; "apellidos"; "rol"; "grado"])
                 [Embed "instituciones" ["nombre"]]
            |> eq_ "id" (VStr "u-1") |> single)
           (ok (VObj [("nombre", VStr "Ana María"); ("grado", VNull)]))).
  - reflexivity.
  - reflexivity.
  - reflexivity.
  - reflexivity.
Defined.

(** [POST /api/auth/logout]: without an [Authorization] header no call
    is made and the answer is 200; with one, [auth.signOut] is called
    once with the token, and whatever it resolves to, an error too, the
    answer is 200. *)
Theorem logout_always_ok :
  forall (S : Type) (srv : S -> op -> outcome * S) (s : S)
         (pr : process) (req : request),
    (truthy (lookup "authorization" (headers req)) = false ->
     run srv (handler Part001.post_api_auth_logout pr req) s
     = (Done (res_json (VObj [("success", VBool true);
                              ("message", VStr "Logout exitoso")])),
        s, []))
    /\ (forall (h : string) (r : reply) (s1 : S),
           lookup "authorization" (headers req) = VStr h ->
           h <> EmptyString ->
           srv s (auth_signOut (VStr (replace_first "Bearer " EmptyString h)))
           = (Resolved r, s1) ->
           run srv (handler Part001.post_api_auth_logout pr req) s
           = (Done (res_json (VObj [("success", VBool true);
                                    ("message", VStr "Logout exitoso")])),
              s1,
              [(auth_signOut (VStr (replace_first "Bearer " EmptyString h)),
                Resolved r)])).
Proof.
  intros S srv s pr req. split.
  - intros Hf. unfold handler; cbn. rewrite Hf. reflexivity.
  - intros h r s1 Hh Hne Hsrv. unfold handler; cbn. rewrite Hh.
    destruct h as [| c h]; [congruence |]. cbn.
    cbn in Hsrv. rewrite Hsrv. reflexivity.
Qed.

Lemma logout_always_ok_witness :
  run scripted
    (handler Part001.post_api_auth_logout (a_process VUndefined)
       (a_request [] [] [] []))
    [Resolved session_not_found]
  = (Done (res_json (VObj [("success", VBool true);
                           ("message", VStr "Logout exitoso")])),
     [Resolved session_not_found], [])
  /\ run scripted
       (handler Part001.post_api_auth_logout (a_process VUndefined)
          (a_request [] [] [] [("authorization", VStr "Bearer x")]))
       [Resolved session_not_found]
     = (Done (res_json (VObj [("success", VBool true);
                              ("message", VStr "Logout exitoso")])),
        [],
        [(auth_signOut (VStr (replace_first "Bearer " EmptyString "Bearer x")),
          Resolved session_not_found)]).
Proof.
  split.
  - apply (proj1 (logout_always_ok (list outcome) scripted
                    [Resolved session_not_found] (a_process VUndefined)
                    (a_request [] [] [] []))).
    reflexivity.
  - apply (proj2 (logout_always_ok (list outcome) scripted
                    [Resolved session_not_found] (a_process VUndefined)
                    (a_request [] [] [] [("authorization", VStr "Bearer x")]))
             "Bearer x" session_not_found []).
    + reflexivity.
    + discriminate.
    + reflexivity.
Defined.

(* ===================================================================== *)
(** ** The list endpoints on any service *)
(* ===================================================================== *)

(** In each of the three files a list endpoint only reads, twice at most,
    and every read it makes of the table it lists asks for the active
    rows only, all of them (no limit, not [single]), in the order of the
    entity's order column where it has one; no parameter of the request
    changes that. *)
Theorem list_endpoint_reads :
  forall (v : variant) (e : list_endpoint) (g : guarded)
         (S : Type) (srv : S -> op -> outcome * S) (s : S)
         (pr : process) (req : request),
    list_route v e = Some g ->
    forallb (fun ev => is_select (fst ev)) (trace_of srv (handler g pr req) s)
    = true
    /\ List.length (trace_of srv (handler g pr req) s) <= 2
    /\ forall q o,
         In (Select q, o) (trace_of srv (handler g pr req) s) ->
         q_from q = entity_table e ->
         In ("activo", VBool true) (q_filters q)
         /\ q_order q = order_field e
         /\ q_limit q = None /\ q_single q = false.
Proof.
  intros v e g S srv s pr req Hg.
  destruct v, e; inversion Hg; subst g; name_run srv s; walk srv;
    intros ->; cbn.
  all: split; [reflexivity |]; split; [lia |].
  all: intros q o Hin Hfrom; trace_facts; cbn in Hfrom; try discriminate Hfrom.
  all: cbn; repeat split; tauto.
Qed.

Lemma list_endpoint_reads_witness :
  forallb (fun ev => is_select (fst ev))
    (trace_of reader
       (handler Part001.get_api_cursos (a_process VUndefined)
          (a_request [] [("nivel", VStr "Primaria")] [] [])) demo)
  = true
  /\ List.length
       (trace_of reader
          (handler Part001.get_api_cursos (a_process VUndefined)
             (a_request [] [("nivel", VStr "Primaria")] [] [])) demo) <= 2
  /\ forall q o,
       In (Select q, o)
          (trace_of reader
             (handler Part001.get_api_cursos (a_process VUndefined)
                (a_request [] [("nivel", VStr "Primaria")] [] [])) demo) ->
       q_from q = entity_table Cursos ->
       In ("activo", VBool true) (q_filters q)
       /\ q_order q = order_field Cursos
       /\ q_limit q = None /\ q_single q = false.
Proof.
  apply (list_endpoint_reads part_001 Cursos Part001.get_api_cursos).
  reflexivity.
Defined.

(** Opening the exchange of a list endpoint, route by route. *)
Ltac open_list v e req Hg Hans :=
  destruct v, e; inversion Hg; subst;
  unfold list_exchange, list_query, nivel_lookup, all_cursos in *;
  try match type of Hans with
      | context [truthy (lookup "nivel" (query_string req))] =>
          destruct (truthy (lookup "nivel" (query_string req))) eqn:Hnivel;
          [match type of Hans with
           | context [truthy (data ?rl)] =>
               destruct (truthy (data rl)) eqn:Hlevel
           end |]
      end;
  open_answers Hans; unfold handler.

(** In each of the three files, when the service answers the read of the
    listed table without error with an array, the handler makes just the
    calls of the endpoint and is answered 200 with that very array,
    whatever it holds; in [src/server.js] and part_001 [count] is its
    length, in part_000 there is no [count]. *)
Theorem list_endpoint_passes_array :
  forall (v : variant) (e : list_endpoint) (g : guarded)
         (S : Type) (srv : S -> op -> outcome * S) (s s' : S)
         (pr : process) (req : request) (rl r : reply) (arr : list value),
    list_route v e = Some g ->
    answers srv s (list_exchange e req rl r) s' ->
    truthy (error r) = false ->
    data r = VArr arr ->
    run srv (handler g pr req) s
    = (Done (res_json (VObj (counted v arr ++ [(array_key e, VArr arr)]))),
       s', list_exchange e req rl r).
Proof.
  intros v e g S srv s s' pr req rl r arr Hg Hans He Hd.
  open_list v e req Hg Hans.
  all: follow; rewrite ?Hd; cbn; reflexivity.
Qed.

Lemma list_endpoint_passes_array_witness :
  run scripted
    (handler Part000.get_api_lecciones_cursoId (a_process VUndefined)
       (a_request [] [] [("cursoId", VStr "11")] []))
    [Resolved (ok (VArr [VNum 1; VNull]))]
  = (Done (res_json (VObj (counted part_000 [VNum 1; VNull]
                           ++ [(array_key Lecciones, VArr [VNum 1; VNull])]))),
     [],
     list_exchange Lecciones (a_request [] [] [("cursoId", VStr "11")] [])
       no_rows (ok (VArr [VNum 1; VNull]))).
Proof.
  apply (list_endpoint_passes_array part_000 Lecciones
           Part000.get_api_lecciones_cursoId (list outcome) scripted
           [Resolved (ok (VArr [VNum 1; VNull]))] []
           (a_process VUndefined) (a_request [] [] [("cursoId", VStr "11")] [])
           no_rows (ok (VArr [VNum 1; VNull])) [VNum 1; VNull]).
  - reflexivity.
  - cbn. eexists. split; reflexivity.
  - reflexivity.
  - reflexivity.
Defined.

(** In each of the three files, when the service answers the read of the
    listed table with an error, the handler makes just the calls of the
    endpoint and is answered 500 with the text ['Error al obtener '] and
    the name of the table; [src/server.js] and part_001 add the message
    of the error under [details], part_000 adds nothing. *)
Theorem list_endpoint_upstream_error :
  forall (v : variant) (e : list_endpoint) (g : guarded)
         (S : Type) (srv : S -> op -> outcome * S) (s s' : S)
         (pr : process) (req : request) (rl r : reply),
    list_route v e = Some g ->
    answers srv s (list_exchange e req rl r) s' ->
    truthy (error r) = true ->
    run srv (handler g pr req) s
    = (Done (res_status_json 500
               (VObj ([("error", VStr ("Error al obtener " ++ entity_table e))]
                      ++ match v with
                         | part_000 => []
                         | server_js | part_001 =>
                             [("details", member "message" (error r))]
                         end))),
       s', list_exchange e req rl r).
Proof.
  intros v e g S srv s s' pr req rl r Hg Hans He.
  open_list v e req Hg Hans.
  all: follow; reflexivity.
Qed.

Lemma list_endpoint_upstream_error_witness :
  run scripted
    (handler Part001.get_api_cursos (a_process VUndefined)
       (a_request [] [("nivel", VStr "Primaria")] [] []))
    [Resolved (ok (VObj [("id", VNum 1)])); Resolved permission_denied]
  = (Done (res_status_json 500
             (VObj ([("error", VStr ("Error al obtener " ++ entity_table Cursos))]
                    ++ [("details", member "message" (error permission_denied))]))),
     [],
     list_exchange Cursos (a_request [] [("nivel", VStr "Primaria")] [] [])
       (ok (VObj [("id", VNum 1)])) permission_denied).
Proof.
  apply (list_endpoint_upstream_error part_001 Cursos Part001.get_api_cursos
           (list outcome) scripted
           [Resolved (ok (VObj [("id", VNum 1)])); Resolved permission_denied] []
           (a_process VUndefined)
           (a_request [] [("nivel", VStr "Primaria")] [] [])
           (ok (VObj [("id", VNum 1)])) permission_denied).
  - reflexivity.
  - cbn. eexists. split; [reflexivity |]. eexists. split; reflexivity.
  - reflexivity.
Defined.

(** When the service answers the read of the listed table without error
    and without data: in [src/server.js] and part_001 [data.length]
    throws and the answer is 500 with the message of that [TypeError];
    part_000, which does not count, answers 200 with the empty [data]
    under the name of the entity. In each file these are the only calls
    made. *)
Theorem list_endpoint_without_data :
  forall (v : variant) (e : list_endpoint) (g : guarded)
         (S : Type) (srv : S -> op -> outcome * S) (s s' : S)
         (pr : process) (req : request) (rl r : reply),
    list_route v e = Some g ->
    answers srv s (list_exchange e req rl r) s' ->
    truthy (error r) = false ->
    nullish (data r) = true ->
    run srv (handler g pr req) s
    = (Done (match v with
             | part_000 => res_json (VObj [(array_key e, data r)])
             | server_js | part_001 =>
                 res_status_json 500 (VObj [
                   ("error", VStr "Error interno del servidor");
                   ("details", member "message" (type_error (data r) "length"))])
             end),
       s', list_exchange e req rl r).
Proof.
  intros v e g S srv s s' pr req rl r Hg Hans He Hd.
  open_list v e req Hg Hans.
  all: follow; rewrite ?type_error_not_nullish; cbn; reflexivity.
Qed.

Lemma list_endpoint_without_data_witness :
  run scripted
    (handler Server.get_api_instituciones (a_process VUndefined)
       (a_request [] [] [] []))
    [Resolved (ok VNull)]
  = (Done (res_status_json 500 (VObj [
       ("error", VStr "Error interno del servidor");
       ("details", member "message" (type_error (data (ok VNull)) "length"))])),
     [],
     list_exchange Instituciones (a_request [] [] [] []) no_rows (ok VNull)).
Proof.
  apply (list_endpoint_without_data server_js Instituciones
           Server.get_api_instituciones (list outcome) scripted
           [Resolved (ok VNull)] []
           (a_process VUndefined) (a_request [] [] [] [])
           no_rows (ok VNull)).
  - reflexivity.
  - cbn. eexists. split; reflexivity.
  - reflexivity.
  - reflexivity.
Defined.

(** [GET /api/cursos] of part_001 with a [nivel] that the lookup finds:
    the lookup asks for the one level of that name, and whenever it
    returns a row, with an error or not, the courses are read with the
    filter [nivel_id] on the [id] of that row, added to the filter on the
    active rows. *)
Theorem cursos_known_nivel :
  forall (S : Type) (srv : S -> op -> outcome * S) (s : S)
         (pr : process) (req : request) (q : query) (r : reply),
    truthy (lookup "nivel" (query_string req)) = true ->
    hd_error (trace_of srv (handler Part001.get_api_cursos pr req) s)
    = Some (Select q, Resolved r) ->
    truthy (data r) = true ->
    q = nivel_lookup (lookup "nivel" (query_string req))
    /\ exists o,
         trace_of srv (handler Part001.get_api_cursos pr req) s
         = [(Select q, Resolved r);
            (Select (all_cursos |> eq_ "nivel_id" (member "id" (data r))), o)].
Proof.
  intros S srv s pr req q r Hn.
  unfold nivel_lookup, all_cursos.
  name_run srv s. rewrite Hn. cbn. walk srv; intros ->; cbn.
  all: intros Hhd Hd; inversion Hhd; subst; try congruence.
  all: split; [reflexivity |]; eexists; reflexivity.
Qed.

Lemma cursos_known_nivel_witness :
  nivel_lookup (VStr "Primaria")
  = nivel_lookup (lookup "nivel"
                    (query_string (a_request [] [("nivel", VStr "Primaria")] [] [])))
  /\ exists o,
       trace_of reader
         (handler Part001.get_api_cursos (a_process VUndefined)
            (a_request [] [("nivel", VStr "Primaria")] [] [])) demo
       = [(Select (nivel_lookup (VStr "Primaria")),
           Resolved (ok (VObj [("id", VNum 1)])));
          (Select (all_cursos
                   |> eq_ "nivel_id"
                        (member "id" (data (ok (VObj [("id", VNum 1)]))))), o)].
Proof.
  apply (cursos_known_nivel store reader demo (a_process VUndefined)
           (a_request [] [("nivel", VStr "Primaria")] [] [])
           (nivel_lookup (VStr "Primaria")) (ok (VObj [("id", VNum 1)]))).
  - reflexivity.
  - reflexivity.
  - reflexivity.
Defined.

